(** * Contentstack toolkit: entry-to-Markdown renderer and Zod validator builder

    A shallow embedding of [src/markdown/index.ts] (the renderer) and
    [src/schema/index.ts] (the validator builder) together with the
    properties their specification states about them.

    Conventions of the embedding.
    - A JavaScript value is a [value]; an object is an ordinary object
      with data properties only, given as the list of its own properties
      in enumeration order and read by first match.  No value is callable.
      The members every object inherits from [Object.prototype] are not
      values of the model: a read [o[k]] is modelled for the names [k]
      that [Object.prototype] does not define ([plainName]), and the
      properties that depend on the read of an absent key say so.
    - A JavaScript number is the integer it denotes ([Z]); the model covers
      the integer-valued numbers below [2^53] in magnitude.  A heading
      level is a [number]: an integer or [NaN].
    - A string is a sequence of code units below 256; on these [length]
      and [trim] are JavaScript's.
    - A function that raises a [TypeError] in JavaScript, or that reads
      something outside the modelled fragment, returns [None]. *)

From Stdlib Require Import String Ascii List ZArith Bool Lia DecimalString.
Import ListNotations.

#[local] Open Scope list_scope.
#[local] Open Scope string_scope.
#[local] Open Scope Z_scope.

(** ** Option monad for fallible code *)

Definition bind {A B : Type} (m : option A) (f : A -> option B) : option B :=
  match m with
  | Some a => f a
  | None => None
  end.

Notation "'let*' x ':=' m 'in' k" := (bind m (fun x => k))
  (at level 10, x name, m at level 100, k at level 200).

Fixpoint mapM {A B : Type} (f : A -> option B) (l : list A) : option (list B) :=
  match l with
  | [] => Some []
  | x :: l' =>
      let* y := f x in
      let* ys := mapM f l' in
      Some (y :: ys)
  end.

(** ** JavaScript values *)

Module Js.

#[warnings="-register-all"]
Inductive value : Type :=
| VUndefined
| VNull
| VBool (b : bool)
| VNum (n : Z)
| VStr (s : string)
| VArr (items : list value)
| VObj (props : list (string * value)).

Definition object : Type := list (string * value).

(** The names an object inherits from [Object.prototype]. *)
Definition prototypeNames : list string :=
  [ "constructor"; "__proto__"; "hasOwnProperty"; "isPrototypeOf";
    "propertyIsEnumerable"; "toLocaleString"; "toString"; "valueOf";
    "__defineGetter__"; "__defineSetter__"; "__lookupGetter__";
    "__lookupSetter__" ].

(** A property name that [Object.prototype] does not define: reading it
    from an object that has no such own property gives [undefined]. *)
Definition plainName (k : string) : bool :=
  negb (existsb (String.eqb k) prototypeNames).

(** [o[k]] on an object: the first own property named [k], else
    [undefined].  For a name of [prototypeNames] that the object does not
    have as an own property JavaScript reads the inherited member instead,
    which is no value of the model. *)
Fixpoint lookup (k : string) (o : object) : value :=
  match o with
  | [] => VUndefined
  | (k', v) :: o' => if String.eqb k' k then v else lookup k o'
  end.

(** [k in o] for own properties. *)
Fixpoint hasKey (k : string) (o : object) : bool :=
  match o with
  | [] => false
  | (k', _) :: o' => String.eqb k' k || hasKey k o'
  end.

(** The same read as [lookup], with the continuation applied in place so
    that recursive functions over values may descend into the property. *)
Fixpoint lookupWith {A : Type} (k : string) (f : value -> A) (d : A)
  (o : object) : A :=
  match o with
  | [] => d
  | (k', v) :: o' => if String.eqb k' k then f v else lookupWith k f d o'
  end.

(** [o[k] = v] on an object used as a map: an existing key keeps its place. *)
Fixpoint setKey {A : Type} (k : string) (v : A) (o : list (string * A))
  : list (string * A) :=
  match o with
  | [] => [(k, v)]
  | (k', v') :: o' =>
      if String.eqb k' k then (k', v) :: o' else (k', v') :: setKey k v o'
  end.

(** Property read [v.k]: a [TypeError] on [null] and [undefined]; reads on
    primitives and arrays are outside the modelled fragment. *)
Definition getProp (v : value) (k : string) : option value :=
  match v with
  | VObj o => Some (lookup k o)
  | _ => None
  end.

(** Optional read [v?.k] of a name no built-in prototype defines. *)
Definition getOpt (v : value) (k : string) : value :=
  match v with
  | VObj o => lookup k o
  | _ => VUndefined
  end.

Definition truthy (v : value) : bool :=
  match v with
  | VUndefined | VNull => false
  | VBool b => b
  | VNum n => negb (Z.eqb n 0)
  | VStr s => negb (String.eqb s "")
  | VArr _ | VObj _ => true
  end.

(** [a || b] *)
Definition orElse (a b : value) : value := if truthy a then a else b.

Definition LF : string := String (ascii_of_nat 10) "".
Definition DQUOTE : string := String (ascii_of_nat 34) "".
Definition BACKTICK : string := String (ascii_of_nat 96) "".

(** White space and line terminators among the code units below 256: tab
    to carriage return, space, and the no-break space. *)
Definition isSpace (c : ascii) : bool :=
  let n := nat_of_ascii c in
  (Nat.eqb n 32 || (Nat.leb 9 n && Nat.leb n 13) || Nat.eqb n 160)%bool.

Fixpoint trimStart (s : string) : string :=
  match s with
  | String c s' => if isSpace c then trimStart s' else s
  | EmptyString => EmptyString
  end.

Fixpoint trimEnd (s : string) : string :=
  match s with
  | EmptyString => EmptyString
  | String c s' =>
      match trimEnd s' with
      | EmptyString => if isSpace c then EmptyString else String c EmptyString
      | t => String c t
      end
  end.

(** [s.trim()] *)
Definition trim (s : string) : string := trimEnd (trimStart s).

(** [l.join(sep)] on an array of strings. *)
Definition join (sep : string) (l : list string) : string := String.concat sep l.

(** [s.startsWith(p)] *)
Definition startsWith (p s : string) : bool := String.prefix p s.

(** [s.repeat(n)] for an integer count in range. *)
Fixpoint repeat (s : string) (n : nat) : string :=
  match n with
  | O => ""
  | S n' => s ++ repeat s n'
  end.

(** [s.replace(/c/g, r)] for a one-character pattern. *)
Fixpoint replaceChar (c : ascii) (r : string) (s : string) : string :=
  match s with
  | EmptyString => EmptyString
  | String d s' =>
      if Ascii.eqb d c then r ++ replaceChar c r s'
      else String d (replaceChar c r s')
  end.

(** Decimal digits of an integer, as [String(n)] prints a safe integer. *)
Definition decimal (n : Z) : string := NilZero.string_of_int (Z.to_int n).

(** [String(v)], also the coercion of a template literal.  An object is
    coerced by its [toString] method: the inherited one gives
    [[object Object]]; an own property named [toString] hides it, and as
    no value of the model is callable the coercion then falls through
    [valueOf] to a [TypeError].  An array joins the coercions of its
    elements. *)
Fixpoint toString (v : value) : option string :=
  match v with
  | VUndefined => Some "undefined"
  | VNull => Some "null"
  | VBool true => Some "true"
  | VBool false => Some "false"
  | VNum n => Some (decimal n)
  | VStr s => Some s
  | VArr l =>
      let* parts := mapM (fun x => match x with
                                   | VUndefined | VNull => Some ""
                                   | _ => toString x
                                   end) l in
      Some (join "," parts)
  | VObj o => if hasKey "toString" o then None else Some "[object Object]"
  end.

(** [Number(v)] where the result is an integer; strings and objects are
    outside the modelled fragment. *)
Definition toNumber (v : value) : option Z :=
  match v with
  | VNum n => Some n
  | VBool b => Some (if b then 1 else 0)
  | VNull => Some 0
  | _ => None
  end.

(** A number where the code computes with a heading level: an integer, or
    [NaN], which is also what [undefined] turns into in [Math.max] and in
    an addition. *)
Inductive number : Type :=
| Int (n : Z)
| NaN.

Declare Scope number_scope.
Delimit Scope number_scope with number.
Bind Scope number_scope with number.

Coercion Int : Z >-> number.

(** [a + b] *)
Definition plus (a b : number) : number :=
  match a, b with
  | Int x, Int y => Int (x + y)
  | _, _ => NaN
  end.

Notation "a + b" := (plus a b) : number_scope.

(** [Math.max(a, b)] and [Math.min(a, b)] *)
Definition mathMax (a b : number) : number :=
  match a, b with
  | Int x, Int y => Int (Z.max x y)
  | _, _ => NaN
  end.

Definition mathMin (a b : number) : number :=
  match a, b with
  | Int x, Int y => Int (Z.min x y)
  | _, _ => NaN
  end.

(** Built-ins of the host that the embedding takes as given. *)
Record Host : Type := {
  (** [new RegExp(p)]: [None] when the pattern is malformed, else its
      [test] function. *)
  RegExp : string -> option (string -> bool);
  (** [new Date(s).getTime()]: [None] for an invalid date. *)
  dateTime : string -> option Z;
  (** the check of [z.string().datetime()] *)
  zodDatetime : string -> bool;
  (** [new Date(s).toLocaleDateString("en-US", {year, month: "long", day})],
      [None] for an invalid date. *)
  toLocaleDateString : string -> option string;
  (** [JSON.stringify(v, null, 2)] *)
  stringifyPretty : value -> string
}.

End Js.

Import Js.

(** ** Schema structures, [src/types.ts] *)

Module Types.

Record ContentstackEnumChoice : Type := {
  choice_value : string;
  choice_key : option string
}.

Record ContentstackEnum : Type := {
  choices : option (list ContentstackEnumChoice);
  advanced : bool
}.

(** The flags are optional booleans read for truthiness only; an absent
    flag is [false]. *)
Record ContentstackFieldMetadata : Type := {
  description : option string;
  allow_rich_text : bool;
  allow_json_rte : bool;
  multiline : bool
}.

(** [schema] and [blocks] are optional arrays that the code reads only as
    [field.schema || []] and [field.blocks || []]; an absent one is [[]].
    [mandatory] and [multiple] are optional booleans read for truthiness. *)
#[warnings="-register-all"]
Inductive ContentstackField : Type := mkField {
  uid : string;
  data_type : string;
  display_name : option string;
  mandatory : bool;
  multiple : bool;
  enum : option ContentstackEnum;
  schema : list ContentstackField;
  blocks : list ContentstackBlock;
  field_metadata : option ContentstackFieldMetadata;
  format : option string;
  startDate : option string;
  endDate : option string;
  max_instance : option Z
}
with ContentstackBlock : Type := mkBlock {
  block_uid : string;
  block_title : option string;
  block_reference_to : option string;
  block_schema : list ContentstackField
}.

Record ContentstackContentType : Type := {
  ct_uid : option string;
  ct_title : option string;
  ct_schema : option (list ContentstackField)
}.

(** [SchemaOptions.mode] *)
Inductive Mode : Type := Read | Upsert.

Record SchemaOptions : Type := {
  mode : option Mode
}.

(** [field.field_metadata?.flag] read for truthiness. *)
Definition metaFlag (flag : ContentstackFieldMetadata -> bool)
  (field : ContentstackField) : bool :=
  match field_metadata field with
  | Some m => flag m
  | None => false
  end.

(** [s || d] for an optional string. *)
Definition strOr (s : option string) (d : string) : string :=
  match s with
  | Some t => if String.eqb t "" then d else t
  | None => d
  end.

(** A field with only the required properties set. *)
Definition field (uid data_type : string) : ContentstackField := {|
  uid := uid; data_type := data_type; display_name := None;
  mandatory := false; multiple := false; enum := None;
  schema := []; blocks := []; field_metadata := None; format := None;
  startDate := None; endDate := None; max_instance := None
|}.

End Types.

Import Types.

(** ** The renderer, [src/markdown/index.ts] *)

Module Markdown.

Definition SYSTEM_FIELDS : list string :=
  [ "uid"; "locale"; "created_at"; "updated_at"; "created_by"; "updated_by";
    "ACL"; "_version"; "_in_progress"; "_embedded_items"; "publish_details";
    "_metadata"; "tags" ].

(** [SYSTEM_FIELDS.has(uid)] *)
Definition isSystemField (uid : string) : bool :=
  existsb (String.eqb uid) SYSTEM_FIELDS.

(** [MarkdownOptions]: every option may be left out ([None]).  An option
    given as [undefined] replaces the default like any other value; it is
    written here as the value it behaves as: [NaN] for [headingLevel],
    [false] for a flag, a function that always throws for a formatter.  A
    [titleField] or [descriptionField] given as [undefined] is outside the
    model.  A formatter returns [None] when it throws. *)
Record MarkdownOptions : Type := {
  o_headingLevel : option number;
  o_formatDate : option (string -> option string);
  o_formatNumber : option (Z -> option string);
  o_skipEmpty : option bool;
  o_includeSystemFields : option bool;
  o_useTables : option bool;
  o_titleField : option string;
  o_descriptionField : option string
}.

(** [Required<MarkdownOptions>] *)
Record RequiredOptions : Type := {
  headingLevel : number;
  formatDate : string -> option string;
  formatNumber : Z -> option string;
  skipEmpty : bool;
  includeSystemFields : bool;
  useTables : bool;
  titleField : string;
  descriptionField : string
}.

Definition formatDateHuman (h : Host) (isoDate : string) : string :=
  match toLocaleDateString h isoDate with
  | None => isoDate
  | Some s => s
  end.

(** Thousands grouping of a digit string, as [toLocaleString("en-US")]. *)
Fixpoint groupRev (digits : list ascii) (k : nat) : list ascii :=
  match digits with
  | [] => []
  | d :: ds =>
      match k with
      | O => ","%char :: d :: groupRev ds 2
      | S k' => d :: groupRev ds k'
      end
  end.

Definition groupThousands (digits : string) : string :=
  string_of_list_ascii
    (rev (groupRev (rev (list_ascii_of_string digits)) 3)).

(** [num.toLocaleString("en-US")] on an integer. *)
Definition toLocaleString (num : Z) : string :=
  (if num <? 0 then "-" else "") ++ groupThousands (decimal (Z.abs num)).

(** [(num / den).toFixed(1)] for [0 <= num < 2^53] and [den] a positive
    multiple of 20.  The quotient is rounded to one decimal, the larger
    candidate on a tie; a tie that binary64 cannot represent is rounded by
    the error of the division and is left out ([None]). *)
Definition toFixed1 (num den : Z) : option string :=
  if (num <? 0) || (2 ^ 53 <=? num) then None
  else
    let tie := Z.eqb ((20 * num) mod (2 * den)) den in
    if tie && negb (Z.eqb ((4 * num) mod den) 0) then None
    else
      let n := (20 * num + den) / (2 * den) in
      Some (decimal (n / 10) ++ "." ++ decimal (n mod 10)).

(** [s.replace(/\.0$/, "")] *)
Fixpoint dropDotZero (s : string) : string :=
  match s with
  | EmptyString => EmptyString
  | String c s' =>
      if String.eqb (String c s') ".0" then EmptyString
      else String c (dropDotZero s')
  end.

Definition formatNumberWithCommas (num : Z) : option string :=
  if 1000000000 <=? num then
    let* s := toFixed1 num 1000000000 in
    Some (dropDotZero s ++ "B")
  else if 1000000 <=? num then
    let* s := toFixed1 num 1000000 in
    Some (dropDotZero s ++ "M")
  else Some (toLocaleString num).

Definition DEFAULT_OPTIONS (h : Host) : RequiredOptions := {|
  headingLevel := 1;
  formatDate := fun isoDate => Some (formatDateHuman h isoDate);
  formatNumber := formatNumberWithCommas;
  skipEmpty := true;
  includeSystemFields := false;
  useTables := true;
  titleField := "title";
  descriptionField := "meta_description"
|}.

Definition isEmpty (v : value) : bool :=
  match v with
  | VUndefined | VNull => true
  | VStr s => String.eqb (trim s) ""
  | VArr [] => true
  | _ => false
  end.

(** [heading(text, level)]: the count given to [repeat] is within 1..6 or
    [NaN], which [repeat] takes as zero. *)
Definition heading (text : string) (level : number) : string :=
  let safeLevel := mathMin (mathMax level 1) 6 in
  match safeLevel with
  | Int n => repeat "#" (Z.to_nat n)
  | NaN => ""
  end ++ " " ++ text.

Definition escapeTableCell (text : string) : string :=
  replaceChar (ascii_of_nat 10) " " (replaceChar "|"%char "\|" text).

(** [{ ...DEFAULT_OPTIONS, ...options }] *)
Definition mergeOptions (d : RequiredOptions) (options : option MarkdownOptions)
  : RequiredOptions :=
  match options with
  | None => d
  | Some o => {|
      headingLevel := match o_headingLevel o with Some x => x | None => headingLevel d end;
      formatDate := match o_formatDate o with Some x => x | None => formatDate d end;
      formatNumber := match o_formatNumber o with Some x => x | None => formatNumber d end;
      skipEmpty := match o_skipEmpty o with Some x => x | None => skipEmpty d end;
      includeSystemFields :=
        match o_includeSystemFields o with Some x => x | None => includeSystemFields d end;
      useTables := match o_useTables o with Some x => x | None => useTables d end;
      titleField := match o_titleField o with Some x => x | None => titleField d end;
      descriptionField :=
        match o_descriptionField o with Some x => x | None => descriptionField d end
    |}
  end.

Notation "a === b" := (String.eqb a b) (at level 70, no associativity).

(** [v || d] where [v] is declared a string. *)
Definition asStringOr (v : value) (d : string) : option string :=
  if truthy v then
    match v with
    | VStr s => Some s
    | _ => None
    end
  else Some d.

Definition isImageAsset (asset : value) : option bool :=
  let* content_type := getProp asset "content_type" in
  if negb (truthy content_type) then Some false
  else
    match content_type with
    | VStr s => Some (startsWith "image/" s)
    | _ => None
    end.

Definition hasNestedGroups (schema : list ContentstackField) : bool :=
  existsb (fun field => (data_type field === "group") || (data_type field === "blocks"))
    schema.

(** *** Rich text *)

Definition wrapIf (flag : value) (l r text : string) : string :=
  if truthy flag then l ++ text ++ r else text.

(** The inline formatting of a text node. *)
Definition applyMarks (node : object) (text : string) : string :=
  let text := wrapIf (lookup "bold" node) "**" "**" text in
  let text := wrapIf (lookup "italic" node) "*" "*" text in
  let text := wrapIf (lookup "underline" node) "<u>" "</u>" text in
  let text := wrapIf (lookup "strikethrough" node) "~~" "~~" text in
  let text := wrapIf (lookup "code" node) BACKTICK BACKTICK text in
  let text := wrapIf (lookup "superscript" node) "<sup>" "</sup>" text in
  let text := wrapIf (lookup "subscript" node) "<sub>" "</sub>" text in
  text.

Fixpoint numbered (i : Z) (l : list string) : list string :=
  match l with
  | [] => []
  | content :: l' => (decimal (i + 1) ++ ". " ++ content) :: numbered (i + 1) l'
  end.

Definition tableRow (cells : list string) : string :=
  "| " ++ join " | " cells ++ " |".

(** The [switch (node.type)] of [jsonRteToMarkdown], given the rendering of
    each child and, for a table, the cells of each row child. *)
Definition containerToMarkdown (node : object) (rendered : list string)
  (rows : option (list (list string))) : option string :=
  let childContent := join "" rendered in
  let attrs := lookup "attrs" node in
  match lookup "type" node with
  | VStr type =>
      if type === "doc" then Some (trim childContent)
      else if type === "p" then Some (childContent ++ LF ++ LF)
      else if type === "h1" then Some ("# " ++ childContent ++ LF ++ LF)
      else if type === "h2" then Some ("## " ++ childContent ++ LF ++ LF)
      else if type === "h3" then Some ("### " ++ childContent ++ LF ++ LF)
      else if type === "h4" then Some ("#### " ++ childContent ++ LF ++ LF)
      else if type === "h5" then Some ("##### " ++ childContent ++ LF ++ LF)
      else if type === "h6" then Some ("###### " ++ childContent ++ LF ++ LF)
      else if type === "blockquote" then
        Some ("> " ++ replaceChar (ascii_of_nat 10) (LF ++ "> ") (trim childContent)
                ++ LF ++ LF)
      else if type === "ul" then
        Some (join LF (map (fun content => "- " ++ trim content) rendered) ++ LF ++ LF)
      else if type === "ol" then
        Some (join LF (numbered 0 (map trim rendered)) ++ LF ++ LF)
      else if type === "li" then Some (trim childContent)
      else if (type === "code_block") || (type === "code") then
        let* lang := toString (orElse (getOpt attrs "language") (VStr "")) in
        Some ("```" ++ lang ++ LF ++ trim childContent ++ LF ++ "```" ++ LF ++ LF)
      else if type === "hr" then Some ("---" ++ LF ++ LF)
      else if (type === "a") || (type === "link") then
        let* href :=
          toString (orElse (orElse (getOpt attrs "url") (getOpt attrs "href"))
                      (VStr "")) in
        Some ("[" ++ childContent ++ "](" ++ href ++ ")")
      else if (type === "img") || (type === "image") then
        let src := orElse (orElse (getOpt attrs "src") (getOpt attrs "url")) (VStr "") in
        let* alt := toString (orElse (getOpt attrs "alt") (VStr "Image")) in
        let* src := toString src in
        Some ("![" ++ alt ++ "](" ++ src ++ ")" ++ LF ++ LF)
      else if type === "table" then
        let* rows := rows in
        match rows with
        | [] => Some ""
        | header :: body =>
            let separator := tableRow (List.repeat "---" (List.length header)) in
            Some (join LF (tableRow header :: separator :: map tableRow body) ++ LF ++ LF)
        end
      else Some childContent
  | _ => Some childContent
  end.

(** [c.type === "tr" || c.type === "row"] *)
Definition isRowType (type : value) : bool :=
  match type with
  | VStr t => (t === "tr") || (t === "row")
  | _ => false
  end.

Fixpoint somes {A : Type} (l : list (option A)) : list A :=
  match l with
  | [] => []
  | Some a :: l' => a :: somes l'
  | None :: l' => somes l'
  end.

(** [jsonRteToMarkdown(node)].  A child is rendered once and the result
    reused where the source renders it again ([ul], [ol], table cells). *)
Fixpoint jsonRteToMarkdown (node : value) : option string :=
  match node with
  | VObj o =>
      match lookup "text" o with
      | VStr text => Some (applyMarks o text)
      | _ =>
          let render := fun children : list value =>
            let* rendered := mapM jsonRteToMarkdown children in
            containerToMarkdown o rendered
              (let* rs :=
                 mapM (fun c =>
                   match c with
                   | VUndefined | VNull => None
                   | VObj row =>
                       if isRowType (lookup "type" row) then
                         let* cells :=
                           lookupWith "children"
                             (fun cs =>
                                if truthy cs then
                                  match cs with
                                  | VArr cells =>
                                      mapM (fun cell =>
                                              let* s := jsonRteToMarkdown cell in
                                              Some (escapeTableCell (trim s))) cells
                                  | _ => None
                                  end
                                else Some [])
                             (Some []) row in
                         Some (Some cells)
                       else Some None
                   | _ => Some None
                   end) children in
               Some (somes rs))
          in
          lookupWith "children"
            (fun c =>
               if truthy c then
                 match c with
                 | VArr l => render l
                 | _ => None
                 end
               else render [])
            (render []) o
      end
  | VArr _ => Some ""
  | _ => if truthy node then None else Some ""
  end.

(** *** Fields *)

Definition primitiveToMarkdown (h : Host) (value : value)
  (field : ContentstackField) (options : RequiredOptions) : option string :=
  if isEmpty value then Some ""
  else
    let type := data_type field in
    if type === "text" then
      match value with
      | VArr l =>
          let* parts := mapM (fun v => let* s := toString v in
                                       Some (BACKTICK ++ s ++ BACKTICK)) l in
          Some (join " · " parts)
      | _ => toString value
      end
    else if type === "number" then
      let* num := toNumber value in
      formatNumber options num
    else if type === "boolean" then
      Some (if truthy value then "**Yes**" else "**No**")
    else if type === "isodate" then
      let* isoDate := toString value in
      formatDate options isoDate
    else if type === "link" then
      let* href := getProp value "href" in
      let* title := getProp value "title" in
      if truthy href then
        let* text := toString (orElse title href) in
        let* target := toString href in
        Some ("[" ++ text ++ "](" ++ target ++ ")")
      else asStringOr title ""
    else if type === "file" then
      let* url := getProp value "url" in
      let* title := getProp value "title" in
      let* filename := getProp value "filename" in
      if negb (truthy url) then asStringOr (orElse title filename) ""
      else
        let* image := isImageAsset value in
        if image then
          let* text := toString (orElse (orElse title filename) (VStr "Image")) in
          let* target := toString url in
          Some ("![" ++ text ++ "](" ++ target ++ ")")
        else
          let* text := toString (orElse (orElse title filename) (VStr "File")) in
          let* target := toString url in
          Some ("[" ++ text ++ "](" ++ target ++ ")")
    else if (type === "reference") || (type === "global_field") then
      let* title := getProp value "title" in
      let* uid := getProp value "uid" in
      if truthy title then asStringOr title ""
      else let* text := toString uid in Some ("uid: " ++ text)
    else if type === "json" then
      if metaFlag allow_json_rte field then jsonRteToMarkdown value
      else Some ("```json" ++ LF ++ stringifyPretty h value ++ LF ++ "```")
    else if type === "taxonomy" then
      match value with
      | VArr terms =>
          let* lines := mapM (fun t => let* term_uid := getProp t "term_uid" in
                                       let* text := toString term_uid in
                                       Some ("- " ++ text)) terms in
          Some (join LF lines)
      | _ => None
      end
    else toString value.

(** [SYSTEM_FIELDS.has(field.uid) && !options.includeSystemFields] *)
Definition skipsSystemField (options : RequiredOptions) (field : ContentstackField)
  : bool :=
  isSystemField (uid field) && negb (includeSystemFields options).

(** [field.display_name || field.uid] *)
Definition labelOf (field : ContentstackField) : string :=
  strOr (display_name field) (uid field).

(** One iteration of the loop of [groupToTable]: the image lines and the
    table rows it pushes. *)
Definition groupToTableField (h : Host) (value : value) (options : RequiredOptions)
  (field : ContentstackField) : option (list string * list string) :=
  if skipsSystemField options field then Some ([], [])
  else
    let* fieldValue := getProp value (uid field) in
    if skipEmpty options && isEmpty fieldValue then Some ([], [])
    else
      let label := labelOf field in
      let* image :=
        if (data_type field === "file") && truthy fieldValue then
          let* url := getProp fieldValue "url" in
          if truthy url then
            let* img := isImageAsset fieldValue in
            if img then
              let* target := toString url in
              Some (Some ("![" ++ label ++ "](" ++ target ++ ")"))
            else Some None
          else Some None
        else Some None in
      match image with
      | Some line => Some ([line], [])
      | None =>
          let* rendered := primitiveToMarkdown h fieldValue field options in
          if rendered === "" then Some ([], [])
          else
            Some ([], ["| **" ++ escapeTableCell label ++ "** | "
                         ++ escapeTableCell rendered ++ " |"])
      end.

Definition groupToTable (h : Host) (value : value)
  (schema : list ContentstackField) (options : RequiredOptions) : option string :=
  let* pushed := mapM (groupToTableField h value options) schema in
  let imageLines := concat (map fst pushed) in
  let lines := "| Field | Value |" :: "|-------|-------|" :: concat (map snd pushed) in
  let result :=
    ((match imageLines with
      | [] => []
      | _ => [join (LF ++ LF) imageLines; ""]
      end)
     ++ (if (2 <? Z.of_nat (List.length lines)) then [join LF lines] else []))%list in
  Some (join LF result).

(** [!values || values.length === 0] *)
Definition noItems (values : value) : bool :=
  negb (truthy values) ||
  match values with
  | VArr [] => true
  | VObj o => match lookup "length" o with VNum 0 => true | _ => false end
  | _ => false
  end.

(** The columns of the table of a repeatable group. *)
Definition visibleFields (options : RequiredOptions)
  (schema : list ContentstackField) : list ContentstackField :=
  filter (fun f => negb (isSystemField (uid f))
                   && (includeSystemFields options || negb (startsWith "_" (uid f))))
    schema.

Definition repeatableGroupToTable (h : Host) (values : value)
  (schema : list ContentstackField) (options : RequiredOptions) : option string :=
  if noItems values then Some ""
  else
    let visible := visibleFields options schema in
    match visible with
    | [] => Some ""
    | _ =>
        let headers := map labelOf visible in
        match values with
        | VArr items =>
            let* rows :=
              mapM (fun item =>
                      let* cells :=
                        mapM (fun field =>
                                let* fieldValue := getProp item (uid field) in
                                if isEmpty fieldValue then Some ""
                                else
                                  let* rendered :=
                                    primitiveToMarkdown h fieldValue field options in
                                  Some (escapeTableCell rendered)) visible in
                      Some (tableRow cells)) items in
            Some (join LF (tableRow headers :: tableRow (map (fun _ => "---") headers)
                             :: rows))
        | _ => None
        end
    end.

(** The lines one field of a block pushes, in the loop over the block's
    schema in [blocksToMarkdown]. *)
Definition blockFieldLines (h : Host) (options : RequiredOptions)
  (blockValue : value) (firstTextField : option ContentstackField)
  (field : ContentstackField) : option (list string) :=
  if skipsSystemField options field then Some []
  else if match firstTextField with
          | Some f => uid field === uid f
          | None => false
          end then Some []
  else
    let* fieldValue := getProp blockValue (uid field) in
    if skipEmpty options && isEmpty fieldValue then Some []
    else
      let label := labelOf field in
      let* rendered := primitiveToMarkdown h fieldValue field options in
      if rendered === "" then Some []
      else if (data_type field === "file") && truthy (getOpt fieldValue "url") then
        Some [rendered; ""]
      else if (data_type field === "json") && metaFlag allow_json_rte field then
        Some ["> " ++ replaceChar (ascii_of_nat 10) (LF ++ "> ") (trim rendered); ""]
      else if metaFlag multiline field
              || ((data_type field === "text")
                  && (100 <? Z.of_nat (String.length rendered))) then
        Some ["> " ++ rendered; ""]
      else Some ["**" ++ label ++ ":** " ++ rendered; ""].

(** The lines one item pushes, in the loop over [blocks] in
    [blocksToMarkdown]. *)
Definition blockItemLines (h : Host) (options : RequiredOptions) (level : number)
  (blockDefs : list ContentstackBlock) (blockItem : value) : option (list string) :=
  match blockItem with
  | VObj item =>
      match find (fun k => negb (startsWith "_" k)) (map fst item) with
      | None => Some []
      | Some blockKey =>
          if blockKey === "" then Some []
          else
            match find (fun b => block_uid b === blockKey) blockDefs with
            | None => Some []
            | Some blockDef =>
                let blockValue := lookup blockKey item in
                let blockSchema := block_schema blockDef in
                let blockTitle := strOr (block_title blockDef) blockKey in
                let firstTextField :=
                  find (fun f => (data_type f === "text") && mandatory f) blockSchema in
                let* titleValue :=
                  match firstTextField with
                  | Some f => getProp blockValue (uid f)
                  | None => Some VNull
                  end in
                let* head :=
                  if truthy titleValue
                  then let* title := toString titleValue in
                       Some (heading (blockTitle ++ ": " ++ title) level)
                  else Some (heading blockTitle level) in
                let* body :=
                  if blockKey === "quote" then
                    let* quoteText := getProp blockValue "quote_text" in
                    let* attribution := getProp blockValue "attribution" in
                    if truthy quoteText then
                      let* quote := toString quoteText in
                      let* credit :=
                        if truthy attribution
                        then let* name := toString attribution in
                             Some [">"; "> — **" ++ name ++ "**"; ""]
                        else Some [""] in
                      Some (("> *" ++ DQUOTE ++ quote ++ DQUOTE ++ "*") :: credit)
                    else Some []
                  else
                    let* ls := mapM (blockFieldLines h options blockValue firstTextField)
                                 blockSchema in
                    Some (concat ls) in
                Some (head :: "" :: List.app body ["---"; ""])
            end
      end
  | _ => None
  end.

(** [if (lines.length >= 2 && lines[lines.length - 2] === "---")
      lines.splice(lines.length - 2, 1)] *)
Definition dropTrailingSeparator (lines : list string) : list string :=
  match rev lines with
  | last :: before :: rest =>
      if before === "---" then rev (last :: rest) else lines
  | _ => lines
  end.

Definition blocksToMarkdown (h : Host) (blocks : value)
  (blockDefs : list ContentstackBlock) (level : number) (options : RequiredOptions)
  : option string :=
  if noItems blocks then Some ""
  else
    match blocks with
    | VArr items =>
        let* ls := mapM (blockItemLines h options level blockDefs) items in
        Some (trim (join LF (dropTrailingSeparator (concat ls))))
    | _ => None
    end.

(** The lines one field pushes, in the loop of [groupToHeadings]. *)
Fixpoint groupToHeadingsField (h : Host) (options : RequiredOptions)
  (value : value) (level : number) (field : ContentstackField) {struct field}
  : option (list string) :=
  if skipsSystemField options field then Some []
  else
    let* fieldValue := getProp value (uid field) in
    if skipEmpty options && isEmpty fieldValue then Some []
    else
      let label := labelOf field in
      if (data_type field === "group") && negb (multiple field) then
        let groupSchema := schema field in
        let nested := fun _ : unit =>
          let* ls := mapM (groupToHeadingsField h options fieldValue
                             (level + 1)%number)
                       groupSchema in
          Some (trim (join LF (concat ls))) in
        let* inner :=
          if hasNestedGroups groupSchema then nested tt
          else if useTables options then groupToTable h fieldValue groupSchema options
          else nested tt in
        Some [heading label level; ""; inner; ""]
      else if (data_type field === "group") && multiple field then
        let* table := repeatableGroupToTable h fieldValue (schema field) options in
        Some [heading label level; ""; table; ""]
      else if data_type field === "blocks" then
        let* sections :=
          blocksToMarkdown h fieldValue (blocks field) (level + 1) options in
        Some [heading label level; ""; sections]
      else
        let* rendered := primitiveToMarkdown h fieldValue field options in
        if rendered === "" then Some []
        else if (data_type field === "file") && truthy (getOpt fieldValue "url") then
          Some [rendered; ""]
        else if (data_type field === "json") && metaFlag allow_json_rte field then
          Some ["**" ++ label ++ ":**"; ""; rendered; ""]
        else Some ["**" ++ label ++ ":** " ++ rendered; ""].

Definition groupToHeadings (h : Host) (value : value)
  (schema : list ContentstackField) (level : number) (options : RequiredOptions)
  : option string :=
  let* ls := mapM (groupToHeadingsField h options value level) schema in
  Some (trim (join LF (concat ls))).

(** The lines one field pushes, in the loop of [entryToMarkdown]. *)
Definition entryFieldLines (h : Host) (opts : RequiredOptions) (entry : object)
  (field : ContentstackField) : option (list string) :=
  if (uid field === titleField opts) || (uid field === descriptionField opts)
  then Some []
  else if skipsSystemField opts field then Some []
  else
    let fieldValue := lookup (uid field) entry in
    if skipEmpty opts && isEmpty fieldValue then Some []
    else
      let label := labelOf field in
      let fieldLevel := (headingLevel opts + 1)%number in
      if (data_type field === "group") && negb (multiple field) then
        let groupSchema := schema field in
        let* inner :=
          if hasNestedGroups groupSchema
          then groupToHeadings h fieldValue groupSchema (fieldLevel + 1) opts
          else if useTables opts then groupToTable h fieldValue groupSchema opts
          else groupToHeadings h fieldValue groupSchema (fieldLevel + 1) opts in
        Some ["---"; ""; heading label fieldLevel; ""; inner; ""]
      else if (data_type field === "group") && multiple field then
        let* table := repeatableGroupToTable h fieldValue (schema field) opts in
        Some ["---"; ""; heading label fieldLevel; ""; table; ""]
      else if data_type field === "blocks" then
        let* sections :=
          blocksToMarkdown h fieldValue (blocks field) (fieldLevel + 1) opts in
        Some ["---"; ""; heading label fieldLevel; ""; sections; ""]
      else
        let* rendered := primitiveToMarkdown h fieldValue field opts in
        if rendered === "" then Some []
        else if (data_type field === "file")
                || ((data_type field === "json") && metaFlag allow_json_rte field) then
          Some ["---"; ""; heading label fieldLevel; ""; rendered; ""]
        else if multiple field && (data_type field === "text") then
          Some ["---"; ""; "**" ++ label ++ ":** " ++ rendered; ""]
        else Some ["**" ++ label ++ ":** " ++ rendered; ""].

(** [v && typeof v === "string"] *)
Definition nonEmptyString (v : value) : option string :=
  match v with
  | VStr s => if s === "" then None else Some s
  | _ => None
  end.

Definition entryToMarkdown (h : Host) (entry : object)
  (contentType : ContentstackContentType) (options : option MarkdownOptions)
  : option string :=
  let opts := mergeOptions (DEFAULT_OPTIONS h) options in
  let* schema := ct_schema contentType in
  let titleLines :=
    match nonEmptyString (lookup (titleField opts) entry) with
    | Some titleValue => [heading titleValue (headingLevel opts); ""]
    | None => []
    end in
  let descLines :=
    match nonEmptyString (lookup (descriptionField opts) entry) with
    | Some descValue => ["> " ++ descValue; ""]
    | None => []
    end in
  let* ls := mapM (entryFieldLines h opts entry) schema in
  Some (trim (join LF (titleLines ++ descLines ++ concat ls)%list)).

End Markdown.

(** ** The validation library

    The Zod combinators the validator builder uses, with the parsing
    behaviour the library documents: [parse z v] is [Some data] when
    [z.safeParse(v)] succeeds with [data], and [None] when it fails.  The
    issues of a failure are not modelled. *)

Module Zod.

Inductive UnknownKeys : Type := Strip | Passthrough.

#[warnings="-register-all"]
Inductive zod : Type :=
| ZAny
| ZString (checks : list (string -> bool))
| ZNumber
| ZBoolean
| ZEnum (values : list string)
| ZLiteral (literal : string)
| ZRecordAny
| ZLazyRteNode
| ZRefine (inner : zod) (check : value -> bool)
| ZArray (element : zod) (max : option Z)
| ZObject (shape : list (string * zod)) (unknownKeys : UnknownKeys)
| ZUnion (options : list zod)
| ZNullable (inner : zod)
| ZOptional (inner : zod).

Definition isUndefined (v : value) : bool :=
  match v with
  | VUndefined => true
  | _ => false
  end.

Definition parseString (checks : list (string -> bool)) (v : value) : option value :=
  match v with
  | VStr s => if forallb (fun check => check s) checks then Some v else None
  | _ => None
  end.

(** [z.record(z.string(), z.any())] *)
Definition parseRecordAny (v : value) : option value :=
  match v with
  | VObj _ => Some v
  | _ => None
  end.

Definition parseOptional (p : value -> option value) (v : value) : option value :=
  match v with
  | VUndefined => Some VUndefined
  | _ => p v
  end.

Definition parseNullable (p : value -> option value) (v : value) : option value :=
  match v with
  | VNull => Some VNull
  | _ => p v
  end.

(** The value an object schema returns: each declared key that the input
    has or that parsed to something defined, then, under [passthrough], the
    undeclared properties of the input. *)
Definition objectResult (keys : list string) (unknownKeys : UnknownKeys)
  (input : object) (parsed : list (string * value)) : value :=
  let declared :=
    filter (fun kr => hasKey (fst kr) input || negb (isUndefined (snd kr))) parsed in
  let extra :=
    match unknownKeys with
    | Strip => []
    | Passthrough =>
        filter (fun kv => negb (existsb (String.eqb (fst kv)) keys)
                          && negb (isUndefined (snd kv))) input
    end in
  VObj (declared ++ extra)%list.

(** [JsonRteNodeSchema], the one recursive schema: an object with optional
    [type], [text], [children] (an array of nodes), [attrs] and [uid],
    under [passthrough]. *)
Fixpoint parseRteNode (v : value) : option value :=
  match v with
  | VObj o =>
      let* type := parseOptional (parseString []) (lookup "type" o) in
      let* text := parseOptional (parseString []) (lookup "text" o) in
      let* children :=
        lookupWith "children"
          (fun c =>
             match c with
             | VUndefined => Some VUndefined
             | VArr l => let* l' := mapM parseRteNode l in Some (VArr l')
             | _ => None
             end)
          (Some VUndefined) o in
      let* attrs := parseOptional parseRecordAny (lookup "attrs" o) in
      let* uid := parseOptional (parseString []) (lookup "uid" o) in
      Some (objectResult ["type"; "text"; "children"; "attrs"; "uid"] Passthrough o
              [("type", type); ("text", text); ("children", children);
               ("attrs", attrs); ("uid", uid)])
  | _ => None
  end.

Fixpoint firstSome {A B : Type} (f : A -> option B) (l : list A) : option B :=
  match l with
  | [] => None
  | x :: l' =>
      match f x with
      | Some y => Some y
      | None => firstSome f l'
      end
  end.

Fixpoint parse (z : zod) (v : value) {struct z} : option value :=
  match z with
  | ZAny => Some v
  | ZString checks => parseString checks v
  | ZNumber => match v with VNum _ => Some v | _ => None end
  | ZBoolean => match v with VBool _ => Some v | _ => None end
  | ZEnum values =>
      match v with
      | VStr s => if existsb (String.eqb s) values then Some v else None
      | _ => None
      end
  | ZLiteral literal =>
      match v with
      | VStr s => if String.eqb s literal then Some v else None
      | _ => None
      end
  | ZRecordAny => parseRecordAny v
  | ZLazyRteNode => parseRteNode v
  | ZRefine inner check =>
      let* data := parse inner v in
      if check data then Some data else None
  | ZArray element max =>
      match v with
      | VArr l =>
          let* l' := mapM (parse element) l in
          match max with
          | Some m => if Z.of_nat (List.length l) <=? m then Some (VArr l') else None
          | None => Some (VArr l')
          end
      | _ => None
      end
  | ZObject shape unknownKeys =>
      match v with
      | VObj o =>
          let* parsed :=
            mapM (fun kz => let* data := parse (snd kz) (lookup (fst kz) o) in
                            Some (fst kz, data)) shape in
          Some (objectResult (map fst shape) unknownKeys o parsed)
      | _ => None
      end
  | ZUnion options => firstSome (fun option => parse option v) options
  | ZNullable inner => parseNullable (parse inner) v
  | ZOptional inner => parseOptional (parse inner) v
  end.

(** [schema.describe(text)] leaves parsing unchanged. *)
Definition describe (z : zod) (text : string) : zod := z.

(** [object.partial()]: every key of the shape becomes optional; the schemas
    under the keys are left as they are.  Only an object schema has it. *)
Definition partial (z : zod) : zod :=
  match z with
  | ZObject shape unknownKeys =>
      ZObject (map (fun kz => (fst kz, ZOptional (snd kz))) shape) unknownKeys
  | _ => z
  end.

(** [schema.safeParse(v).success] *)
Definition accepts (z : zod) (v : value) : bool :=
  match parse z v with
  | Some _ => true
  | None => false
  end.

(** The parsed properties of an object: one per key of the shape, in order. *)
Definition parseShape (shape : list (string * zod)) (o : object)
  : option (list (string * value)) :=
  mapM (fun kz => let* data := parse (snd kz) (lookup (fst kz) o) in
                  Some (fst kz, data)) shape.

End Zod.

Import Zod.

(** ** The validator builder, [src/schema/index.ts] *)

Module Schema.

(** [createLooseObject(shape)]: [z.looseObject(shape)] where the library has
    it, else [z.object(shape).passthrough()]; both keep unknown keys. *)
Definition createLooseObject (shape : list (string * zod)) : zod :=
  ZObject shape Passthrough.

Definition isDigit (c : ascii) : bool :=
  let n := nat_of_ascii c in
  (Nat.leb 48 n && Nat.leb n 57)%bool.

(** One position of a fixed-width pattern: [\d] or a literal character. *)
Inductive PatternItem : Type :=
| Digit
| Lit (c : ascii).

(** The rest of the string after the pattern, when the string starts with
    a match of it. *)
Fixpoint matchPrefix (pattern : list PatternItem) (s : string) : option string :=
  match pattern with
  | [] => Some s
  | item :: pattern' =>
      match s with
      | EmptyString => None
      | String c s' =>
          if match item with
             | Digit => isDigit c
             | Lit d => Ascii.eqb c d
             end
          then matchPrefix pattern' s'
          else None
      end
  end.

(** [\d{4}-\d{2}-\d{2}] *)
Definition datePattern : list PatternItem :=
  [Digit; Digit; Digit; Digit; Lit "-"; Digit; Digit; Lit "-"; Digit; Digit].

(** [T\d{2}:\d{2}:\d{2}] *)
Definition timePattern : list PatternItem :=
  [Lit "T"; Digit; Digit; Lit ":"; Digit; Digit; Lit ":"; Digit; Digit].

(** [/^\d{4}-\d{2}-\d{2}$/.test(val)] *)
Definition isDateOnly (val : string) : bool :=
  match matchPrefix datePattern val with
  | Some rest => String.eqb rest ""
  | None => false
  end.

(** [/^\d{4}-\d{2}-\d{2}T\d{2}:\d{2}:\d{2}(\.\d{3})?Z?$/.test(val)] *)
Definition isDateTime (val : string) : bool :=
  match matchPrefix (datePattern ++ timePattern)%list val with
  | Some rest =>
      let rest :=
        match matchPrefix [Lit "."; Digit; Digit; Digit] rest with
        | Some r => r
        | None => rest
        end in
      String.eqb rest "" || String.eqb rest "Z"
  | None => false
  end.

Definition createDatetimeSchema : zod :=
  ZRefine (ZString [])
    (fun data =>
       match data with
       | VStr val => if isDateTime val then true else isDateOnly val
       | _ => false
       end).

(** [field.field_metadata?.description || field.display_name || field.uid] *)
Definition getFieldDescription (field : ContentstackField) : string :=
  strOr (match field_metadata field with
         | Some m => description m
         | None => None
         end)
    (strOr (display_name field) (uid field)).

Definition optionalString : zod := ZOptional (ZString []).

(** The object under [z.lazy] in [JsonRteNodeSchema]; [ZLazyRteNode] is the
    lazy schema itself. *)
Definition JsonRteNodeObject : zod :=
  ZObject
    [ ("type", optionalString);
      ("text", optionalString);
      ("children", ZOptional (ZArray ZLazyRteNode None));
      ("attrs", ZOptional ZRecordAny);
      ("uid", optionalString) ]
    Passthrough.

Definition JsonRteNodeSchema : zod := ZLazyRteNode.

Definition JsonRteSchema : zod :=
  describe
    (ZObject
       [ ("type", ZLiteral "doc");
         ("uid", optionalString);
         ("attrs", ZOptional ZRecordAny);
         ("children", ZArray JsonRteNodeSchema None) ]
       Passthrough)
    "JSON Rich Text Editor content".

(** [z.string().min(1)] *)
Definition UID : zod := ZString [fun s => 1 <=? Z.of_nat (String.length s)].

Definition AssetShape : list (string * zod) :=
  [ ("uid", UID); ("url", optionalString) ].

Definition ReferenceShape : list (string * zod) :=
  [ ("uid", UID); ("_content_type_uid", optionalString) ].

Definition AssetSchema : zod := createLooseObject AssetShape.

Definition ReferenceSchema : zod := createLooseObject ReferenceShape.

Definition LinkSchema : zod :=
  ZObject [ ("title", optionalString); ("href", optionalString) ] Passthrough.

Definition IsoDateSchema : zod := createDatetimeSchema.

Definition TaxonomySchema : zod :=
  ZArray (ZObject [ ("taxonomy_uid", ZString []); ("term_uid", ZString []) ] Strip) None.

(** [z.object({ uid: z.string().optional() }).passthrough().optional()] *)
Definition metadataSchema : zod :=
  ZOptional (ZObject [ ("uid", optionalString) ] Passthrough).

(** An optional string read for truthiness. *)
Definition present (s : option string) : bool :=
  match s with
  | Some t => negb (String.eqb t "")
  | None => false
  end.

(** [a < b] on two [Date]s; [false] when either is invalid. *)
Definition dateBefore (a b : option Z) : bool :=
  match a, b with
  | Some x, Some y => x <? y
  | _, _ => false
  end.

(** The refinement of a ranged [isodate] field. *)
Definition inDateRange (h : Host) (field : ContentstackField) (data : value) : bool :=
  match data with
  | VStr val =>
      let date := dateTime h val in
      if present (startDate field)
         && dateBefore date (dateTime h (match startDate field with
                                         | Some s => s
                                         | None => ""
                                         end))
      then false
      else if present (endDate field)
              && dateBefore (dateTime h (match endDate field with
                                         | Some s => s
                                         | None => ""
                                         end)) date
      then false
      else true
  | _ => false
  end.

(** [field.enum.choices.map(c => c.value)] when
    [field.enum?.choices?.length] is truthy, else the empty list. *)
Definition enumValues (field : ContentstackField) : list string :=
  match enum field with
  | Some e =>
      match choices e with
      | Some cs => map choice_value cs
      | None => []
      end
  | None => []
  end.

(** [options?.mode === "upsert"] *)
Definition isUpsertMode (options : option SchemaOptions) : bool :=
  match options with
  | Some o => match mode o with Some Upsert => true | _ => false end
  | None => false
  end.

Notation "a === b" := (String.eqb a b) (at level 70, no associativity).

Fixpoint fieldToZod (h : Host) (options : option SchemaOptions)
  (field : ContentstackField) {struct field} : zod :=
  let type := data_type field in
  let schema :=
    if type === "text" then
      if metaFlag allow_rich_text field then ZString []
      else
        match enumValues field with
        | (_ :: _) as values => ZEnum values
        | [] =>
            if present (format field) then
              match RegExp h (match format field with Some f => f | None => "" end) with
              | Some test => ZString [test]
              | None => ZString []
              end
            else ZString []
        end
    else if type === "number" then ZNumber
    else if type === "boolean" then ZBoolean
    else if type === "isodate" then
      if present (startDate field) || present (endDate field) then
        ZRefine (ZString [zodDatetime h]) (inDateRange h field)
      else IsoDateSchema
    else if type === "json" then
      if metaFlag allow_json_rte field then JsonRteSchema else ZAny
    else if type === "file" then
      if isUpsertMode options then ZString [] else AssetSchema
    else if type === "link" then LinkSchema
    else if (type === "reference") || (type === "global_field") then ReferenceSchema
    else if type === "taxonomy" then TaxonomySchema
    else if type === "group" then
      let groupShape :=
        fold_left (fun shape subField =>
                     setKey (uid subField) (fieldToZod h options subField) shape)
          (schema field) [] in
      let groupShape :=
        if multiple field then setKey "_metadata" metadataSchema groupShape
        else groupShape in
      let object := ZObject groupShape Passthrough in
      if multiple field then
        ZArray object
          (match max_instance field with
           | Some m => if 0 <? m then Some m else None
           | None => None
           end)
      else object
    else if type === "blocks" then
      let blockSchemas :=
        map (fun block =>
               if present (block_reference_to block) then
                 ZObject [ (block_uid block, ReferenceSchema) ] Passthrough
               else
                 let blockShape :=
                   fold_left (fun shape subField =>
                                setKey (uid subField) (fieldToZod h options subField)
                                  shape)
                     (block_schema block) [] in
                 let blockShape := setKey "_metadata" metadataSchema blockShape in
                 ZObject [ (block_uid block, ZObject blockShape Passthrough) ]
                   Passthrough)
          (blocks field) in
      match blockSchemas with
      | [] => ZArray ZAny None
      | [only] => ZArray only None
      | _ => ZArray (ZUnion blockSchemas) None
      end
    else ZAny in
  let schema :=
    if multiple field && negb (type === "group") && negb (type === "blocks")
    then ZArray schema None
    else schema in
  let schema := if negb (mandatory field) then ZOptional (ZNullable schema) else schema in
  describe schema (getFieldDescription field).

(** The three stages of [fieldToZod], named for the proofs: the schema of
    one block of a blocks field, the [switch] on the data type, and the
    wrapping for [multiple] and [mandatory]. *)
Definition blockSchemaOf (h : Host) (options : option SchemaOptions)
  (block : ContentstackBlock) : zod :=
  if present (block_reference_to block) then
    ZObject [ (block_uid block, ReferenceSchema) ] Passthrough
  else
    ZObject
      [ (block_uid block,
         ZObject (setKey "_metadata" metadataSchema
                    (fold_left (fun shape subField =>
                                  setKey (uid subField) (fieldToZod h options subField)
                                    shape)
                       (block_schema block) []))
           Passthrough) ]
      Passthrough.

Definition baseSchema (h : Host) (options : option SchemaOptions)
  (field : ContentstackField) : zod :=
  let type := data_type field in
  if type === "text" then
    if metaFlag allow_rich_text field then ZString []
    else
      match enumValues field with
      | (_ :: _) as values => ZEnum values
      | [] =>
          if present (format field) then
            match RegExp h (match format field with Some f => f | None => "" end) with
            | Some test => ZString [test]
            | None => ZString []
            end
          else ZString []
      end
  else if type === "number" then ZNumber
  else if type === "boolean" then ZBoolean
  else if type === "isodate" then
    if present (startDate field) || present (endDate field) then
      ZRefine (ZString [zodDatetime h]) (inDateRange h field)
    else IsoDateSchema
  else if type === "json" then
    if metaFlag allow_json_rte field then JsonRteSchema else ZAny
  else if type === "file" then
    if isUpsertMode options then ZString [] else AssetSchema
  else if type === "link" then LinkSchema
  else if (type === "reference") || (type === "global_field") then ReferenceSchema
  else if type === "taxonomy" then TaxonomySchema
  else if type === "group" then
    let groupShape :=
      fold_left (fun shape subField =>
                   setKey (uid subField) (fieldToZod h options subField) shape)
        (schema field) [] in
    let groupShape :=
      if multiple field then setKey "_metadata" metadataSchema groupShape
      else groupShape in
    let object := ZObject groupShape Passthrough in
    if multiple field then
      ZArray object
        (match max_instance field with
         | Some m => if 0 <? m then Some m else None
         | None => None
         end)
    else object
  else if type === "blocks" then
    let blockSchemas := map (blockSchemaOf h options) (blocks field) in
    match blockSchemas with
    | [] => ZArray ZAny None
    | [only] => ZArray only None
    | _ => ZArray (ZUnion blockSchemas) None
    end
  else ZAny.

Definition wrapField (field : ContentstackField) (schema : zod) : zod :=
  let type := data_type field in
  let schema :=
    if multiple field && negb (type === "group") && negb (type === "blocks")
    then ZArray schema None
    else schema in
  let schema := if negb (mandatory field) then ZOptional (ZNullable schema) else schema in
  describe schema (getFieldDescription field).

(** The shape [contentTypeToZod] fills in, one key per field uid. *)
Definition shapeOf (h : Host) (options : option SchemaOptions)
  (fields : list ContentstackField) : list (string * zod) :=
  fold_left (fun shape field => setKey (uid field) (fieldToZod h options field) shape)
    fields [].

(** [None] when the function throws for lack of a schema list. *)
Definition contentTypeToZod (h : Host) (contentType : ContentstackContentType)
  (options : option SchemaOptions) : option zod :=
  match ct_schema contentType with
  | None => None
  | Some fields => Some (ZObject (shapeOf h options fields) Strip)
  end.

Definition contentTypeToDraftZod (h : Host) (contentType : ContentstackContentType)
  (options : option SchemaOptions) : option zod :=
  let* object := contentTypeToZod h contentType options in
  Some (partial object).

(** The result of [safeParse]. *)
Inductive Result : Type :=
| success (data : value)
| failure.

Definition safeParse (z : zod) (v : value) : Result :=
  match parse z v with
  | Some data => success data
  | None => failure
  end.

Definition validateEntry (h : Host) (contentType : ContentstackContentType)
  (entry : value) : option Result :=
  let* schema := contentTypeToZod h contentType None in
  Some (safeParse schema entry).

Definition validateDraft (h : Host) (contentType : ContentstackContentType)
  (entry : value) : option Result :=
  let* schema := contentTypeToDraftZod h contentType None in
  Some (safeParse schema entry).

End Schema.

(** ** Sample data used by the examples below *)

Module Samples.

Import Markdown.

(** A host whose regular expressions are all malformed and whose dates are
    all invalid; the samples do not reach either. *)
Definition host : Host := {|
  RegExp := fun _ => None;
  dateTime := fun _ => None;
  zodDatetime := fun _ => false;
  toLocaleDateString := fun _ => None;
  stringifyPretty := fun _ => "{}"
|}.

Definition named (uid data_type label : string) (mandatory : bool)
  : ContentstackField := {|
  uid := uid; data_type := data_type; display_name := Some label;
  mandatory := mandatory; multiple := false; enum := None;
  schema := []; blocks := []; field_metadata := None; format := None;
  startDate := None; endDate := None; max_instance := None
|}.

Definition group (uid label : string) (mandatory multiple : bool)
  (schema : list ContentstackField) : ContentstackField := {|
  uid := uid; data_type := "group"; display_name := Some label;
  mandatory := mandatory; multiple := multiple; enum := None;
  schema := schema; blocks := []; field_metadata := None; format := None;
  startDate := None; endDate := None; max_instance := None
|}.

Definition blocksField (uid label : string) (mandatory : bool)
  (blocks : list ContentstackBlock) : ContentstackField := {|
  uid := uid; data_type := "blocks"; display_name := Some label;
  mandatory := mandatory; multiple := false; enum := None;
  schema := []; blocks := blocks; field_metadata := None; format := None;
  startDate := None; endDate := None; max_instance := None
|}.

Definition contentType (schema : list ContentstackField) : ContentstackContentType := {|
  ct_uid := Some "sample"; ct_title := None; ct_schema := Some schema
|}.

(** A file field holding a PDF, and an entry for it. *)
Definition manualField : ContentstackField := named "manual" "file" "Manual" false.

Definition manualEntry : object :=
  [ ("manual", VObj [ ("uid", VStr "asset1");
                      ("url", VStr "https://example.com/guide.pdf");
                      ("title", VStr "Guide");
                      ("content_type", VStr "application/pdf") ]) ].

(** A content type with a group that has a mandatory field. *)
Definition profileType : ContentstackContentType :=
  contentType
    [ named "title" "text" "Title" true;
      group "author" "Author" false false [ named "name" "text" "Name" true ] ].

(** A content type with one blocks field that declares no block. *)
Definition pageType : ContentstackContentType :=
  contentType [ blocksField "sections" "Sections" true [] ].

(** A blocks field with one declared block. *)
Definition heroBlock : ContentstackBlock := {|
  block_uid := "hero"; block_title := Some "Hero"; block_reference_to := None;
  block_schema := [ named "headline" "text" "Headline" true ]
|}.

Definition sectionsField : ContentstackField :=
  blocksField "sections" "Sections" true [ heroBlock ].

(** A mandatory plain [json] field. *)
Definition payloadField : ContentstackField := named "payload" "json" "Payload" true.

(** Three text fields with the same malformed [format]: one with the
    pattern only, one with enum choices, one with choices and rich text. *)
Definition slugField : ContentstackField := {|
  uid := "slug"; data_type := "text"; display_name := Some "Slug";
  mandatory := true; multiple := false; enum := None;
  schema := []; blocks := []; field_metadata := None; format := Some "(";
  startDate := None; endDate := None; max_instance := None
|}.

Definition statusChoices : ContentstackEnum := {|
  choices := Some [ {| choice_value := "draft"; choice_key := None |};
                    {| choice_value := "live"; choice_key := None |} ];
  advanced := false
|}.

Definition statusField : ContentstackField := {|
  uid := "status"; data_type := "text"; display_name := Some "Status";
  mandatory := true; multiple := false; enum := Some statusChoices;
  schema := []; blocks := []; field_metadata := None; format := Some "(";
  startDate := None; endDate := None; max_instance := None
|}.

Definition bodyField : ContentstackField := {|
  uid := "body"; data_type := "text"; display_name := Some "Body";
  mandatory := true; multiple := false; enum := Some statusChoices;
  schema := []; blocks := [];
  field_metadata := Some {| description := None; allow_rich_text := true;
                            allow_json_rte := false; multiline := false |};
  format := Some "(";
  startDate := None; endDate := None; max_instance := None
|}.

Definition options (includeSystemFields : bool) : RequiredOptions := {|
  headingLevel := 1;
  formatDate := fun s => Some s;
  formatNumber := formatNumberWithCommas;
  skipEmpty := true;
  includeSystemFields := includeSystemFields;
  useTables := true;
  titleField := "title";
  descriptionField := "meta_description"
|}.

End Samples.

(** ** Measures and operations the properties are stated with *)

Module Props.

(** The number of [#] characters a line starts with. *)
Fixpoint leadingHashes (s : string) : nat :=
  match s with
  | String c s' => if Ascii.eqb c "#" then S (leadingHashes s') else O
  | EmptyString => O
  end.

(** [delete o[k]] for every [k] of [removed]. *)
Definition removeKeys (removed : list string) (o : object) : object :=
  filter (fun kv => negb (existsb (String.eqb (fst kv)) removed)) o.

(** The entry without the properties named in [removed]. *)
Definition withoutFields (removed : list string) (entry : value) : value :=
  match entry with
  | VObj o => VObj (removeKeys removed o)
  | _ => entry
  end.

(** The entry without the properties named in [removed] inside the value
    it holds under [parent]. *)
Definition withoutNestedFields (parent : string) (removed : list string)
  (entry : value) : value :=
  match entry with
  | VObj o =>
      VObj (map (fun kv => if String.eqb (fst kv) parent
                           then (fst kv, withoutFields removed (snd kv))
                           else kv) o)
  | _ => entry
  end.

(** One inline mark of a text node: the wrapper when the flag is truthy. *)
Definition mark (flag l r : string) (node : object) (text : string) : string :=
  if truthy (lookup flag node) then l ++ text ++ r else text.

(** A field whose base validator is [z.any()]: not [multiple], and either
    plain [json] or a data type [fieldToZod] does not know. *)
Definition acceptsAnything (field : ContentstackField) : bool :=
  negb (multiple field)
  && ((String.eqb (data_type field) "json" && negb (metaFlag allow_json_rte field))
      || negb (existsb (String.eqb (data_type field))
                 [ "text"; "number"; "boolean"; "isodate"; "json"; "file"; "link";
                   "reference"; "global_field"; "taxonomy"; "group"; "blocks" ])).

(** What an object validator with the given shape returns for a value:
    the value is an object and so is the result; under each declared key
    the result holds what the validator under that key returns for the
    property of the input; and of the other properties of the input the
    result has none under [strip], and under [passthrough] every defined
    one whose key is a plain name. *)
Definition validatedObject (shape : list (string * zod)) (unknownKeys : UnknownKeys)
  (v r : value) : Prop :=
  exists g g',
    v = VObj g /\ r = VObj g'
    /\ (forall k z, In (k, z) shape -> parse z (lookup k g) = Some (lookup k g'))
    /\ match unknownKeys with
       | Strip => forall k, hasKey k g' = true -> In k (map fst shape)
       | Passthrough =>
           forall k, plainName k = true -> ~ In k (map fst shape) ->
                     lookup k g <> VUndefined -> lookup k g' = lookup k g
       end.

(** The property holds of the value and the result, or, for a list, of
    each item and the result for it. *)
Definition eachItem (multiple : bool) (P : value -> value -> Prop) (v r : value) : Prop :=
  if multiple then
    exists items items', v = VArr items /\ r = VArr items' /\ Forall2 P items items'
  else P v r.

(** A schema revalidates when whatever it returns, it accepts. *)
Definition revalidates (z : zod) : Prop :=
  forall v data, parse z v = Some data -> exists data', parse z data = Some data'.

(** The same for the recursive rich-text node schema. *)
Definition nodeRevalidates (v : value) : Prop :=
  forall data, parseRteNode v = Some data -> exists data', parseRteNode data = Some data'.

End Props.

Import Props.

(** ** Further measures and operations the properties are stated with *)

Module Measures.

Import Markdown.

(** Whether the character occurs in the string. *)
Fixpoint hasChar (c : ascii) (s : string) : bool :=
  match s with
  | EmptyString => false
  | String d s' => Ascii.eqb d c || hasChar c s'
  end.

(** Whether every [|] of the string comes right after a backslash;
    [escaped] says whether the character before the string is one. *)
Fixpoint pipesEscaped (escaped : bool) (s : string) : bool :=
  match s with
  | EmptyString => true
  | String d s' =>
      if Ascii.eqb d "|" then escaped && pipesEscaped false s'
      else pipesEscaped (Ascii.eqb d "\") s'
  end.

(** The string without its commas. *)
Fixpoint removeCommas (s : string) : string :=
  match s with
  | EmptyString => EmptyString
  | String d s' =>
      if Ascii.eqb d "," then removeCommas s' else String d (removeCommas s')
  end.

(** The options with [skipEmpty] set. *)
Definition withSkipEmpty (b : bool) (o : RequiredOptions) : RequiredOptions := {|
  headingLevel := headingLevel o;
  formatDate := formatDate o;
  formatNumber := formatNumber o;
  skipEmpty := b;
  includeSystemFields := includeSystemFields o;
  useTables := useTables o;
  titleField := titleField o;
  descriptionField := descriptionField o
|}.

(** No object in the value has an own property named [toString], so that
    every part of the value can be coerced to a string. *)
Fixpoint coercible (v : value) : bool :=
  match v with
  | VArr items => forallb coercible items
  | VObj props =>
      negb (hasKey "toString" props)
      && forallb (fun kv => coercible (snd kv)) props
  | _ => true
  end.

(** The cells of a child of a table node when the child is a row, as the
    [table] case of [jsonRteToMarkdown] computes them. *)
Definition rowCells (c : value) : option (option (list string)) :=
  match c with
  | VUndefined | VNull => None
  | VObj row =>
      if isRowType (lookup "type" row) then
        let* cells :=
          lookupWith "children"
            (fun cs =>
               if truthy cs then
                 match cs with
                 | VArr cells =>
                     mapM (fun cell =>
                             let* s := jsonRteToMarkdown cell in
                             Some (escapeTableCell (trim s))) cells
                 | _ => None
                 end
               else Some [])
            (Some []) row in
        Some (Some cells)
      else Some None
  | _ => Some None
  end.

(** The rendering of a node that is no text leaf, given its children. *)
Definition renderChildren (node : object) (children : list value) : option string :=
  let* rendered := mapM jsonRteToMarkdown children in
  containerToMarkdown node rendered
    (let* rs := mapM rowCells children in Some (somes rs)).

(** Whether the validator of a field depends on the mode: the field is a
    [file] field, or a group or a block with a schema of its own below it
    holds one. *)
Fixpoint readsMode (f : ContentstackField) : bool :=
  (data_type f === "file")
  || ((data_type f === "group") && existsb readsMode (schema f))
  || ((data_type f === "blocks")
      && existsb (fun b => negb (Schema.present (block_reference_to b))
                           && existsb readsMode (block_schema b)) (blocks f)).

(** The cap [max_instance] puts on the length of a repeatable group, when
    it puts one. *)
Definition withinCap (field : ContentstackField) (length : nat) : Prop :=
  match max_instance field with
  | Some m => 0 < m -> Z.of_nat length <= m
  | None => True
  end.

End Measures.

Import Measures.

(** * Properties of the renderer *)

Module MarkdownFacts.

Import Markdown.

(** ** Number formatting *)

(** C7: [formatNumberWithCommas] groups thousands below one million and
    abbreviates to one decimal with a unit letter from one million and one
    billion on, dropping a trailing [.0]: 1000 gives 1,000, 15921 gives
    15,921, 1500000 gives 1.5M, 40000000 gives 40M and 1000000000 gives 1B. *)
Theorem formatNumberWithCommas_samples :
  formatNumberWithCommas 1000 = Some "1,000"
  /\ formatNumberWithCommas 15921 = Some "15,921"
  /\ formatNumberWithCommas 1500000 = Some "1.5M"
  /\ formatNumberWithCommas 40000000 = Some "40M"
  /\ formatNumberWithCommas 1000000000 = Some "1B".
Proof. repeat split; vm_compute; reflexivity. Qed.

(** Below one million the result is the grouped decimal, whatever the sign. *)
Lemma formatNumberWithCommas_small (num : Z) :
  num < 1000000 -> formatNumberWithCommas num = Some (toLocaleString num).
Proof.
  intros Hlt. unfold formatNumberWithCommas.
  destruct (1000000000 <=? num) eqn:Hb; [apply Z.leb_le in Hb; lia|].
  destruct (1000000 <=? num) eqn:Hm; [apply Z.leb_le in Hm; lia|].
  reflexivity.
Qed.

(** ** Headings *)

Lemma leadingHashes_repeat (n : nat) (text : string) :
  leadingHashes (repeat "#" n ++ " " ++ text) = n.
Proof.
  induction n as [|n IH].
  - reflexivity.
  - change (S (leadingHashes (repeat "#" n ++ " " ++ text)) = S n).
    now f_equal.
Qed.

(** The heading helper clamps an integer level into 1..6 and gives no
    marker for [NaN]. *)
Lemma heading_markers (text : string) (level : number) :
  heading text level
  = repeat "#" (leadingHashes (heading text level)) ++ " " ++ text
  /\ (leadingHashes (heading text level) <= 6)%nat
  /\ (forall n : Z, level = Int n ->
        Z.of_nat (leadingHashes (heading text level)) = Z.min (Z.max n 1) 6)
  /\ (level = NaN -> leadingHashes (heading text level) = 0%nat).
Proof.
  destruct level as [n|]; unfold heading; cbn [mathMax mathMin].
  - rewrite leadingHashes_repeat. repeat split; try lia; try discriminate.
    intros m [= <-]. lia.
  - change ("" ++ " " ++ text) with (repeat "#" 0 ++ " " ++ text).
    rewrite leadingHashes_repeat. repeat split; try lia; discriminate.
Qed.

Lemma heading_bounds (text : string) (level : number) :
  (leadingHashes (heading text level) <= 6)%nat
  /\ (level <> NaN -> (1 <= leadingHashes (heading text level))%nat).
Proof.
  destruct (heading_markers text level) as (_ & Hmax & Hint & _).
  split; [exact Hmax|]. intros Hlevel. destruct level as [n|]; [|congruence].
  specialize (Hint n eq_refl). lia.
Qed.

Lemma plus_one_NaN (level : number) : (level + 1)%number = NaN <-> level = NaN.
Proof. destruct level; simpl; split; congruence. Qed.

(** Levels beyond six all give six markers, levels below one give one. *)
Lemma heading_saturates (text : string) (level : Z) :
  (6 <= level -> heading text level = "###### " ++ text)
  /\ (level <= 1 -> heading text level = "# " ++ text).
Proof.
  unfold heading. cbn [mathMax mathMin]. split; intros Hl.
  - replace (Z.min (Z.max level 1) 6) with 6 by lia. reflexivity.
  - replace (Z.min (Z.max level 1) 6) with 1 by lia. reflexivity.
Qed.

(** ** Rich text leaves *)

(** C6: a text leaf gets its inline marks as nested wrappers in the order
    bold, italic, underline, strikethrough, code, superscript, subscript,
    from the innermost to the outermost, and an enabled wrapper is applied
    to the empty text as well: a bold leaf with the empty text gives
    four asterisks. *)
Theorem text_leaf_marks (node : object) (text : string) :
  lookup "text" node = VStr text ->
  jsonRteToMarkdown (VObj node)
  = Some (mark "subscript" "<sub>" "</sub>" node
            (mark "superscript" "<sup>" "</sup>" node
               (mark "code" BACKTICK BACKTICK node
                  (mark "strikethrough" "~~" "~~" node
                     (mark "underline" "<u>" "</u>" node
                        (mark "italic" "*" "*" node
                           (mark "bold" "**" "**" node text)))))))
  /\ jsonRteToMarkdown (VObj [("text", VStr ""); ("bold", VBool true)]) = Some "****".
Proof.
  intros Htext. split.
  - simpl. rewrite Htext. reflexivity.
  - reflexivity.
Qed.

Lemma text_leaf_marks_witness :
  lookup "text" [("text", VStr ""); ("bold", VBool true)] = VStr ""
  /\ jsonRteToMarkdown (VObj [("text", VStr ""); ("bold", VBool true)]) = Some "****".
Proof.
  split; [reflexivity|].
  exact (proj1 (text_leaf_marks [("text", VStr ""); ("bold", VBool true)] ""
                  eq_refl)).
Defined.

(** Every mark enabled: the wrappers nest in the stated order. *)
Example text_leaf_all_marks :
  jsonRteToMarkdown
    (VObj [ ("text", VStr "x"); ("subscript", VBool true); ("code", VBool true);
            ("bold", VBool true); ("superscript", VBool true);
            ("italic", VBool true); ("strikethrough", VBool true);
            ("underline", VBool true) ])
  = Some ("<sub><sup>" ++ BACKTICK ++ "~~<u>***x***</u>~~" ++ BACKTICK ++ "</sup></sub>").
Proof. vm_compute. reflexivity. Qed.

(** ** The walk over the top-level schema *)

(** C5, as the claim states it, fails: a file field holding a PDF is not
    emitted as a bold label with its value but as a section of its own,
    a horizontal rule and a heading before the link. *)
Lemma nonimage_file_gets_own_section :
  isImageAsset (lookup "manual" Samples.manualEntry) = Some false
  /\ entryToMarkdown Samples.host Samples.manualEntry
       (Samples.contentType [Samples.manualField]) None
     = Some ("---" ++ LF ++ LF ++ "## Manual" ++ LF ++ LF
               ++ "[Guide](https://example.com/guide.pdf)")
  /\ entryToMarkdown Samples.host Samples.manualEntry
       (Samples.contentType [Samples.manualField]) None
     <> Some "**Manual:** [Guide](https://example.com/guide.pdf)".
Proof.
  split; [reflexivity|]. split; [vm_compute; reflexivity|].
  vm_compute. discriminate.
Qed.

(** C5, amended: in the walk of [entryToMarkdown] over the top-level
    schema, a primitive field (neither group nor blocks) that is not the
    title, the description or a skipped system field and whose rendered
    value is not empty is emitted as a section of its own (rule, heading,
    value) when it is a file field, image or not, or a JSON rich-text
    field; as a rule followed by the bold label and the value when it is a
    multiple text field; and as the bold label and the value otherwise. *)
Theorem primitive_field_emission (h : Host) (opts : RequiredOptions)
  (entry : object) (field : ContentstackField) (rendered : string) :
  (uid field === titleField opts) || (uid field === descriptionField opts) = false ->
  skipsSystemField opts field = false ->
  (data_type field === "group") = false ->
  (data_type field === "blocks") = false ->
  primitiveToMarkdown h (lookup (uid field) entry) field opts = Some rendered ->
  rendered <> "" ->
  entryFieldLines h opts entry field
  = Some (if (data_type field === "file")
             || ((data_type field === "json") && metaFlag allow_json_rte field)
          then ["---"; ""; heading (labelOf field) (headingLevel opts + 1); "";
                rendered; ""]
          else if multiple field && (data_type field === "text")
          then ["---"; ""; "**" ++ labelOf field ++ ":** " ++ rendered; ""]
          else ["**" ++ labelOf field ++ ":** " ++ rendered; ""]).
Proof.
  intros Hwalk Hsys Hgroup Hblocks Hrendered Hne.
  unfold entryFieldLines.
  rewrite Hwalk, Hsys, Hgroup, Hblocks. cbn [andb].
  assert (Hval : isEmpty (lookup (uid field) entry) = false).
  { destruct (isEmpty (lookup (uid field) entry)) eqn:He; [|reflexivity].
    unfold primitiveToMarkdown in Hrendered. rewrite He in Hrendered.
    congruence. }
  rewrite Hval, andb_false_r, Hrendered. cbn [bind].
  destruct (rendered === "") eqn:Her.
  - apply String.eqb_eq in Her. contradiction.
  - destruct ((data_type field === "file")
              || ((data_type field === "json") && metaFlag allow_json_rte field));
      [reflexivity|].
    destruct (multiple field && (data_type field === "text")); reflexivity.
Qed.

Lemma primitive_field_emission_witness :
  primitiveToMarkdown Samples.host (lookup "manual" Samples.manualEntry)
    Samples.manualField (Samples.options false)
  = Some "[Guide](https://example.com/guide.pdf)"
  /\ entryFieldLines Samples.host (Samples.options false) Samples.manualEntry
       Samples.manualField
     = Some ["---"; ""; "## Manual"; ""; "[Guide](https://example.com/guide.pdf)"; ""].
Proof.
  split; [reflexivity|].
  apply (primitive_field_emission Samples.host (Samples.options false)
           Samples.manualEntry Samples.manualField
           "[Guide](https://example.com/guide.pdf)");
    [reflexivity | reflexivity | reflexivity | reflexivity | reflexivity | discriminate].
Defined.

(** ** Where headings are emitted *)

Lemma groupToHeadingsField_unfold (h : Host) (options : RequiredOptions)
  (value : value) (level : number) (field : ContentstackField) :
  groupToHeadingsField h options value level field
  = if skipsSystemField options field then Some []
    else
      let* fieldValue := getProp value (uid field) in
      if skipEmpty options && isEmpty fieldValue then Some []
      else
        let label := labelOf field in
        if (data_type field === "group") && negb (multiple field) then
          let groupSchema := schema field in
          let* inner :=
            if hasNestedGroups groupSchema
            then groupToHeadings h fieldValue groupSchema (level + 1) options
            else if useTables options then groupToTable h fieldValue groupSchema options
            else groupToHeadings h fieldValue groupSchema (level + 1) options in
          Some [heading label level; ""; inner; ""]
        else if (data_type field === "group") && multiple field then
          let* table := repeatableGroupToTable h fieldValue (schema field) options in
          Some [heading label level; ""; table; ""]
        else if data_type field === "blocks" then
          let* sections :=
            blocksToMarkdown h fieldValue (blocks field) (level + 1) options in
          Some [heading label level; ""; sections]
        else
          let* rendered := primitiveToMarkdown h fieldValue field options in
          if rendered === "" then Some []
          else if (data_type field === "file") && truthy (getOpt fieldValue "url") then
            Some [rendered; ""]
          else if (data_type field === "json") && metaFlag allow_json_rte field then
            Some ["**" ++ label ++ ":**"; ""; rendered; ""]
          else Some ["**" ++ label ++ ":** " ++ rendered; ""].
Proof. destruct field. reflexivity. Qed.

(** Case analysis on the tests and the fallible steps an equation
    [... = Some lines] went through. *)
Ltac walk H :=
  repeat match type of H with
    | context [if ?c then _ else _] =>
        match type of c with bool => destruct c eqn:? end
    | context [bind ?m _] => destruct m eqn:?; cbn [bind] in H
    | context [match ?m with Some _ => _ | None => _ end] => destruct m eqn:?
    end;
  try discriminate.

Lemma primitiveToMarkdown_of_empty (h : Host) (v : value) (field : ContentstackField)
  (options : RequiredOptions) :
  isEmpty v = true -> primitiveToMarkdown h v field options = Some "".
Proof. intros He. unfold primitiveToMarkdown. now rewrite He. Qed.

Lemma rendered_value_not_empty (h : Host) (v : value) (field : ContentstackField)
  (options : RequiredOptions) (rendered : string) :
  primitiveToMarkdown h v field options = Some rendered -> rendered <> "" ->
  isEmpty v = false.
Proof.
  intros H Hne. destruct (isEmpty v) eqn:He; [|reflexivity].
  rewrite (primitiveToMarkdown_of_empty h v field options He) in H. congruence.
Qed.

Lemma group_heading_first (h : Host) (options : RequiredOptions) (value : value)
  (level : number) (field : ContentstackField) (lines : list string) :
  (data_type field === "group") || (data_type field === "blocks") = true ->
  groupToHeadingsField h options value level field = Some lines ->
  lines <> [] ->
  exists rest, lines = heading (labelOf field) level :: rest.
Proof.
  intros Hsection H Hne. rewrite groupToHeadingsField_unfold in H.
  destruct (data_type field === "group"), (data_type field === "blocks"),
    (multiple field); try discriminate; cbn [andb negb] in H;
    walk H; injection H as <-; try contradiction; eauto.
Qed.

Lemma block_heading_first (h : Host) (options : RequiredOptions) (level : number)
  (blockDefs : list ContentstackBlock) (blockItem : value) (lines : list string) :
  blockItemLines h options level blockDefs blockItem = Some lines ->
  lines <> [] ->
  exists text rest, lines = heading text level :: rest.
Proof.
  intros H Hne. unfold blockItemLines in H.
  destruct blockItem as [| | | | | |item]; try discriminate.
  destruct (find _ (map fst item)) as [blockKey|]; [|injection H as <-; contradiction].
  destruct (blockKey === ""); [injection H as <-; contradiction|].
  destruct (find _ blockDefs) as [blockDef|]; [|injection H as <-; contradiction].
  cbn zeta in H.
  match type of H with
  | bind ?m _ = _ => destruct m as [titleValue|]; [|discriminate]
  end.
  cbn [bind] in H.
  destruct (truthy titleValue);
    [destruct (toString titleValue) as [title|]; [|discriminate]|];
    cbn [bind] in H;
    (match type of H with
     | bind ?m _ = _ => destruct m as [body|]; [|discriminate]
     end);
    cbn [bind] in H; injection H as <-; eauto.
Qed.

Lemma entry_heading_third (h : Host) (opts : RequiredOptions) (entry : object)
  (field : ContentstackField) (lines : list string) :
  (data_type field === "group") || (data_type field === "blocks")
  || (data_type field === "file")
  || ((data_type field === "json") && metaFlag allow_json_rte field) = true ->
  entryFieldLines h opts entry field = Some lines ->
  lines <> [] ->
  exists rest,
    lines = "---" :: "" :: heading (labelOf field) (headingLevel opts + 1) :: rest.
Proof.
  intros Hsection H Hne. unfold entryFieldLines in H.
  destruct (data_type field === "group"), (data_type field === "blocks"),
    (data_type field === "file"), (data_type field === "json"),
    (metaFlag allow_json_rte field), (multiple field);
    try discriminate; cbn [andb orb negb] in H;
    walk H; injection H as <-; try contradiction; eauto.
Qed.

Lemma entry_title_first (h : Host) (entry : object)
  (contentType : ContentstackContentType) (options : option MarkdownOptions)
  (title s : string) :
  lookup (titleField (mergeOptions (DEFAULT_OPTIONS h) options)) entry = VStr title ->
  title <> "" ->
  entryToMarkdown h entry contentType options = Some s ->
  exists rest,
    s = trim (join LF (heading title
                         (headingLevel (mergeOptions (DEFAULT_OPTIONS h) options))
                       :: "" :: rest)).
Proof.
  intros Htitle Hne. unfold entryToMarkdown. cbv zeta.
  destruct (ct_schema contentType) as [schema|]; [|discriminate]. cbn [bind].
  rewrite Htitle. cbn [nonEmptyString].
  destruct (title === "") eqn:He; [apply String.eqb_eq in He; contradiction|].
  destruct (mapM _ schema) as [ls|]; [|discriminate]. cbn [bind].
  intros [= <-]. eexists. reflexivity.
Qed.




(** A heading seven levels down still has six markers. *)
Example deep_group_heading :
  groupToHeadings Samples.host
    (VObj [ ("inner", VObj [ ("leaf", VObj [ ("name", VStr "x") ]) ]) ])
    [ Samples.group "inner" "Inner" false false
        [ Samples.group "leaf" "Leaf" false false
            [ Samples.named "name" "text" "Name" false ] ] ]
    9 (Samples.options false)
  = Some ("###### Inner" ++ LF ++ LF ++ "###### Leaf" ++ LF ++ LF
            ++ "| Field | Value |" ++ LF ++ "|-------|-------|" ++ LF
            ++ "| **Name** | x |").
Proof. vm_compute. reflexivity. Qed.

(** ** System fields *)

Lemma repeatableGroupToTable_header (h : Host) (opts : RequiredOptions)
  (values : value) (schema : list ContentstackField) (table : string) :
  repeatableGroupToTable h values schema opts = Some table ->
  table = ""
  \/ exists rows,
       table = join LF (tableRow (map labelOf (visibleFields opts schema))
                          :: tableRow (map (fun _ => "---")
                                         (map labelOf (visibleFields opts schema)))
                          :: rows).
Proof.
  unfold repeatableGroupToTable.
  destruct (noItems values); [intros [= <-]; now left|].
  destruct (visibleFields opts schema) as [|f visible] eqn:Hv;
    [intros [= <-]; now left|].
  destruct values; try discriminate.
  match goal with
  | |- bind ?m _ = _ -> _ => destruct m as [rows|]; [|discriminate]
  end.
  intros [= <-]. right. now exists rows.
Qed.

Lemma option_on_never_skips (opts : RequiredOptions) (f : ContentstackField) :
  includeSystemFields opts = true -> skipsSystemField opts f = false.
Proof. intros Hinc. unfold skipsSystemField. rewrite Hinc. apply andb_false_r. Qed.

(** With the option on, the top-level walk emits a primitive field that
    has a rendered value, a system field like any other. *)
Lemma entry_walk_emits (h : Host) (opts : RequiredOptions) (entry : object)
  (f : ContentstackField) (rendered : string) :
  includeSystemFields opts = true ->
  (uid f === titleField opts) || (uid f === descriptionField opts) = false ->
  (data_type f === "group") = false ->
  (data_type f === "blocks") = false ->
  primitiveToMarkdown h (lookup (uid f) entry) f opts = Some rendered ->
  rendered <> "" ->
  entryFieldLines h opts entry f
  = Some (if (data_type f === "file")
             || ((data_type f === "json") && metaFlag allow_json_rte f)
          then ["---"; ""; heading (labelOf f) (headingLevel opts + 1); "";
                rendered; ""]
          else if multiple f && (data_type f === "text")
          then ["---"; ""; "**" ++ labelOf f ++ ":** " ++ rendered; ""]
          else ["**" ++ labelOf f ++ ":** " ++ rendered; ""]).
Proof.
  intros Hinc Hwalk Hgroup Hblocks Hrendered Hne. unfold entryFieldLines.
  rewrite Hwalk, (option_on_never_skips opts f Hinc), Hgroup, Hblocks.
  rewrite (rendered_value_not_empty h _ f opts rendered Hrendered Hne).
  rewrite andb_false_r. cbn [andb]. rewrite Hrendered. cbn [bind].
  destruct (rendered === "") eqn:He; [apply String.eqb_eq in He; contradiction|].
  destruct ((data_type f === "file")
            || ((data_type f === "json") && metaFlag allow_json_rte f));
    [reflexivity|].
  destruct (multiple f && (data_type f === "text")); reflexivity.
Qed.

Lemma table_walk_emits (h : Host) (opts : RequiredOptions) (value fieldValue : value)
  (f : ContentstackField) (rendered : string) :
  includeSystemFields opts = true ->
  getProp value (uid f) = Some fieldValue ->
  (data_type f === "file") = false ->
  primitiveToMarkdown h fieldValue f opts = Some rendered ->
  rendered <> "" ->
  groupToTableField h value opts f
  = Some ([], ["| **" ++ escapeTableCell (labelOf f) ++ "** | "
                 ++ escapeTableCell rendered ++ " |"]).
Proof.
  intros Hinc Hvalue Hfile Hrendered Hne. unfold groupToTableField.
  rewrite (option_on_never_skips opts f Hinc), Hvalue. cbn [bind].
  rewrite (rendered_value_not_empty h _ f opts rendered Hrendered Hne).
  rewrite andb_false_r, Hfile. cbn [andb bind]. rewrite Hrendered. cbn [bind].
  destruct (rendered === "") eqn:He; [apply String.eqb_eq in He; contradiction|].
  reflexivity.
Qed.

Lemma headings_walk_emits (h : Host) (opts : RequiredOptions)
  (value fieldValue : value) (level : number) (f : ContentstackField)
  (rendered : string) :
  includeSystemFields opts = true ->
  getProp value (uid f) = Some fieldValue ->
  (data_type f === "group") = false ->
  (data_type f === "blocks") = false ->
  primitiveToMarkdown h fieldValue f opts = Some rendered ->
  rendered <> "" ->
  groupToHeadingsField h opts value level f
  = Some (if (data_type f === "file") && truthy (getOpt fieldValue "url")
          then [rendered; ""]
          else if (data_type f === "json") && metaFlag allow_json_rte f
          then ["**" ++ labelOf f ++ ":**"; ""; rendered; ""]
          else ["**" ++ labelOf f ++ ":** " ++ rendered; ""]).
Proof.
  intros Hinc Hvalue Hgroup Hblocks Hrendered Hne.
  rewrite groupToHeadingsField_unfold.
  rewrite (option_on_never_skips opts f Hinc), Hvalue. cbn [bind].
  rewrite (rendered_value_not_empty h _ f opts rendered Hrendered Hne).
  rewrite andb_false_r, Hgroup, Hblocks. cbn [andb]. rewrite Hrendered. cbn [bind].
  destruct (rendered === "") eqn:He; [apply String.eqb_eq in He; contradiction|].
  destruct ((data_type f === "file") && truthy (getOpt fieldValue "url"));
    [reflexivity|].
  destruct ((data_type f === "json") && metaFlag allow_json_rte f); reflexivity.
Qed.

Lemma blocks_walk_emits (h : Host) (opts : RequiredOptions)
  (blockValue fieldValue : value) (firstTextField : option ContentstackField)
  (f : ContentstackField) (rendered : string) :
  includeSystemFields opts = true ->
  match firstTextField with
  | Some first => uid f === uid first
  | None => false
  end = false ->
  getProp blockValue (uid f) = Some fieldValue ->
  primitiveToMarkdown h fieldValue f opts = Some rendered ->
  rendered <> "" ->
  blockFieldLines h opts blockValue firstTextField f
  = Some (if (data_type f === "file") && truthy (getOpt fieldValue "url")
          then [rendered; ""]
          else if (data_type f === "json") && metaFlag allow_json_rte f
          then ["> " ++ replaceChar (ascii_of_nat 10) (LF ++ "> ") (trim rendered); ""]
          else if metaFlag multiline f
                  || ((data_type f === "text")
                      && (100 <? Z.of_nat (String.length rendered)))
          then ["> " ++ rendered; ""]
          else ["**" ++ labelOf f ++ ":** " ++ rendered; ""]).
Proof.
  intros Hinc Hfirst Hvalue Hrendered Hne. unfold blockFieldLines.
  rewrite (option_on_never_skips opts f Hinc), Hfirst, Hvalue. cbn [bind].
  rewrite (rendered_value_not_empty h _ f opts rendered Hrendered Hne).
  rewrite andb_false_r, Hrendered. cbn [bind].
  destruct (rendered === "") eqn:He; [apply String.eqb_eq in He; contradiction|].
  destruct ((data_type f === "file") && truthy (getOpt fieldValue "url"));
    [reflexivity|].
  destruct ((data_type f === "json") && metaFlag allow_json_rte f); [reflexivity|].
  destruct (metaFlag multiline f
            || ((data_type f === "text")
                && (100 <? Z.of_nat (String.length rendered)))); reflexivity.
Qed.



(** With [includeSystemFields] on, the two-column table of a group shows
    the system field [tags], while the table of a repeatable group with the
    same schema has no [tags] column and gains the [_private] one. *)
Example system_fields_in_tables :
  let schema := [ Samples.named "tags" "text" "Tags" false;
                  Samples.named "_private" "text" "Private" false;
                  Samples.named "name" "text" "Name" false ] in
  let item := VObj [ ("tags", VStr "a"); ("_private", VStr "b"); ("name", VStr "c") ] in
  groupToTable Samples.host item schema (Samples.options true)
  = Some ("| Field | Value |" ++ LF ++ "|-------|-------|" ++ LF
            ++ "| **Tags** | a |" ++ LF ++ "| **Private** | b |" ++ LF
            ++ "| **Name** | c |")
  /\ repeatableGroupToTable Samples.host (VArr [item]) schema (Samples.options true)
     = Some ("| Private | Name |" ++ LF ++ "| --- | --- |" ++ LF ++ "| b | c |")
  /\ repeatableGroupToTable Samples.host (VArr [item]) schema (Samples.options false)
     = Some ("| Name |" ++ LF ++ "| --- |" ++ LF ++ "| c |")
  /\ groupToHeadings Samples.host item schema 2 (Samples.options true)
     = Some ("**Tags:** a" ++ LF ++ LF ++ "**Private:** b" ++ LF ++ LF ++ "**Name:** c")
  /\ entryToMarkdown Samples.host [ ("tags", VStr "a"); ("name", VStr "c") ]
       (Samples.contentType schema)
       (Some {| o_headingLevel := None; o_formatDate := None; o_formatNumber := None;
                o_skipEmpty := None; o_includeSystemFields := Some true;
                o_useTables := None; o_titleField := None;
                o_descriptionField := None |})
     = Some ("**Tags:** a" ++ LF ++ LF ++ "**Name:** c").
Proof. vm_compute. repeat split. Qed.

End MarkdownFacts.

(** * Properties of the validation library *)

Module ZodFacts.

(** ** Sequencing *)

Lemma mapM_Forall2 {A B : Type} (f : A -> option B) (l : list A) (l' : list B) :
  mapM f l = Some l' -> Forall2 (fun x y => f x = Some y) l l'.
Proof.
  revert l'. induction l as [|x l IH]; simpl; intros l' H.
  - injection H as <-. constructor.
  - destruct (f x) as [y|] eqn:Hf; simpl in H; [|discriminate].
    destruct (mapM f l) as [ys|]; simpl in H; [|discriminate].
    injection H as <-. constructor; auto.
Qed.

Lemma mapM_total {A B : Type} (f : A -> option B) (l : list A) :
  Forall (fun x => exists y, f x = Some y) l -> exists l', mapM f l = Some l'.
Proof.
  induction 1 as [|x l [y Hy] _ [ys Hys]]; simpl.
  - now exists [].
  - rewrite Hy, Hys. simpl. now exists (y :: ys).
Qed.

Lemma mapM_inv {A B : Type} (f : A -> option B) (l : list A) (l' : list B) :
  mapM f l = Some l' -> Forall (fun x => exists y, f x = Some y) l.
Proof.
  intros H. apply mapM_Forall2 in H.
  induction H; constructor; eauto.
Qed.

Lemma firstSome_found {A B : Type} (f : A -> option B) (l : list A) (y : B) :
  firstSome f l = Some y -> exists x, In x l /\ f x = Some y.
Proof.
  induction l as [|x l IH]; simpl; [discriminate|].
  destruct (f x) as [y'|] eqn:Hf.
  - intros [= <-]. exists x. auto.
  - intros H. destruct (IH H) as (x' & Hin & Hx'). exists x'. auto.
Qed.

Lemma firstSome_total {A B : Type} (f : A -> option B) (l : list A) :
  (exists x y, In x l /\ f x = Some y) -> exists y, firstSome f l = Some y.
Proof.
  induction l as [|x l IH]; simpl; intros (x' & y & Hin & Hy).
  - contradiction.
  - destruct (f x) as [y'|] eqn:Hf; [now exists y'|].
    destruct Hin as [->|Hin]; [congruence|].
    apply IH. eauto.
Qed.

(** ** Objects as property lists *)

Lemma hasKey_In (k : string) (o : object) :
  hasKey k o = true <-> In k (map fst o).
Proof.
  induction o as [|[k' v] o IH]; simpl.
  - split; [discriminate|contradiction].
  - rewrite orb_true_iff, IH, String.eqb_eq. tauto.
Qed.

Lemma hasKey_false (k : string) (o : object) :
  hasKey k o = false <-> ~ In k (map fst o).
Proof.
  rewrite <- hasKey_In. destruct (hasKey k o); split; congruence.
Qed.

Lemma lookup_absent (k : string) (o : object) :
  hasKey k o = false -> lookup k o = VUndefined.
Proof.
  induction o as [|[k' v] o IH]; simpl; [reflexivity|].
  destruct (String.eqb k' k); simpl; [discriminate|exact IH].
Qed.

Lemma lookup_In (k : string) (v : value) (o : object) :
  NoDup (map fst o) -> In (k, v) o -> lookup k o = v.
Proof.
  induction o as [|[k' v'] o IH]; simpl; intros Hnd Hin; [contradiction|].
  inversion Hnd as [|? ? Hnotin Hnd']; subst.
  destruct Hin as [[= -> ->]|Hin].
  - now rewrite String.eqb_refl.
  - destruct (String.eqb k' k) eqn:Hk.
    + apply String.eqb_eq in Hk. subst k'.
      exfalso. apply Hnotin. now apply (in_map fst) in Hin.
    + auto.
Qed.

Lemma lookup_present (k : string) (o : object) :
  hasKey k o = true -> In (k, lookup k o) o.
Proof.
  induction o as [|[k' v] o IH]; simpl; [discriminate|].
  destruct (String.eqb k' k) eqn:Hk; simpl.
  - apply String.eqb_eq in Hk. subst. now left.
  - intros H. right. auto.
Qed.

Lemma lookup_app (k : string) (a b : object) :
  lookup k (a ++ b)%list = if hasKey k a then lookup k a else lookup k b.
Proof.
  induction a as [|[k' v] a IH]; simpl; [reflexivity|].
  destruct (String.eqb k' k); simpl; [reflexivity|exact IH].
Qed.

Lemma hasKey_app (k : string) (a b : object) :
  hasKey k (a ++ b)%list = hasKey k a || hasKey k b.
Proof.
  induction a as [|[k' v] a IH]; simpl; [reflexivity|].
  now rewrite IH, orb_assoc.
Qed.

Lemma lookupWith_lookup {A : Type} (k : string) (f : value -> A) (d : A) (o : object) :
  lookupWith k f d o = if hasKey k o then f (lookup k o) else d.
Proof.
  induction o as [|[k' v] o IH]; simpl; [reflexivity|].
  destruct (String.eqb k' k); simpl; [reflexivity|exact IH].
Qed.

Lemma existsb_eqb_In (k : string) (l : list string) :
  existsb (String.eqb k) l = true <-> In k l.
Proof.
  rewrite existsb_exists. split.
  - intros (x & Hin & Hx). apply String.eqb_eq in Hx. now subst.
  - intros Hin. exists k. split; [assumption|apply String.eqb_refl].
Qed.

Lemma lookup_removeKeys (removed : list string) (k : string) (o : object) :
  lookup k (removeKeys removed o)
  = if existsb (String.eqb k) removed then VUndefined else lookup k o.
Proof.
  unfold removeKeys.
  induction o as [|[k' v] o IH]; simpl.
  - now destruct (existsb (String.eqb k) removed).
  - destruct (String.eqb k' k) eqn:Hk.
    + apply String.eqb_eq in Hk. subst k'.
      destruct (existsb (String.eqb k) removed) eqn:Hr; simpl.
      * rewrite IH. reflexivity.
      * now rewrite String.eqb_refl.
    + destruct (existsb (String.eqb k') removed); simpl.
      * exact IH.
      * rewrite Hk. exact IH.
Qed.

Lemma setKey_keys {A : Type} (k : string) (v : A) (o : list (string * A)) :
  map fst (setKey k v o)
  = if existsb (String.eqb k) (map fst o) then map fst o
    else (map fst o ++ [k])%list.
Proof.
  induction o as [|[k' v'] o IH]; simpl; [reflexivity|].
  rewrite (String.eqb_sym k k').
  destruct (String.eqb k' k) eqn:Hk; simpl; [reflexivity|].
  rewrite IH. now destruct (existsb (String.eqb k) (map fst o)).
Qed.

Lemma setKey_NoDup {A : Type} (k : string) (v : A) (o : list (string * A)) :
  NoDup (map fst o) -> NoDup (map fst (setKey k v o)).
Proof.
  intros Hnd. rewrite setKey_keys.
  destruct (existsb (String.eqb k) (map fst o)) eqn:Hk; [assumption|].
  apply NoDup_app; [assumption|repeat constructor; simpl; tauto|].
  intros x Hin [<-|[]].
  apply existsb_eqb_In in Hin. congruence.
Qed.

Lemma setKey_Forall {A : Type} (Q : A -> Prop) (k : string) (v : A)
  (o : list (string * A)) :
  Q v -> Forall (fun kv => Q (snd kv)) o ->
  Forall (fun kv => Q (snd kv)) (setKey k v o).
Proof.
  intros Hv. induction 1 as [|[k' v'] o Hk' Ho IH]; simpl.
  - now constructor.
  - destruct (String.eqb k' k); constructor; auto.
Qed.

Lemma setKey_In {A : Type} (k : string) (v : A) (o : list (string * A)) (kv : string * A) :
  In kv (setKey k v o) -> snd kv = v \/ In kv o.
Proof.
  induction o as [|[k' v'] o IH]; simpl.
  - intros [<-|[]]. now left.
  - destruct (String.eqb k' k); simpl.
    + intros [<-|Hin]; [now left|now right; right].
    + intros [<-|Hin]; [now right; left|]. destruct (IH Hin); auto.
Qed.

(** ** Parsing *)

Lemma accepts_true (z : zod) (v : value) :
  accepts z v = true <-> exists data, parse z v = Some data.
Proof.
  unfold accepts. destruct (parse z v) as [data|]; split.
  - now exists data.
  - reflexivity.
  - discriminate.
  - intros [data H]. discriminate.
Qed.

Lemma accepts_false (z : zod) (v : value) :
  accepts z v = false <-> parse z v = None.
Proof.
  unfold accepts. destruct (parse z v); split; congruence.
Qed.

Lemma parse_object (shape : list (string * zod)) (unknownKeys : UnknownKeys)
  (o : object) :
  parse (ZObject shape unknownKeys) (VObj o)
  = let* parsed := parseShape shape o in
    Some (objectResult (map fst shape) unknownKeys o parsed).
Proof. reflexivity. Qed.

Lemma parse_object_inv (shape : list (string * zod)) (unknownKeys : UnknownKeys)
  (v data : value) :
  parse (ZObject shape unknownKeys) v = Some data ->
  exists o parsed,
    v = VObj o /\ parseShape shape o = Some parsed
    /\ data = objectResult (map fst shape) unknownKeys o parsed.
Proof.
  destruct v as [| | | | | |o]; try discriminate.
  rewrite parse_object.
  destruct (parseShape shape o) as [parsed|] eqn:Hp; [|discriminate].
  intros [= <-]. now exists o, parsed.
Qed.

Lemma parseShape_Forall2 (shape : list (string * zod)) (o : object)
  (parsed : list (string * value)) :
  parseShape shape o = Some parsed ->
  Forall2 (fun kz kr => fst kr = fst kz
                        /\ parse (snd kz) (lookup (fst kz) o) = Some (snd kr))
    shape parsed.
Proof.
  intros H. apply mapM_Forall2 in H.
  induction H as [|[k z] [k' r] shape parsed Hx _ IH]; constructor; [|exact IH].
  simpl in *. destruct (parse z (lookup k o)); simpl in Hx; [|discriminate].
  injection Hx as -> ->. auto.
Qed.

Lemma parseShape_keys (shape : list (string * zod)) (o : object)
  (parsed : list (string * value)) :
  parseShape shape o = Some parsed -> map fst parsed = map fst shape.
Proof.
  intros H. apply parseShape_Forall2 in H.
  induction H as [|kz kr shape parsed [Hk _] _ IH]; simpl; [reflexivity|].
  now rewrite Hk, IH.
Qed.

Lemma parseShape_In (shape : list (string * zod)) (o : object)
  (parsed : list (string * value)) (k : string) (z : zod) :
  parseShape shape o = Some parsed -> In (k, z) shape ->
  exists data, In (k, data) parsed /\ parse z (lookup k o) = Some data.
Proof.
  intros H. apply parseShape_Forall2 in H.
  induction H as [|kz [k' r] shape parsed [Hk Hp] _ IH]; simpl; [contradiction|].
  intros [->|Hin].
  - simpl in *. subst k'. exists r. auto.
  - destruct (IH Hin) as (data & Hd & Hpd). exists data. auto.
Qed.

Lemma parseShape_total (shape : list (string * zod)) (o : object) :
  Forall (fun kz => exists data, parse (snd kz) (lookup (fst kz) o) = Some data) shape
  <-> exists parsed, parseShape shape o = Some parsed.
Proof.
  split.
  - intros H. apply mapM_total.
    eapply Forall_impl; [|exact H].
    intros [k z] [data Hd]. simpl in *. rewrite Hd. simpl. eauto.
  - intros [parsed H]. apply mapM_inv in H.
    eapply Forall_impl; [|exact H].
    intros [k z] [y Hy]. simpl in *.
    destruct (parse z (lookup k o)) as [data|]; [now exists data|discriminate].
Qed.

(** An object schema accepts an object exactly when the schema under each
    key accepts the property read under that key. *)
Lemma object_accepts (shape : list (string * zod)) (unknownKeys : UnknownKeys)
  (o : object) :
  accepts (ZObject shape unknownKeys) (VObj o) = true
  <-> Forall (fun kz => accepts (snd kz) (lookup (fst kz) o) = true) shape.
Proof.
  rewrite accepts_true, parse_object.
  assert (Hiff : Forall (fun kz => accepts (snd kz) (lookup (fst kz) o) = true) shape
                 <-> exists parsed, parseShape shape o = Some parsed).
  { rewrite <- parseShape_total. split; intros H; (eapply Forall_impl; [|exact H]);
      intros kz; apply accepts_true. }
  rewrite Hiff. split.
  - intros [data H]. destruct (parseShape shape o) as [parsed|]; [eauto|discriminate].
  - intros [parsed H]. rewrite H. simpl. eauto.
Qed.

Lemma optional_accepts (z : zod) (v : value) :
  accepts (ZOptional z) v = true <-> v = VUndefined \/ accepts z v = true.
Proof.
  unfold accepts. simpl. destruct v; simpl; try tauto;
    split; auto; intros [H|H]; congruence.
Qed.

(** The draft variant of an object schema accepts an object exactly when
    each key is undefined or accepted by the schema under it. *)
Lemma partial_accepts (shape : list (string * zod)) (unknownKeys : UnknownKeys)
  (o : object) :
  accepts (partial (ZObject shape unknownKeys)) (VObj o) = true
  <-> Forall (fun kz => lookup (fst kz) o = VUndefined
                        \/ accepts (snd kz) (lookup (fst kz) o) = true) shape.
Proof.
  simpl partial. rewrite object_accepts, Forall_map.
  split; intros H; (eapply Forall_impl; [|exact H]);
    intros [k z]; simpl; apply optional_accepts.
Qed.

Lemma mapM_Some_id (l : list value) : mapM (fun v => Some v) l = Some l.
Proof.
  induction l as [|v l IH]; simpl; [reflexivity|]. now rewrite IH.
Qed.

Lemma parse_array_inv (element : zod) (max : option Z) (v data : value) :
  parse (ZArray element max) v = Some data ->
  exists items parsed,
    v = VArr items /\ mapM (parse element) items = Some parsed /\ data = VArr parsed
    /\ match max with
       | Some m => (Z.of_nat (List.length items) <=? m) = true
       | None => True
       end.
Proof.
  destruct v as [| | | | |items|]; try discriminate. simpl.
  destruct (mapM (parse element) items) as [parsed|] eqn:Hm; [|discriminate]. simpl.
  intros H. exists items, parsed. split; [reflexivity|]. split; [exact Hm|].
  destruct max as [m|]; [destruct (Z.of_nat _ <=? m) eqn:Hle|];
    try discriminate; injection H as <-; auto.
Qed.

(** ** The value an object schema returns *)

Lemma NoDup_keys_filter {A : Type} (p : string * A -> bool) (l : list (string * A)) :
  NoDup (map fst l) -> NoDup (map fst (filter p l)).
Proof.
  induction l as [|[k v] l IH]; simpl; intros Hnd; [constructor|].
  inversion Hnd as [|? ? Hnotin Hnd']; subst.
  destruct (p (k, v)); simpl; [|auto].
  constructor; [|auto].
  intros Hin. apply Hnotin. apply in_map_iff in Hin as ([k' v'] & Hk & Hin).
  apply filter_In in Hin as [Hin _]. simpl in Hk. subst k'.
  now apply (in_map fst) in Hin.
Qed.

Lemma NoDup_keys_unique (k : string) (v v' : value) (l : object) :
  NoDup (map fst l) -> In (k, v) l -> In (k, v') l -> v = v'.
Proof.
  intros Hnd Hv Hv'. rewrite <- (lookup_In k v l Hnd Hv). now apply lookup_In.
Qed.

(** Under a declared key the returned object holds the parsed value. *)
Lemma objectResult_declared (keys : list string) (unknownKeys : UnknownKeys)
  (o : object) (parsed : list (string * value)) (k : string) (data : value) :
  NoDup (map fst parsed) -> map fst parsed = keys -> In (k, data) parsed ->
  exists out,
    objectResult keys unknownKeys o parsed = VObj out /\ lookup k out = data.
Proof.
  intros Hnd Hkeys Hin. unfold objectResult. eexists. split; [reflexivity|].
  rewrite lookup_app.
  set (keep := fun kr : string * value =>
                 hasKey (fst kr) o || negb (isUndefined (snd kr))).
  destruct (keep (k, data)) eqn:Hkeep.
  - assert (Hf : In (k, data) (filter keep parsed)) by (apply filter_In; auto).
    assert (Hk : hasKey k (filter keep parsed) = true).
    { apply hasKey_In. now apply (in_map fst) in Hf. }
    rewrite Hk. apply lookup_In; [now apply NoDup_keys_filter|assumption].
  - assert (Hk : hasKey k (filter keep parsed) = false).
    { apply hasKey_false. intros Hc.
      apply in_map_iff in Hc as ([k' v'] & Hk' & Hc). simpl in Hk'. subst k'.
      apply filter_In in Hc as [Hc Hkept].
      rewrite (NoDup_keys_unique k v' data parsed Hnd Hc Hin) in Hkept. congruence. }
    rewrite Hk.
    assert (Hdata : data = VUndefined).
    { unfold keep in Hkeep. simpl in Hkeep. apply orb_false_iff in Hkeep as [_ Hu].
      destruct data; simpl in Hu; congruence. }
    rewrite Hdata. apply lookup_absent. apply hasKey_false.
    destruct unknownKeys; simpl; [tauto|].
    intros Hc. apply in_map_iff in Hc as ([k' v'] & Hk' & Hc). simpl in Hk'. subst k'.
    apply filter_In in Hc as [_ Hc]. simpl in Hc.
    apply andb_true_iff in Hc as [Hc _]. apply negb_true_iff in Hc.
    assert (Hex : existsb (String.eqb k) keys = true).
    { apply existsb_eqb_In. rewrite <- Hkeys. now apply (in_map fst) in Hin. }
    congruence.
Qed.

(** Under [strip] the returned object has declared keys only. *)
Lemma objectResult_strip (keys : list string) (o : object)
  (parsed : list (string * value)) (k : string) :
  map fst parsed = keys ->
  exists out,
    objectResult keys Strip o parsed = VObj out
    /\ (hasKey k out = true -> In k keys).
Proof.
  intros Hkeys. unfold objectResult. eexists. split; [reflexivity|].
  rewrite app_nil_r, hasKey_In. intros Hin.
  apply in_map_iff in Hin as (kr & <- & Hin). apply filter_In in Hin as [Hin _].
  rewrite <- Hkeys. now apply in_map.
Qed.

Lemma lookup_filter_defined (p : string * value -> bool) (k : string) (o : object) :
  (forall v, v <> VUndefined -> p (k, v) = true) ->
  lookup k o <> VUndefined ->
  lookup k (filter p o) = lookup k o.
Proof.
  intros Hp. induction o as [|[k' v] o IH]; simpl; [tauto|].
  destruct (String.eqb k' k) eqn:Hk.
  - apply String.eqb_eq in Hk. subst k'. intros Hv.
    rewrite (Hp v Hv). simpl. now rewrite String.eqb_refl.
  - intros Hv. destruct (p (k', v)); simpl; [rewrite Hk|]; auto.
Qed.

(** Under [passthrough] a defined property of the input with an undeclared
    key is in the returned object unchanged. *)
Lemma objectResult_passthrough (keys : list string) (o : object)
  (parsed : list (string * value)) (k : string) :
  map fst parsed = keys -> ~ In k keys -> lookup k o <> VUndefined ->
  exists out,
    objectResult keys Passthrough o parsed = VObj out /\ lookup k out = lookup k o.
Proof.
  intros Hkeys Hnotin Hdef. unfold objectResult. eexists. split; [reflexivity|].
  rewrite lookup_app.
  match goal with
  | |- (if hasKey k ?d then _ else _) = _ =>
      assert (Hk : hasKey k d = false)
  end.
  { apply hasKey_false. intros Hc. apply Hnotin.
    apply in_map_iff in Hc as (kr & <- & Hc). apply filter_In in Hc as [Hc _].
    rewrite <- Hkeys. now apply in_map. }
  rewrite Hk. apply lookup_filter_defined; [|assumption].
  intros v Hv. simpl.
  assert (Hex : existsb (String.eqb k) keys = false).
  { apply not_true_iff_false. now rewrite existsb_eqb_In. }
  rewrite Hex. destruct v; simpl; congruence.
Qed.

(** An object schema under [passthrough] returns an object that keeps
    every defined property of the input with an undeclared key. *)
Lemma passthrough_keeps (shape : list (string * zod)) (g : object) (r : value) :
  parse (ZObject shape Passthrough) (VObj g) = Some r ->
  exists g',
    r = VObj g'
    /\ forall k, ~ In k (map fst shape) -> lookup k g <> VUndefined ->
                 lookup k g' = lookup k g.
Proof.
  intros Hr.
  destruct (parse_object_inv _ _ _ _ Hr) as (g0 & parsed & [= <-] & Hp & ->).
  unfold objectResult. eexists. split; [reflexivity|].
  intros k Hnotin Hdef.
  destruct (objectResult_passthrough _ g parsed k (parseShape_keys _ _ _ Hp)
              Hnotin Hdef) as (g' & Hg' & Hl).
  unfold objectResult in Hg'. injection Hg' as <-. exact Hl.
Qed.

(** ** Revalidation *)

Lemma revalidates_same (z : zod) :
  (forall v data, parse z v = Some data -> data = v) -> revalidates z.
Proof.
  intros Hsame v data H. exists data. now rewrite (Hsame v data H) in H |- *.
Qed.

Lemma parseString_same (checks : list (string -> bool)) (v data : value) :
  parseString checks v = Some data -> data = v.
Proof.
  destruct v; simpl; try discriminate.
  destruct (forallb _ checks); congruence.
Qed.

Lemma revalidates_any : revalidates ZAny.
Proof. apply revalidates_same. simpl. congruence. Qed.

Lemma revalidates_string (checks : list (string -> bool)) : revalidates (ZString checks).
Proof. apply revalidates_same. intros v data. apply parseString_same. Qed.

Lemma revalidates_number : revalidates ZNumber.
Proof. apply revalidates_same. intros [] data; simpl; congruence. Qed.

Lemma revalidates_boolean : revalidates ZBoolean.
Proof. apply revalidates_same. intros [] data; simpl; congruence. Qed.

Lemma revalidates_enum (values : list string) : revalidates (ZEnum values).
Proof.
  apply revalidates_same. intros [] data; simpl; try congruence.
  destruct (existsb _ values); congruence.
Qed.

Lemma revalidates_literal (literal : string) : revalidates (ZLiteral literal).
Proof.
  apply revalidates_same. intros [] data; simpl; try congruence.
  destruct (String.eqb _ literal); congruence.
Qed.

Lemma revalidates_record : revalidates ZRecordAny.
Proof. apply revalidates_same. intros [] data; simpl; congruence. Qed.

Lemma revalidates_refined_string (checks : list (string -> bool))
  (check : value -> bool) :
  revalidates (ZRefine (ZString checks) check).
Proof.
  apply revalidates_same. intros v data. simpl.
  destruct (parseString checks v) as [r|] eqn:Hs; simpl; [|discriminate].
  apply parseString_same in Hs. destruct (check r); congruence.
Qed.

Lemma revalidates_optional (z : zod) : revalidates z -> revalidates (ZOptional z).
Proof.
  intros Hz v data. simpl. destruct v; simpl; intros H;
    try (injection H as <-; now exists VUndefined);
    destruct (Hz _ _ H) as [data' Hd];
    (destruct data; simpl; [now exists VUndefined|now exists data'..]).
Qed.

Lemma revalidates_nullable (z : zod) : revalidates z -> revalidates (ZNullable z).
Proof.
  intros Hz v data. simpl. destruct v; simpl; intros H;
    try (injection H as <-; now exists VNull);
    destruct (Hz _ _ H) as [data' Hd];
    (destruct data; simpl; [now exists data'|now exists VNull|now exists data'..]).
Qed.

Lemma revalidates_array (element : zod) (max : option Z) :
  revalidates element -> revalidates (ZArray element max).
Proof.
  intros He v data H.
  apply parse_array_inv in H as (items & parsed & -> & Hm & -> & Hmax).
  apply mapM_Forall2 in Hm.
  assert (Hall : Forall (fun x => exists y, parse element x = Some y) parsed).
  { clear Hmax. induction Hm as [|x y items parsed Hxy _ IH]; constructor.
    - exact (He _ _ Hxy).
    - exact IH. }
  assert (Hlen : List.length parsed = List.length items).
  { symmetry. eapply Forall2_length. exact Hm. }
  apply mapM_total in Hall as [parsed' Hp]. simpl. rewrite Hp. simpl.
  destruct max as [m|]; [|eauto]. rewrite Hlen, Hmax. eauto.
Qed.

Lemma revalidates_union (options : list zod) :
  Forall revalidates options -> revalidates (ZUnion options).
Proof.
  intros Hall v data H. simpl in H.
  apply firstSome_found in H as (z & Hin & Hz).
  rewrite Forall_forall in Hall. destruct (Hall z Hin _ _ Hz) as [data' Hd].
  simpl. apply firstSome_total. eauto.
Qed.

Lemma revalidates_object (shape : list (string * zod)) (unknownKeys : UnknownKeys) :
  NoDup (map fst shape) ->
  Forall (fun kz => revalidates (snd kz)) shape ->
  revalidates (ZObject shape unknownKeys).
Proof.
  intros Hnd Hall v data H.
  apply parse_object_inv in H as (o & parsed & -> & Hp & ->).
  pose proof (parseShape_keys _ _ _ Hp) as Hkeys.
  assert (Hndp : NoDup (map fst parsed)) by now rewrite Hkeys.
  apply accepts_true. unfold objectResult. apply (proj2 (object_accepts _ _ _)).
  rewrite Forall_forall in Hall |- *. intros [k z] Hin. simpl.
  destruct (parseShape_In _ _ _ k z Hp Hin) as (r & Hr & Hparse).
  destruct (objectResult_declared (map fst shape) unknownKeys o parsed k r
              Hndp Hkeys Hr) as (out & Hout & Hlook).
  unfold objectResult in Hout. injection Hout as <-. rewrite Hlook.
  apply accepts_true. exact (Hall (k, z) Hin _ _ Hparse).
Qed.

Create HintDb revalidate discriminated.

#[export] Hint Resolve revalidates_any revalidates_string revalidates_number
  revalidates_boolean revalidates_enum revalidates_literal revalidates_record
  revalidates_refined_string revalidates_optional revalidates_nullable
  revalidates_array : revalidate.

(** ** The recursive rich-text node schema *)

(** Induction over a value with the hypothesis for the items of an array
    and the properties of an object. *)
Lemma value_ind_nested (P : value -> Prop) :
  P VUndefined -> P VNull -> (forall b, P (VBool b)) -> (forall n, P (VNum n)) ->
  (forall s, P (VStr s)) ->
  (forall items, Forall P items -> P (VArr items)) ->
  (forall props, Forall (fun kv => P (snd kv)) props -> P (VObj props)) ->
  forall v, P v.
Proof.
  intros Hu Hn Hb Hz Hs Ha Ho.
  refine (fix IH (v : value) : P v :=
            match v with
            | VUndefined => Hu
            | VNull => Hn
            | VBool b => Hb b
            | VNum n => Hz n
            | VStr s => Hs s
            | VArr items =>
                Ha items
                  ((fix all (l : list value) : Forall P l :=
                      match l with
                      | [] => Forall_nil P
                      | x :: l' => Forall_cons x (IH x) (all l')
                      end) items)
            | VObj props =>
                Ho props
                  ((fix all (l : list (string * value))
                      : Forall (fun kv => P (snd kv)) l :=
                      match l with
                      | [] => Forall_nil _
                      | kv :: l' =>
                          Forall_cons (P := fun kv => P (snd kv)) kv
                            (IH (snd kv)) (all l')
                      end) props)
            end).
Qed.

Lemma parseRteNode_object (o : object) :
  parseRteNode (VObj o)
  = let* type := parseOptional (parseString []) (lookup "type" o) in
    let* text := parseOptional (parseString []) (lookup "text" o) in
    let* children :=
      (if hasKey "children" o then
         match lookup "children" o with
         | VUndefined => Some VUndefined
         | VArr l => let* l' := mapM parseRteNode l in Some (VArr l')
         | _ => None
         end
       else Some VUndefined) in
    let* attrs := parseOptional parseRecordAny (lookup "attrs" o) in
    let* uid := parseOptional (parseString []) (lookup "uid" o) in
    Some (objectResult ["type"; "text"; "children"; "attrs"; "uid"] Passthrough o
            [("type", type); ("text", text); ("children", children);
             ("attrs", attrs); ("uid", uid)]).
Proof.
  cbn [parseRteNode]. now rewrite lookupWith_lookup.
Qed.

Lemma parseOptional_string_same (v data : value) :
  parseOptional (parseString []) v = Some data -> data = v.
Proof. destruct v; simpl; congruence. Qed.

Lemma parseOptional_record_same (v data : value) :
  parseOptional parseRecordAny v = Some data -> data = v.
Proof. destruct v; simpl; congruence. Qed.

Lemma nodes_revalidate (l l' : list value) :
  Forall nodeRevalidates l ->
  Forall2 (fun x y => parseRteNode x = Some y) l l' ->
  Forall (fun y => exists y', parseRteNode y = Some y') l'.
Proof.
  intros Hall H. induction H as [|x y l l' Hxy _ IH]; constructor.
  - inversion Hall as [|? ? Hx _]; subst. exact (Hx _ Hxy).
  - apply IH. now inversion Hall.
Qed.

Lemma node_revalidates (v : value) : nodeRevalidates v.
Proof.
  enough (H : nodeRevalidates v
              /\ forall l, v = VArr l -> Forall nodeRevalidates l) by apply H.
  induction v as [| | | | |items IH|o IH] using value_ind_nested;
    try (split; [intros data H; discriminate|intros l H; discriminate]).
  - split; [intros data H; discriminate|].
    intros l [= <-]. eapply Forall_impl; [|exact IH]. now intros x [Hx _].
  - split; [|intros l H; discriminate].
    intros data. rewrite parseRteNode_object.
    destruct (parseOptional (parseString []) (lookup "type" o)) as [type|] eqn:Htype;
      [|discriminate].
    destruct (parseOptional (parseString []) (lookup "text" o)) as [text|] eqn:Htext;
      [|discriminate].
    cbn [bind].
    match goal with
    | |- bind ?c _ = _ -> _ => destruct c as [children|] eqn:Hchildren; [|discriminate]
    end.
    destruct (parseOptional parseRecordAny (lookup "attrs" o)) as [attrs|] eqn:Hattrs;
      [|discriminate].
    destruct (parseOptional (parseString []) (lookup "uid" o)) as [uid|] eqn:Huid;
      [|discriminate].
    cbn [bind]. intros [= <-].
    set (parsed := [("type", type); ("text", text); ("children", children);
                    ("attrs", attrs); ("uid", uid)]).
    assert (Hnd : NoDup (map fst parsed)).
    { repeat constructor; simpl; intuition discriminate. }
    assert (Hlook : forall k r, In (k, r) parsed ->
              exists out,
                objectResult ["type"; "text"; "children"; "attrs"; "uid"]
                  Passthrough o parsed = VObj out /\ lookup k out = r).
    { intros k r Hin. now apply objectResult_declared. }
    destruct (Hlook "type" type) as (out & Hout & Ltype); [simpl; tauto|].
    destruct (Hlook "text" text) as (out1 & Hout1 & Ltext); [simpl; tauto|].
    destruct (Hlook "children" children) as (out2 & Hout2 & Lchildren); [simpl; tauto|].
    destruct (Hlook "attrs" attrs) as (out3 & Hout3 & Lattrs); [simpl; tauto|].
    destruct (Hlook "uid" uid) as (out4 & Hout4 & Luid); [simpl; tauto|].
    assert (out1 = out) by congruence. assert (out2 = out) by congruence.
    assert (out3 = out) by congruence. assert (out4 = out) by congruence.
    subst out1 out2 out3 out4.
    rewrite Hout, parseRteNode_object, Ltype, Ltext, Lchildren, Lattrs, Luid.
    rewrite <- (parseOptional_string_same _ _ Htype) in Htype at 1.
    rewrite <- (parseOptional_string_same _ _ Htext) in Htext at 1.
    rewrite <- (parseOptional_record_same _ _ Hattrs) in Hattrs at 1.
    rewrite <- (parseOptional_string_same _ _ Huid) in Huid at 1.
    rewrite Htype, Htext. cbn [bind].
    assert (Hagain : exists children',
              (if hasKey "children" out then
                 match children with
                 | VUndefined => Some VUndefined
                 | VArr l => let* l' := mapM parseRteNode l in Some (VArr l')
                 | _ => None
                 end
               else Some VUndefined) = Some children').
    { destruct (hasKey "children" out); [|eauto].
      destruct (hasKey "children" o) eqn:Hhas;
        [|injection Hchildren as <-; eauto].
      destruct (lookup "children" o) as [| | | | |l|] eqn:Hl; try discriminate;
        [injection Hchildren as <-; eauto|].
      destruct (mapM parseRteNode l) as [l'|] eqn:Hm; [|discriminate].
      injection Hchildren as <-.
      assert (Hin : In ("children", VArr l) o).
      { rewrite <- Hl. now apply lookup_present. }
      rewrite Forall_forall in IH. destruct (IH _ Hin) as [_ Hitems].
      specialize (Hitems l eq_refl). apply mapM_Forall2 in Hm.
      pose proof (nodes_revalidate l l' Hitems Hm) as Hall.
      apply mapM_total in Hall as [l'' Hl'']. rewrite Hl''. simpl. eauto. }
    destruct Hagain as [children' ->]. cbn [bind]. rewrite Hattrs, Huid. cbn [bind].
    eauto.
Qed.

Lemma revalidates_lazy_node : revalidates ZLazyRteNode.
Proof. intros v data H. exact (node_revalidates v data H). Qed.

End ZodFacts.

(** * Properties of the validator builder *)

Module SchemaFacts.

Import Schema ZodFacts.

Lemma fieldToZod_unfold (h : Host) (options : option SchemaOptions)
  (field : ContentstackField) :
  fieldToZod h options field = wrapField field (baseSchema h options field).
Proof. destruct field. reflexivity. Qed.

Lemma contentTypeToZod_inv (h : Host) (ct : ContentstackContentType)
  (options : option SchemaOptions) (full : zod) :
  contentTypeToZod h ct options = Some full ->
  exists fields,
    ct_schema ct = Some fields /\ full = ZObject (shapeOf h options fields) Strip.
Proof.
  unfold contentTypeToZod. destruct (ct_schema ct) as [fields|]; [|discriminate].
  intros [= <-]. now exists fields.
Qed.

Lemma contentTypeToDraftZod_eq (h : Host) (ct : ContentstackContentType)
  (options : option SchemaOptions) (fields : list ContentstackField) :
  ct_schema ct = Some fields ->
  contentTypeToDraftZod h ct options
  = Some (partial (ZObject (shapeOf h options fields) Strip)).
Proof.
  intros Hs. unfold contentTypeToDraftZod, contentTypeToZod. now rewrite Hs.
Qed.

(** ** The shape of a content type *)

Lemma setKey_fresh {A : Type} (k : string) (v : A) (o : list (string * A)) :
  ~ In k (map fst o) -> setKey k v o = (o ++ [(k, v)])%list.
Proof.
  induction o as [|[k' v'] o IH]; simpl; intros Hn; [reflexivity|].
  destruct (String.eqb k' k) eqn:Hk.
  - apply String.eqb_eq in Hk. tauto.
  - rewrite IH; tauto.
Qed.

Lemma fold_setKey_NoDup {A : Type} (g : ContentstackField -> A)
  (fields : list ContentstackField) (acc : list (string * A)) :
  NoDup (map fst acc) ->
  NoDup (map fst (fold_left (fun shape f => setKey (uid f) (g f) shape) fields acc)).
Proof.
  revert acc. induction fields as [|f fields IH]; simpl; intros acc Hnd.
  - assumption.
  - apply IH. now apply setKey_NoDup.
Qed.

Lemma fold_setKey_Forall {A : Type} (Q : A -> Prop) (g : ContentstackField -> A)
  (fields : list ContentstackField) (acc : list (string * A)) :
  Forall (fun f => Q (g f)) fields ->
  Forall (fun kv => Q (snd kv)) acc ->
  Forall (fun kv => Q (snd kv))
    (fold_left (fun shape f => setKey (uid f) (g f) shape) fields acc).
Proof.
  intros Hf. revert acc. induction Hf as [|f fields Hq _ IH]; simpl; intros acc Hacc.
  - assumption.
  - apply IH. now apply setKey_Forall.
Qed.

Lemma fold_setKey_fresh {A : Type} (g : ContentstackField -> A)
  (fields : list ContentstackField) (acc : list (string * A)) :
  NoDup (map fst acc ++ map uid fields)%list ->
  fold_left (fun shape f => setKey (uid f) (g f) shape) fields acc
  = (acc ++ map (fun f => (uid f, g f)) fields)%list.
Proof.
  revert acc. induction fields as [|f fields IH]; simpl; intros acc Hnd.
  - now rewrite app_nil_r.
  - rewrite setKey_fresh.
    + rewrite IH.
      * now rewrite <- app_assoc.
      * rewrite map_app. simpl. now rewrite <- app_assoc.
    + apply NoDup_remove_2 in Hnd. intros Hin. apply Hnd.
      apply in_or_app. now left.
Qed.

Lemma shapeOf_NoDup (h : Host) (options : option SchemaOptions)
  (fields : list ContentstackField) :
  NoDup (map fst (shapeOf h options fields)).
Proof. apply fold_setKey_NoDup. constructor. Qed.

(** With distinct uids the shape lists the fields in order, each with its
    own validator. *)
Lemma shapeOf_distinct (h : Host) (options : option SchemaOptions)
  (fields : list ContentstackField) :
  NoDup (map uid fields) ->
  shapeOf h options fields = map (fun f => (uid f, fieldToZod h options f)) fields.
Proof.
  intros Hnd. unfold shapeOf. now rewrite fold_setKey_fresh.
Qed.

Lemma full_accepts_fields (h : Host) (options : option SchemaOptions)
  (fields : list ContentstackField) (o : object) :
  NoDup (map uid fields) ->
  (accepts (ZObject (shapeOf h options fields) Strip) (VObj o) = true
   <-> forall f, In f fields ->
                 accepts (fieldToZod h options f) (lookup (uid f) o) = true).
Proof.
  intros Hnd. rewrite object_accepts, (shapeOf_distinct h options fields Hnd).
  rewrite Forall_map, Forall_forall. reflexivity.
Qed.

Lemma draft_accepts_fields (h : Host) (options : option SchemaOptions)
  (fields : list ContentstackField) (o : object) :
  NoDup (map uid fields) ->
  (accepts (partial (ZObject (shapeOf h options fields) Strip)) (VObj o) = true
   <-> forall f, In f fields ->
                 lookup (uid f) o = VUndefined
                 \/ accepts (fieldToZod h options f) (lookup (uid f) o) = true).
Proof.
  intros Hnd. rewrite partial_accepts, (shapeOf_distinct h options fields Hnd).
  rewrite Forall_map, Forall_forall. reflexivity.
Qed.

Lemma uid_injective (fields : list ContentstackField) (f g : ContentstackField) :
  NoDup (map uid fields) -> In f fields -> In g fields -> uid f = uid g -> f = g.
Proof.
  induction fields as [|x fields IH]; simpl; intros Hnd Hf Hg Hu; [contradiction|].
  inversion Hnd as [|? ? Hnotin Hnd']; subst.
  destruct Hf as [->|Hf], Hg as [->|Hg]; auto.
  - exfalso. apply Hnotin. rewrite Hu. now apply in_map.
  - exfalso. apply Hnotin. rewrite <- Hu. now apply in_map.
Qed.

(** ** Draft against full validation *)




(** C2, as the claim states it, fails: the full validator accepts the
    entry, [name] is a mandatory field of its [author] group, and the draft
    validator rejects the entry from which [name] has been removed. *)
Lemma draft_rejects_removed_nested_mandatory :
  validateEntry Samples.host Samples.profileType
    (VObj [ ("title", VStr "Post"); ("author", VObj [ ("name", VStr "Ada") ]) ])
  = Some (success
            (VObj [ ("title", VStr "Post"); ("author", VObj [ ("name", VStr "Ada") ]) ]))
  /\ withoutNestedFields "author" ["name"]
       (VObj [ ("title", VStr "Post"); ("author", VObj [ ("name", VStr "Ada") ]) ])
     = VObj [ ("title", VStr "Post"); ("author", VObj []) ]
  /\ validateDraft Samples.host Samples.profileType
       (withoutNestedFields "author" ["name"]
          (VObj [ ("title", VStr "Post"); ("author", VObj [ ("name", VStr "Ada") ]) ]))
     = Some failure.
Proof. vm_compute. repeat split. Qed.

(** C2, amended: whatever the full-mode validator of a content type
    accepts, the draft validator accepts too, and it still accepts the
    entry after any set of top-level keys, in particular any subset of the
    top-level mandatory fields, has been removed from it.  The removed keys
    are plain names: a key that names a member of [Object.prototype] still
    reads as that member once the property is gone.  Fields below the top
    level are not covered: see the lemma above. *)
Theorem draft_relaxes_full (h : Host) (ct : ContentstackContentType)
  (options : option SchemaOptions) (full draft : zod) (entry data : value) :
  contentTypeToZod h ct options = Some full ->
  contentTypeToDraftZod h ct options = Some draft ->
  parse full entry = Some data ->
  accepts draft entry = true
  /\ forall removed : list string,
       Forall (fun k => plainName k = true) removed ->
       accepts draft (withoutFields removed entry) = true.
Proof.
  intros Hfull Hdraft Hparse.
  destruct (contentTypeToZod_inv _ _ _ _ Hfull) as (fields & Hs & ->).
  rewrite (contentTypeToDraftZod_eq _ _ _ _ Hs) in Hdraft. injection Hdraft as <-.
  destruct (parse_object_inv _ _ _ _ Hparse) as (o & parsed & -> & Hp & _).
  assert (Hall : Forall (fun kz => accepts (snd kz) (lookup (fst kz) o) = true)
                   (shapeOf h options fields)).
  { apply (proj1 (object_accepts _ Strip o)). apply accepts_true. eauto. }
  split.
  - apply partial_accepts. eapply Forall_impl; [|exact Hall]. now right.
  - intros removed _. simpl withoutFields. apply partial_accepts.
    eapply Forall_impl; [|exact Hall].
    intros [k z] Hk. simpl in *. rewrite lookup_removeKeys.
    destruct (existsb (String.eqb k) removed); auto.
Qed.

Lemma draft_relaxes_full_witness :
  contentTypeToZod Samples.host Samples.profileType None
  = Some (ZObject (shapeOf Samples.host None
                     [ Samples.named "title" "text" "Title" true;
                       Samples.group "author" "Author" false false
                         [ Samples.named "name" "text" "Name" true ] ]) Strip)
  /\ Forall (fun k => plainName k = true) ["title"]
  /\ accepts (partial (ZObject (shapeOf Samples.host None
                     [ Samples.named "title" "text" "Title" true;
                       Samples.group "author" "Author" false false
                         [ Samples.named "name" "text" "Name" true ] ]) Strip))
       (withoutFields ["title"]
          (VObj [ ("title", VStr "Post");
                  ("author", VObj [ ("name", VStr "Ada") ]) ])) = true.
Proof.
  split; [reflexivity|]. split; [repeat constructor|].
  apply (proj2 (draft_relaxes_full Samples.host Samples.profileType None _ _
                  (VObj [ ("title", VStr "Post");
                          ("author", VObj [ ("name", VStr "Ada") ]) ])
                  (VObj [ ("title", VStr "Post");
                          ("author", VObj [ ("name", VStr "Ada") ]) ])
                  eq_refl eq_refl eq_refl)).
  repeat constructor.
Defined.

(** ** Blocks *)

(** What a blocks field validates an array with, whatever [mandatory]. *)
Lemma parse_blocks_field (h : Host) (options : option SchemaOptions)
  (field : ContentstackField) (items : list value) :
  data_type field = "blocks" ->
  parse (fieldToZod h options field) (VArr items)
  = parse (let blockSchemas := map (blockSchemaOf h options) (blocks field) in
           match blockSchemas with
           | [] => ZArray ZAny None
           | [only] => ZArray only None
           | _ => ZArray (ZUnion blockSchemas) None
           end) (VArr items).
Proof.
  intros Htype. rewrite fieldToZod_unfold.
  unfold wrapField, baseSchema, describe. rewrite Htype.
  cbn [String.eqb Ascii.eqb Bool.eqb andb orb negb].
  rewrite andb_false_r.
  destruct (negb (mandatory field)); reflexivity.
Qed.

Lemma blockSchemaOf_inv (h : Host) (options : option SchemaOptions)
  (block : ContentstackBlock) (item data : value) :
  parse (blockSchemaOf h options block) item = Some data ->
  exists o payload, item = VObj o /\ lookup (block_uid block) o = VObj payload.
Proof.
  unfold blockSchemaOf, ReferenceSchema, createLooseObject.
  destruct (present (block_reference_to block)); intros H;
    apply parse_object_inv in H as (o & parsed & -> & Hp & _);
    (destruct (parseShape_In _ _ _ (block_uid block) _ Hp (or_introl eq_refl))
      as (r & _ & Hr));
    apply parse_object_inv in Hr as (payload & ? & Hl & _);
    now exists o, payload.
Qed.




(** With a block declared, an element keyed by an undeclared uid is
    rejected, and an element that carries further keys beside a declared
    one is accepted. *)
Example blocks_with_definitions :
  accepts (fieldToZod Samples.host None Samples.sectionsField)
    (VArr [ VObj [ ("unknown", VObj []) ] ]) = false
  /\ accepts (fieldToZod Samples.host None Samples.sectionsField)
       (VArr [ VObj [ ("hero", VObj [ ("headline", VStr "Hello") ]);
                      ("teaser", VNum 1) ] ]) = true.
Proof. vm_compute. split; reflexivity. Qed.

(** ** Null and absence *)

Lemma lookup_setKey (k k' : string) (v : value) (o : object) :
  lookup k (setKey k' v o) = if String.eqb k' k then v else lookup k o.
Proof.
  induction o as [|[k0 v0] o IH]; simpl.
  - reflexivity.
  - destruct (String.eqb k0 k') eqn:H0; simpl.
    + apply String.eqb_eq in H0. subst k0.
      now destruct (String.eqb k' k).
    + destruct (String.eqb k0 k) eqn:H1; [|exact IH].
      destruct (String.eqb k' k) eqn:H2; [|reflexivity].
      apply String.eqb_eq in H1, H2. subst. now rewrite String.eqb_refl in H0.
Qed.

(** Case analysis on the data type of a field, one known name at a time. *)
Ltac case_type type name :=
  destruct (String.eqb_spec type name) as [->|?];
  [ cbn [String.eqb Ascii.eqb Bool.eqb andb orb negb]
  | cbn [andb orb negb] ].

Ltac case_types type :=
  case_type type "text"; [|
  case_type type "number"; [|
  case_type type "boolean"; [|
  case_type type "isodate"; [|
  case_type type "json"; [|
  case_type type "file"; [|
  case_type type "link"; [|
  case_type type "reference"; [|
  case_type type "global_field"; [|
  case_type type "taxonomy"; [|
  case_type type "group"; [|
  case_type type "blocks" ]]]]]]]]]]].

(** A mandatory field accepts [null] exactly when its base validator is
    [z.any()]. *)
Lemma mandatory_field_null (h : Host) (options : option SchemaOptions)
  (field : ContentstackField) :
  mandatory field = true ->
  accepts (fieldToZod h options field) VNull = acceptsAnything field.
Proof.
  intros Hm. rewrite fieldToZod_unfold.
  unfold wrapField, baseSchema, acceptsAnything, describe, accepts.
  rewrite Hm. cbn [negb existsb].
  generalize (data_type field) as type. intros type.
  destruct (multiple field);
  case_types type;
    repeat match goal with
      | |- context [if ?c then _ else _] =>
          match type of c with bool => destruct c end
      | |- context [match enumValues ?f with _ => _ end] => destruct (enumValues f)
      | |- context [match RegExp ?a ?x with _ => _ end] => destruct (RegExp a x)
      | |- context [match max_instance ?f with _ => _ end] => destruct (max_instance f)
      | |- context [match map ?g ?l with _ => _ end] => destruct (map g l) as [|? [|? ?]]
      end; reflexivity.
Qed.

(** A field that is not mandatory accepts [null] and absence. *)
Lemma optional_field_null (h : Host) (options : option SchemaOptions)
  (field : ContentstackField) :
  mandatory field = false ->
  accepts (fieldToZod h options field) VNull = true
  /\ accepts (fieldToZod h options field) VUndefined = true.
Proof.
  intros Hm. rewrite fieldToZod_unfold. unfold wrapField, describe, accepts.
  rewrite Hm. split; reflexivity.
Qed.

(** C9, as the claim states it, fails: a mandatory plain [json] field is
    validated by [z.any()], which takes [null], so the draft validator
    accepts an explicit [null] for it. *)
Lemma draft_accepts_null_for_mandatory_json :
  mandatory Samples.payloadField = true
  /\ validateDraft Samples.host (Samples.contentType [Samples.payloadField])
       (VObj [ ("payload", VNull) ])
     = Some (success (VObj [ ("payload", VNull) ])).
Proof. split; [reflexivity|]. vm_compute. reflexivity. Qed.

(** C9, amended: for a content type whose top-level uids are distinct, a
    top-level field whose uid is a plain name (not the name of a member of
    [Object.prototype]) and an entry the draft validator accepts, a
    mandatory field may be removed, and setting it to [null] is accepted
    exactly when the field's base validator is [z.any()] (a plain [json]
    field or a field of an unknown data type, not [multiple]); otherwise
    the explicit [null] is rejected.  Such a field that is not mandatory
    may be removed or set to [null] in full and in draft mode alike. *)
Theorem draft_null_and_absence (h : Host) (ct : ContentstackContentType)
  (options : option SchemaOptions) (fields : list ContentstackField)
  (full draft : zod) (f : ContentstackField) (o : object) :
  ct_schema ct = Some fields ->
  NoDup (map uid fields) ->
  In f fields ->
  plainName (uid f) = true ->
  contentTypeToZod h ct options = Some full ->
  contentTypeToDraftZod h ct options = Some draft ->
  (mandatory f = true ->
   accepts draft (VObj o) = true ->
   accepts draft (VObj (removeKeys [uid f] o)) = true
   /\ accepts draft (VObj (setKey (uid f) VNull o)) = acceptsAnything f)
  /\ (mandatory f = false ->
      forall z, z = full \/ z = draft ->
      accepts z (VObj o) = true ->
      accepts z (VObj (removeKeys [uid f] o)) = true
      /\ accepts z (VObj (setKey (uid f) VNull o)) = true).
Proof.
  intros Hs Hnd Hin _ Hfull Hdraft.
  destruct (contentTypeToZod_inv _ _ _ _ Hfull) as (fields' & Hs' & ->).
  assert (fields' = fields) as -> by congruence.
  rewrite (contentTypeToDraftZod_eq _ _ _ _ Hs) in Hdraft.
  assert (draft = partial (ZObject (shapeOf h options fields) Strip)) as ->
    by congruence.
  clear Hdraft.
  assert (Hremoved : forall g, In g fields ->
            lookup (uid g) (removeKeys [uid f] o)
            = if String.eqb (uid g) (uid f) then VUndefined else lookup (uid g) o).
  { intros g _. rewrite lookup_removeKeys. cbn [existsb]. now rewrite orb_false_r. }
  assert (Hsame : forall g, In g fields -> String.eqb (uid f) (uid g) = true -> g = f).
  { intros g Hg Hu. apply String.eqb_eq in Hu. symmetry.
    now apply (uid_injective fields). }
  split.
  - intros Hm Hacc. pose proof (proj1 (draft_accepts_fields h options fields o Hnd) Hacc) as Hall.
    split.
    + apply (proj2 (draft_accepts_fields h options fields _ Hnd)). intros g Hg.
      rewrite (Hremoved g Hg). destruct (String.eqb (uid g) (uid f)); auto.
    + destruct (acceptsAnything f) eqn:Hany.
      * apply (proj2 (draft_accepts_fields h options fields _ Hnd)). intros g Hg.
        rewrite lookup_setKey. destruct (String.eqb (uid f) (uid g)) eqn:Hu; [|auto].
        right. rewrite (Hsame g Hg Hu). now rewrite mandatory_field_null.
      * apply not_true_iff_false. intros Hc.
        pose proof (proj1 (draft_accepts_fields h options fields _ Hnd) Hc f Hin)
          as Hc'.
        rewrite lookup_setKey, String.eqb_refl in Hc'.
        destruct Hc' as [Hc'|Hc']; [discriminate|].
        rewrite (mandatory_field_null h options f Hm) in Hc'. congruence.
  - intros Hm z [->| ->] Hacc.
    + pose proof (proj1 (full_accepts_fields h options fields o Hnd) Hacc) as Hall. split.
      * apply (proj2 (full_accepts_fields h options fields _ Hnd)). intros g Hg.
        rewrite (Hremoved g Hg). destruct (String.eqb (uid g) (uid f)) eqn:Hu; [|auto].
        rewrite String.eqb_sym in Hu. rewrite (Hsame g Hg Hu).
        now apply optional_field_null.
      * apply (proj2 (full_accepts_fields h options fields _ Hnd)). intros g Hg.
        rewrite lookup_setKey. destruct (String.eqb (uid f) (uid g)) eqn:Hu; [|auto].
        rewrite (Hsame g Hg Hu). now apply optional_field_null.
    + pose proof (proj1 (draft_accepts_fields h options fields o Hnd) Hacc) as Hall. split.
      * apply (proj2 (draft_accepts_fields h options fields _ Hnd)). intros g Hg.
        rewrite (Hremoved g Hg). destruct (String.eqb (uid g) (uid f)); auto.
      * apply (proj2 (draft_accepts_fields h options fields _ Hnd)). intros g Hg.
        rewrite lookup_setKey. destruct (String.eqb (uid f) (uid g)) eqn:Hu; [|auto].
        right. rewrite (Hsame g Hg Hu). now apply optional_field_null.
Qed.

Lemma draft_null_and_absence_witness :
  mandatory (Samples.named "title" "text" "Title" true) = true
  /\ plainName (uid (Samples.named "title" "text" "Title" true)) = true
  /\ accepts (partial (ZObject (shapeOf Samples.host None
                                  [ Samples.named "title" "text" "Title" true ]) Strip))
       (VObj (removeKeys ["title"] [ ("title", VStr "Post") ])) = true
  /\ accepts (partial (ZObject (shapeOf Samples.host None
                                  [ Samples.named "title" "text" "Title" true ]) Strip))
       (VObj (setKey "title" VNull [ ("title", VStr "Post") ])) = false.
Proof.
  split; [reflexivity|]. split; [reflexivity|].
  exact (proj1 (draft_null_and_absence Samples.host
                  (Samples.contentType [ Samples.named "title" "text" "Title" true ])
                  None [ Samples.named "title" "text" "Title" true ] _ _
                  (Samples.named "title" "text" "Title" true)
                  [ ("title", VStr "Post") ]
                  eq_refl
                  ltac:(repeat constructor; simpl; tauto)
                  (or_introl eq_refl) eq_refl eq_refl eq_refl)
           eq_refl eq_refl).
Defined.

(** ** Revalidation of a validated entry *)

(** Induction over a field with the hypothesis for the fields of its
    [schema] and of the schemas of its [blocks]. *)
Lemma field_ind_nested (P : ContentstackField -> Prop) :
  (forall f, Forall P (schema f) ->
             Forall (fun b => Forall P (block_schema b)) (blocks f) -> P f) ->
  forall f, P f.
Proof.
  intros H.
  refine (fix IH (f : ContentstackField) : P f :=
            H f
              ((fix all (l : list ContentstackField) : Forall P l :=
                  match l with
                  | [] => Forall_nil P
                  | x :: l' => Forall_cons x (IH x) (all l')
                  end) (schema f))
              ((fix allBlocks (l : list ContentstackBlock)
                  : Forall (fun b => Forall P (block_schema b)) l :=
                  match l with
                  | [] => Forall_nil _
                  | b :: l' =>
                      Forall_cons (P := fun b => Forall P (block_schema b)) b
                        ((fix all (l : list ContentstackField) : Forall P l :=
                            match l with
                            | [] => Forall_nil P
                            | x :: l'' => Forall_cons x (IH x) (all l'')
                            end) (block_schema b))
                        (allBlocks l')
                  end) (blocks f))).
Qed.

Lemma revalidates_metadata : revalidates metadataSchema.
Proof.
  apply revalidates_optional, revalidates_object.
  - repeat constructor; simpl; tauto.
  - repeat constructor; simpl. apply revalidates_optional, revalidates_string.
Qed.

Lemma revalidates_loose (shape : list (string * zod)) :
  NoDup (map fst shape) ->
  Forall (fun kz => revalidates (snd kz)) shape ->
  revalidates (createLooseObject shape).
Proof. apply revalidates_object. Qed.

Lemma revalidates_reference : revalidates ReferenceSchema.
Proof.
  apply revalidates_loose.
  - repeat constructor; simpl; intuition discriminate.
  - repeat constructor; simpl;
      [apply revalidates_string|apply revalidates_optional, revalidates_string].
Qed.

Lemma revalidates_asset : revalidates AssetSchema.
Proof.
  apply revalidates_loose.
  - repeat constructor; simpl; intuition discriminate.
  - repeat constructor; simpl;
      [apply revalidates_string|apply revalidates_optional, revalidates_string].
Qed.

Lemma revalidates_link : revalidates LinkSchema.
Proof.
  apply revalidates_object.
  - repeat constructor; simpl; intuition discriminate.
  - repeat constructor; simpl; apply revalidates_optional, revalidates_string.
Qed.

Lemma revalidates_taxonomy : revalidates TaxonomySchema.
Proof.
  apply revalidates_array, revalidates_object.
  - repeat constructor; simpl; intuition discriminate.
  - repeat constructor; simpl; apply revalidates_string.
Qed.

Lemma revalidates_json_rte : revalidates JsonRteSchema.
Proof.
  unfold JsonRteSchema, describe. apply revalidates_object.
  - repeat constructor; simpl; intuition discriminate.
  - repeat constructor; simpl.
    + apply revalidates_literal.
    + apply revalidates_optional, revalidates_string.
    + apply revalidates_optional, revalidates_record.
    + apply revalidates_array, revalidates_lazy_node.
Qed.

#[local] Hint Resolve revalidates_metadata revalidates_reference revalidates_asset
  revalidates_link revalidates_taxonomy revalidates_json_rte : revalidate.

Lemma revalidates_field_shape (h : Host) (options : option SchemaOptions)
  (fields : list ContentstackField) :
  Forall (fun f => revalidates (fieldToZod h options f)) fields ->
  NoDup (map fst (fold_left (fun shape f =>
                                setKey (uid f) (fieldToZod h options f) shape)
                    fields []))
  /\ Forall (fun kz => revalidates (snd kz))
       (fold_left (fun shape f => setKey (uid f) (fieldToZod h options f) shape)
          fields []).
Proof.
  intros Hall. split.
  - apply fold_setKey_NoDup. constructor.
  - apply fold_setKey_Forall; [assumption|constructor].
Qed.

Lemma revalidates_block (h : Host) (options : option SchemaOptions)
  (block : ContentstackBlock) :
  Forall (fun f => revalidates (fieldToZod h options f)) (block_schema block) ->
  revalidates (blockSchemaOf h options block).
Proof.
  intros Hall. unfold blockSchemaOf.
  destruct (present (block_reference_to block)); apply revalidates_object;
    try (repeat constructor; simpl; tauto).
  - repeat constructor. simpl. apply revalidates_reference.
  - repeat constructor. simpl.
    destruct (revalidates_field_shape h options _ Hall) as [Hnd Hshape].
    apply revalidates_object.
    + now apply setKey_NoDup.
    + apply setKey_Forall; [apply revalidates_metadata|assumption].
Qed.

Lemma revalidates_base (h : Host) (options : option SchemaOptions)
  (field : ContentstackField) :
  Forall (fun f => revalidates (fieldToZod h options f)) (schema field) ->
  Forall (fun b => Forall (fun f => revalidates (fieldToZod h options f))
                     (block_schema b)) (blocks field) ->
  revalidates (baseSchema h options field).
Proof.
  intros Hschema Hblocks. unfold baseSchema.
  generalize (data_type field) as type. intros type.
  case_types type; auto with revalidate.
  - destruct (metaFlag allow_rich_text field); [auto with revalidate|].
    destruct (enumValues field); [|auto with revalidate].
    destruct (present (format field)); [|auto with revalidate].
    destruct (RegExp h _); auto with revalidate.
  - destruct (present (startDate field) || present (endDate field));
      unfold IsoDateSchema, createDatetimeSchema; auto with revalidate.
  - destruct (metaFlag allow_json_rte field); auto with revalidate.
  - destruct (isUpsertMode options); auto with revalidate.
  - destruct (revalidates_field_shape h options _ Hschema) as [Hnd Hshape].
    cbn zeta. destruct (multiple field).
    + apply revalidates_array, revalidates_object.
      * now apply setKey_NoDup.
      * apply setKey_Forall; [apply revalidates_metadata|assumption].
    + now apply revalidates_object.
  - cbn zeta.
    assert (Hall : Forall revalidates (map (blockSchemaOf h options) (blocks field))).
    { apply Forall_map. eapply Forall_impl; [|exact Hblocks].
      intros b. apply revalidates_block. }
    destruct (map (blockSchemaOf h options) (blocks field)) as [|z1 [|z2 zs]] eqn:Hm.
    + auto with revalidate.
    + apply revalidates_array. now inversion Hall.
    + now apply revalidates_array, revalidates_union.
Qed.

Lemma revalidates_wrapField (field : ContentstackField) (schema : zod) :
  revalidates schema -> revalidates (wrapField field schema).
Proof.
  intros Hs. unfold wrapField, describe.
  destruct (multiple field && _ && _), (negb (mandatory field));
    auto using revalidates_optional, revalidates_nullable, revalidates_array.
Qed.

(** Whatever the validator of a field returns, it accepts. *)
Lemma revalidates_field (h : Host) (options : option SchemaOptions)
  (field : ContentstackField) :
  revalidates (fieldToZod h options field).
Proof.
  induction field as [field IHs IHb] using field_ind_nested.
  rewrite fieldToZod_unfold. now apply revalidates_wrapField, revalidates_base.
Qed.

Lemma revalidates_content_type (h : Host) (options : option SchemaOptions)
  (fields : list ContentstackField) :
  revalidates (ZObject (shapeOf h options fields) Strip).
Proof.
  destruct (revalidates_field_shape h options fields) as [Hnd Hshape].
  - apply Forall_forall. intros f _. apply revalidates_field.
  - now apply revalidates_object.
Qed.

Lemma fold_setKey_keys {A : Type} (g : ContentstackField -> A)
  (fields : list ContentstackField) (acc : list (string * A)) (k : string) :
  In k (map fst (fold_left (fun shape f => setKey (uid f) (g f) shape) fields acc)) ->
  In k (map fst acc) \/ In k (map uid fields).
Proof.
  revert acc. induction fields as [|f fields IH]; simpl; intros acc Hin; [now left|].
  destruct (IH _ Hin) as [Hacc|Hf]; [|now right; right].
  rewrite setKey_keys in Hacc.
  destruct (existsb (String.eqb (uid f)) (map fst acc)); [now left|].
  apply in_app_or in Hacc as [Hacc|[<-|[]]]; [now left|now right; left].
Qed.

(** What a non-repeatable group field validates an object with, whatever
    [mandatory]. *)
Lemma parse_group_field (h : Host) (options : option SchemaOptions)
  (field : ContentstackField) (g : object) :
  data_type field = "group" -> multiple field = false ->
  parse (fieldToZod h options field) (VObj g)
  = parse (ZObject
             (fold_left (fun shape subField =>
                           setKey (uid subField) (fieldToZod h options subField) shape)
                (schema field) [])
             Passthrough) (VObj g).
Proof.
  intros Htype Hmult. rewrite fieldToZod_unfold.
  unfold wrapField, baseSchema, describe. rewrite Htype, Hmult.
  cbn [String.eqb Ascii.eqb Bool.eqb andb orb negb].
  destruct (negb (mandatory field)); reflexivity.
Qed.


(** An object validator returns the parsed declared properties and treats
    the others by its mode. *)
Lemma validatedObject_intro (shape : list (string * zod)) (unknownKeys : UnknownKeys)
  (v r : value) :
  NoDup (map fst shape) ->
  parse (ZObject shape unknownKeys) v = Some r ->
  validatedObject shape unknownKeys v r.
Proof.
  intros Hnd Hr.
  destruct (parse_object_inv _ _ _ _ Hr) as (g & parsed & -> & Hp & ->).
  pose proof (parseShape_keys _ _ _ Hp) as Hkeys.
  assert (Hndp : NoDup (map fst parsed)) by now rewrite Hkeys.
  exists g. eexists. split; [reflexivity|]. split; [unfold objectResult; reflexivity|].
  split.
  - intros k z Hin.
    destruct (parseShape_In _ _ _ k z Hp Hin) as (data & Hd & Hpd).
    destruct (objectResult_declared (map fst shape) unknownKeys g parsed k data
                Hndp Hkeys Hd) as (out & Hout & Hl).
    unfold objectResult in Hout. injection Hout as <-. now rewrite Hl.
  - destruct unknownKeys.
    + intros k Hk.
      destruct (objectResult_strip (map fst shape) g parsed k Hkeys) as (out & Hout & Hin).
      unfold objectResult in Hout. injection Hout as <-. auto.
    + intros k _ Hnotin Hdef.
      destruct (objectResult_passthrough (map fst shape) g parsed k Hkeys Hnotin Hdef)
        as (out & Hout & Hl).
      unfold objectResult in Hout. injection Hout as <-. exact Hl.
Qed.

Lemma eachItem_impl (m : bool) (P Q : value -> value -> Prop) (v r : value) :
  (forall x y, P x y -> Q x y) -> eachItem m P v r -> eachItem m Q v r.
Proof.
  intros HPQ. destruct m; simpl; [|auto].
  intros (items & items' & -> & -> & H). exists items, items'.
  split; [reflexivity|]. split; [reflexivity|].
  induction H; constructor; auto.
Qed.

Lemma eachItem_parse (m : bool) (schema : zod) (max : option Z) (v r : value) :
  parse (if m then ZArray schema max else schema) v = Some r ->
  eachItem m (fun x y => parse schema x = Some y) v r.
Proof.
  destruct m; [|auto]. intros H.
  apply parse_array_inv in H as (items & parsed & -> & Hm & -> & _).
  exists items, parsed. split; [reflexivity|]. split; [reflexivity|].
  now apply mapM_Forall2.
Qed.

(** On a value that is neither undefined nor [null] the wrapping for
    [mandatory] changes nothing. *)
Lemma parse_wrapField (field : ContentstackField) (schema : zod) (v : value) :
  v <> VUndefined -> v <> VNull ->
  parse (wrapField field schema) v
  = parse (if multiple field && negb (data_type field === "group")
              && negb (data_type field === "blocks")
           then ZArray schema None else schema) v.
Proof.
  intros Hu Hn. unfold wrapField, describe. cbv zeta.
  destruct (negb (mandatory field)); [|reflexivity].
  destruct v; try reflexivity; congruence.
Qed.

(** A field that is neither a group nor a blocks field validates its
    value, or each item of it when it is [multiple], with its base
    validator. *)
Lemma simple_field_items (h : Host) (options : option SchemaOptions)
  (f : ContentstackField) (v r : value) :
  v <> VUndefined -> v <> VNull ->
  (data_type f === "group") = false -> (data_type f === "blocks") = false ->
  parse (fieldToZod h options f) v = Some r ->
  eachItem (multiple f) (fun x y => parse (baseSchema h options f) x = Some y) v r.
Proof.
  intros Hu Hn Hg Hb H.
  rewrite fieldToZod_unfold, (parse_wrapField _ _ _ Hu Hn), Hg, Hb in H.
  cbn [negb] in H. rewrite !andb_true_r in H. now apply eachItem_parse in H.
Qed.

Lemma group_field_items (h : Host) (options : option SchemaOptions)
  (f : ContentstackField) (v r : value) :
  v <> VUndefined -> v <> VNull ->
  data_type f = "group" ->
  parse (fieldToZod h options f) v = Some r ->
  eachItem (multiple f)
    (validatedObject
       (if multiple f
        then setKey "_metadata" metadataSchema (shapeOf h options (schema f))
        else shapeOf h options (schema f)) Passthrough) v r.
Proof.
  intros Hu Hn Htype H.
  rewrite fieldToZod_unfold, (parse_wrapField _ _ _ Hu Hn), Htype in H.
  cbn [String.eqb Ascii.eqb Bool.eqb negb andb] in H. rewrite andb_false_r in H.
  unfold baseSchema in H. rewrite Htype in H.
  cbn [String.eqb Ascii.eqb Bool.eqb orb] in H. cbv zeta in H.
  fold (shapeOf h options (schema f)) in H.
  destruct (multiple f).
  - apply (eachItem_parse true) in H.
    eapply eachItem_impl; [|exact H].
    intros x y. apply validatedObject_intro, setKey_NoDup, shapeOf_NoDup.
  - apply validatedObject_intro; [apply shapeOf_NoDup|exact H].
Qed.

Lemma blocks_field_items (h : Host) (options : option SchemaOptions)
  (f : ContentstackField) (v r : value) :
  v <> VUndefined -> v <> VNull ->
  data_type f = "blocks" -> blocks f <> [] ->
  parse (fieldToZod h options f) v = Some r ->
  eachItem true
    (fun item item' =>
       exists block,
         In block (blocks f)
         /\ validatedObject
              [ (block_uid block,
                 if present (block_reference_to block)
                 then ZObject ReferenceShape Passthrough
                 else ZObject (setKey "_metadata" metadataSchema
                                 (shapeOf h options (block_schema block)))
                        Passthrough) ]
              Passthrough item item') v r.
Proof.
  intros Hu Hn Htype Hne H.
  rewrite fieldToZod_unfold, (parse_wrapField _ _ _ Hu Hn), Htype in H.
  cbn [String.eqb Ascii.eqb Bool.eqb negb andb] in H. rewrite andb_false_r in H.
  unfold baseSchema in H. rewrite Htype in H.
  cbn [String.eqb Ascii.eqb Bool.eqb orb] in H. cbv zeta in H.
  assert (Hblock : forall block x y,
            parse (blockSchemaOf h options block) x = Some y ->
            validatedObject
              [ (block_uid block,
                 if present (block_reference_to block)
                 then ZObject ReferenceShape Passthrough
                 else ZObject (setKey "_metadata" metadataSchema
                                 (shapeOf h options (block_schema block)))
                        Passthrough) ]
              Passthrough x y).
  { intros block x y Hxy. unfold blockSchemaOf in Hxy.
    apply validatedObject_intro; [repeat constructor; simpl; tauto|].
    destruct (present (block_reference_to block)); exact Hxy. }
  destruct (blocks f) as [|b1 [|b2 bs]] eqn:Hb; [congruence| |].
  - cbn [map] in H. apply (eachItem_parse true) in H.
    eapply eachItem_impl; [|exact H].
    intros x y Hxy. exists b1. split; [now left|]. now apply Hblock.
  - cbn [map] in H. apply (eachItem_parse true) in H.
    eapply eachItem_impl; [|exact H].
    intros x y Hxy. cbn [parse] in Hxy.
    apply firstSome_found in Hxy as (z & Hin & Hz).
    change (In z (map (blockSchemaOf h options) (b1 :: b2 :: bs))) in Hin.
    apply in_map_iff in Hin as (block & <- & Hin).
    exists block. split; [exact Hin|]. now apply Hblock.
Qed.

(** The rich-text node validator is the object validator of its shape. *)
Lemma parseRteNode_shape (v : value) :
  parseRteNode v = parse JsonRteNodeObject v.
Proof.
  destruct v as [| | | | | |o]; try reflexivity.
  rewrite parseRteNode_object. unfold JsonRteNodeObject, optionalString.
  cbn [parse mapM fst snd map].
  assert (Hchildren :
            (if hasKey "children" o then
               match lookup "children" o with
               | VUndefined => Some VUndefined
               | VArr l => let* l' := mapM parseRteNode l in Some (VArr l')
               | _ => None
               end
             else Some VUndefined)
            = parseOptional
                (fun v => match v with
                          | VArr l =>
                              let* l' := mapM (fun x => parseRteNode x) l in
                              Some (VArr l')
                          | _ => None
                          end) (lookup "children" o)).
  { destruct (hasKey "children" o) eqn:Hk.
    - destruct (lookup "children" o); reflexivity.
    - now rewrite (lookup_absent _ _ Hk). }
  rewrite Hchildren.
  repeat match goal with
    | |- context [parseOptional ?p ?x] => destruct (parseOptional p x); cbn [bind]
    end; reflexivity.
Qed.



(** Below the top level: the validated [author] group keeps its undeclared
    [nickname], and a validated asset keeps its undeclared [filename]. *)
Example nested_objects_keep_unknown_keys :
  parse (fieldToZod Samples.host None
           (Samples.group "author" "Author" false false
              [ Samples.named "name" "text" "Name" true ]))
    (VObj [ ("name", VStr "Ada"); ("nickname", VStr "ada") ])
  = Some (VObj [ ("name", VStr "Ada"); ("nickname", VStr "ada") ])
  /\ parse (fieldToZod Samples.host None Samples.manualField)
       (VObj [ ("uid", VStr "blt1"); ("filename", VStr "guide.pdf") ])
     = Some (VObj [ ("uid", VStr "blt1"); ("filename", VStr "guide.pdf") ]).
Proof. vm_compute. split; reflexivity. Qed.

(** A taxonomy term is validated by a plain object schema, which drops
    whatever else the term carries. *)
Example taxonomy_terms_are_stripped :
  parse TaxonomySchema
    (VArr [ VObj [ ("taxonomy_uid", VStr "topics"); ("term_uid", VStr "rocq");
                   ("order", VNum 3) ] ])
  = Some (VArr [ VObj [ ("taxonomy_uid", VStr "topics"); ("term_uid", VStr "rocq") ] ]).
Proof. vm_compute. reflexivity. Qed.

End SchemaFacts.

(** * Further properties of the renderer *)

Module MarkdownMore.

Import Markdown MarkdownFacts ZodFacts.

(** ** Table cells *)

Lemma hasChar_append (c : ascii) (a b : string) :
  hasChar c (a ++ b) = hasChar c a || hasChar c b.
Proof.
  induction a as [|d a IH]; simpl; [reflexivity|]. now rewrite IH, orb_assoc.
Qed.

Lemma replaceChar_removes (c : ascii) (r s : string) :
  hasChar c r = false -> hasChar c (replaceChar c r s) = false.
Proof.
  intros Hr. induction s as [|d s IH]; simpl; [reflexivity|].
  destruct (Ascii.eqb d c) eqn:Hd.
  - now rewrite hasChar_append, Hr, IH.
  - simpl. now rewrite Hd, IH.
Qed.

Lemma pipesEscaped_escape (escaped : bool) (s : string) :
  pipesEscaped escaped (replaceChar "|" "\|" s) = true.
Proof.
  revert escaped. induction s as [|d s IH]; intros escaped; simpl; [reflexivity|].
  destruct (Ascii.eqb d "|") eqn:Hd.
  - simpl. apply IH.
  - simpl. rewrite Hd. apply IH.
Qed.

Lemma pipesEscaped_newlines (escaped : bool) (s : string) :
  pipesEscaped escaped (replaceChar (ascii_of_nat 10) " " s) = pipesEscaped escaped s.
Proof.
  revert escaped. induction s as [|d s IH]; intros escaped; simpl; [reflexivity|].
  destruct (Ascii.eqb d (ascii_of_nat 10)) eqn:Hd.
  - apply Ascii.eqb_eq in Hd. subst d. simpl. apply IH.
  - simpl. destruct (Ascii.eqb d "|"); now rewrite IH.
Qed.

Lemma cell_safe (text : string) :
  hasChar (ascii_of_nat 10) (escapeTableCell text) = false
  /\ pipesEscaped false (escapeTableCell text) = true.
Proof.
  unfold escapeTableCell. split.
  - now apply replaceChar_removes.
  - rewrite pipesEscaped_newlines. apply pipesEscaped_escape.
Qed.

(** X1: an escaped table cell has no line break, and each of its pipes
    comes right after a backslash. *)
Theorem escapeTableCell_safe (text : string) :
  hasChar (ascii_of_nat 10) (escapeTableCell text) = false
  /\ pipesEscaped false (escapeTableCell text) = true.
Proof.
  unfold escapeTableCell. split.
  - apply replaceChar_removes. reflexivity.
  - rewrite pipesEscaped_newlines. apply pipesEscaped_escape.
Qed.

(** ** Number formatting *)

Lemma removeCommas_list (s : string) :
  removeCommas s
  = string_of_list_ascii
      (filter (fun d => negb (Ascii.eqb d ",")) (list_ascii_of_string s)).
Proof.
  induction s as [|d s IH]; simpl; [reflexivity|].
  destruct (Ascii.eqb d ","); simpl; now rewrite IH.
Qed.

Lemma filter_rev {A : Type} (p : A -> bool) (l : list A) :
  filter p (rev l) = rev (filter p l).
Proof.
  induction l as [|x l IH]; simpl; [reflexivity|].
  rewrite filter_app, IH. simpl. destruct (p x); simpl; [reflexivity|].
  now rewrite app_nil_r.
Qed.

Lemma groupRev_commas (digits : list ascii) (k : nat) :
  Forall (fun d => Ascii.eqb d "," = false) digits ->
  filter (fun d => negb (Ascii.eqb d ",")) (groupRev digits k) = digits.
Proof.
  intros Hd. revert k. induction Hd as [|d digits Hd _ IH]; intros k; simpl;
    [reflexivity|].
  destruct k; simpl; rewrite Hd; simpl; now rewrite IH.
Qed.

Lemma groupThousands_commas (digits : string) :
  hasChar "," digits = false -> removeCommas (groupThousands digits) = digits.
Proof.
  intros Hd. unfold groupThousands.
  rewrite removeCommas_list, list_ascii_of_string_of_list_ascii, filter_rev.
  rewrite groupRev_commas.
  - now rewrite rev_involutive, string_of_list_ascii_of_string.
  - apply Forall_rev. clear -Hd.
    induction digits as [|d digits IH]; simpl in *; constructor;
      apply orb_false_iff in Hd; tauto.
Qed.

Lemma uint_digits (d : Decimal.uint) :
  hasChar "," (NilEmpty.string_of_uint d) = false.
Proof. induction d; simpl; auto. Qed.

Lemma decimal_digits (n : Z) : 0 <= n -> hasChar "," (decimal n) = false.
Proof.
  intros Hn. unfold decimal. destruct n as [|p|p]; [reflexivity| |lia].
  simpl. destruct (Pos.to_uint p) eqn:Hp; try apply uint_digits. reflexivity.
Qed.

(** X2: below a million [formatNumberWithCommas] only groups the digits:
    taking the commas out of what it prints gives back the decimal digits
    of the number, sign included. *)
Theorem formatNumberWithCommas_keeps_digits (num : Z) :
  num < 1000000 ->
  exists s, formatNumberWithCommas num = Some s /\ removeCommas s = decimal num.
Proof.
  intros Hnum. unfold formatNumberWithCommas.
  destruct (1000000000 <=? num) eqn:Hb; [apply Z.leb_le in Hb; lia|].
  destruct (1000000 <=? num) eqn:Hm; [apply Z.leb_le in Hm; lia|].
  exists (toLocaleString num). split; [reflexivity|].
  unfold toLocaleString. destruct (num <? 0) eqn:Hneg.
  - apply Z.ltb_lt in Hneg. destruct num as [|p|p]; try lia.
    cbn [append removeCommas Ascii.eqb Bool.eqb].
    rewrite groupThousands_commas by (apply decimal_digits; lia).
    unfold decimal. simpl. destruct (Pos.to_uint p); reflexivity.
  - apply Z.ltb_ge in Hneg. cbn [append].
    rewrite Z.abs_eq by assumption.
    now apply groupThousands_commas, decimal_digits.
Qed.

Lemma formatNumberWithCommas_keeps_digits_witness :
  exists s, formatNumberWithCommas (-1234567) = Some s
            /\ removeCommas s = decimal (-1234567).
Proof. apply (formatNumberWithCommas_keeps_digits (-1234567)). lia. Defined.

(** X3: a number that rounds up to a thousand millions is printed as
    1000M, not as 1B: the unit is chosen before the rounding. *)
Theorem formatNumberWithCommas_rounds_past_unit (num : Z) :
  999950000 < num < 1000000000 -> formatNumberWithCommas num = Some "1000M".
Proof.
  intros [Hlo Hhi]. unfold formatNumberWithCommas.
  destruct (1000000000 <=? num) eqn:Hb; [apply Z.leb_le in Hb; lia|].
  destruct (1000000 <=? num) eqn:Hm; [|apply Z.leb_gt in Hm; lia].
  unfold toFixed1.
  destruct (num <? 0) eqn:H0; [apply Z.ltb_lt in H0; lia|].
  destruct (2 ^ 53 <=? num) eqn:H53;
    [apply Z.leb_le in H53; change (2 ^ 53) with 9007199254740992 in H53; lia|].
  cbn [orb].
  assert (Htie : Z.eqb ((20 * num) mod (2 * 1000000)) 1000000 = false).
  { apply Z.eqb_neq. Z.div_mod_to_equations. lia. }
  rewrite Htie. cbn [andb].
  assert (Hn : (20 * num + 1000000) / (2 * 1000000) = 10000).
  { Z.div_mod_to_equations. lia. }
  rewrite Hn. reflexivity.
Qed.

Lemma formatNumberWithCommas_rounds_past_unit_witness :
  999950000 < 999999999 < 1000000000
  /\ formatNumberWithCommas 999999999 = Some "1000M".
Proof.
  split; [lia|].
  apply (formatNumberWithCommas_rounds_past_unit 999999999). lia.
Defined.

(** ** Trimmed output *)

Lemma trimEnd_idempotent (s : string) : trimEnd (trimEnd s) = trimEnd s.
Proof.
  induction s as [|c s IH]; simpl; [reflexivity|].
  destruct (trimEnd s) as [|c' t] eqn:Ht.
  - destruct (isSpace c) eqn:Hc; simpl; [reflexivity|]. now rewrite Hc.
  - cbn [trimEnd] in *. fold trimEnd in *. rewrite IH. reflexivity.
Qed.

Lemma trimStart_head (s : string) :
  trimStart s = "" \/ exists c s', trimStart s = String c s' /\ isSpace c = false.
Proof.
  induction s as [|c s IH]; simpl; [now left|].
  destruct (isSpace c) eqn:Hc; [exact IH|]. right. now exists c, s.
Qed.

Lemma trimEnd_head (c : ascii) (s : string) :
  isSpace c = false -> exists t, trimEnd (String c s) = String c t.
Proof.
  intros Hc. simpl. destruct (trimEnd s); [rewrite Hc|]; eauto.
Qed.

Lemma trim_idempotent (s : string) : trim (trim s) = trim s.
Proof.
  unfold trim. destruct (trimStart_head s) as [->|(c & s' & -> & Hc)];
    [reflexivity|].
  destruct (trimEnd_head c s' Hc) as [t Ht].
  rewrite Ht. cbn [trimStart]. rewrite Hc, <- Ht. apply trimEnd_idempotent.
Qed.

(** X6: what [entryToMarkdown], [groupToHeadings] and [blocksToMarkdown]
    return is trimmed: it neither starts nor ends with white space, so
    trimming it again changes nothing. *)
Theorem rendered_output_is_trimmed :
  (forall h entry contentType options s,
     entryToMarkdown h entry contentType options = Some s -> trim s = s)
  /\ (forall h value schema level options s,
        groupToHeadings h value schema level options = Some s -> trim s = s)
  /\ (forall h blocks blockDefs level options s,
        blocksToMarkdown h blocks blockDefs level options = Some s -> trim s = s).
Proof.
  split; [|split].
  - intros h entry contentType options s. unfold entryToMarkdown.
    destruct (ct_schema contentType); [|discriminate]. cbn [bind].
    destruct (mapM _ _); [|discriminate]. cbn [bind].
    intros [= <-]. apply trim_idempotent.
  - intros h value schema level options s. unfold groupToHeadings.
    destruct (mapM _ _); [|discriminate]. cbn [bind].
    intros [= <-]. apply trim_idempotent.
  - intros h blocks blockDefs level options s. unfold blocksToMarkdown.
    destruct (noItems blocks); [intros [= <-]; reflexivity|].
    destruct blocks; try discriminate.
    destruct (mapM _ _); [|discriminate]. cbn [bind].
    intros [= <-]. apply trim_idempotent.
Qed.

Lemma rendered_output_is_trimmed_witness :
  entryToMarkdown Samples.host [ ("title", VStr "  Hello  ") ]
    (Samples.contentType []) None = Some "#   Hello"
  /\ trim "#   Hello" = "#   Hello".
Proof.
  split; [reflexivity|].
  apply (proj1 rendered_output_is_trimmed Samples.host [ ("title", VStr "  Hello  ") ]
           (Samples.contentType []) None).
  reflexivity.
Defined.

(** ** What the walk over an entry depends on *)

Lemma mapM_ext {A B : Type} (f g : A -> option B) (l : list A) :
  (forall x, In x l -> f x = g x) -> mapM f l = mapM g l.
Proof.
  induction l as [|x l IH]; simpl; intros H; [reflexivity|].
  rewrite (H x (or_introl eq_refl)), IH; auto.
Qed.

Lemma mapM_const {A B : Type} (f : A -> option B) (c : B) (l : list A) :
  (forall x, In x l -> f x = Some c) -> mapM f l = Some (map (fun _ => c) l).
Proof.
  induction l as [|x l IH]; simpl; intros H; [reflexivity|].
  rewrite (H x (or_introl eq_refl)), IH; auto.
Qed.

Lemma concat_nils {A : Type} (l : list (list A)) :
  Forall (fun x => x = []) l -> concat l = [].
Proof. induction 1 as [|x l -> _ IH]; simpl; auto. Qed.

Lemma entryFieldLines_lookup (h : Host) (opts : RequiredOptions)
  (e1 e2 : object) (field : ContentstackField) :
  lookup (uid field) e1 = lookup (uid field) e2 ->
  entryFieldLines h opts e1 field = entryFieldLines h opts e2 field.
Proof. intros H. unfold entryFieldLines. now rewrite H. Qed.

(** X5: the rendering of an entry reads the entry only under the title
    key, the description key and the uids of the schema: two entries that
    agree there render alike, whatever else they hold. *)
Theorem entryToMarkdown_reads_declared_keys (h : Host) (e1 e2 : object)
  (contentType : ContentstackContentType) (options : option MarkdownOptions)
  (schema : list ContentstackField) :
  ct_schema contentType = Some schema ->
  (forall k,
     k = titleField (mergeOptions (DEFAULT_OPTIONS h) options)
     \/ k = descriptionField (mergeOptions (DEFAULT_OPTIONS h) options)
     \/ In k (map uid schema) ->
     lookup k e1 = lookup k e2) ->
  entryToMarkdown h e1 contentType options = entryToMarkdown h e2 contentType options.
Proof.
  intros Hs Hagree. unfold entryToMarkdown. cbv zeta. rewrite Hs. cbn [bind].
  set (opts := mergeOptions (DEFAULT_OPTIONS h) options) in *.
  rewrite (Hagree _ (or_introl eq_refl)).
  rewrite (Hagree _ (or_intror (or_introl eq_refl))).
  rewrite (mapM_ext (entryFieldLines h opts e1) (entryFieldLines h opts e2));
    [reflexivity|].
  intros f Hin. apply entryFieldLines_lookup, Hagree.
  right; right. now apply in_map.
Qed.

Lemma entryToMarkdown_reads_declared_keys_witness :
  ct_schema (Samples.contentType [ Samples.named "body" "text" "Body" true ])
  = Some [ Samples.named "body" "text" "Body" true ]
  /\ entryToMarkdown Samples.host
       [ ("title", VStr "Post"); ("body", VStr "Text"); ("secret", VStr "x") ]
       (Samples.contentType [ Samples.named "body" "text" "Body" true ]) None
     = entryToMarkdown Samples.host
         [ ("body", VStr "Text"); ("title", VStr "Post") ]
         (Samples.contentType [ Samples.named "body" "text" "Body" true ]) None.
Proof.
  split; [reflexivity|].
  apply (entryToMarkdown_reads_declared_keys Samples.host _ _
           (Samples.contentType [ Samples.named "body" "text" "Body" true ]) None
           [ Samples.named "body" "text" "Body" true ] eq_refl).
  intros k [->|[->|[<-|[]]]]; reflexivity.
Defined.

(** ** Empty values *)

Lemma primitiveToMarkdown_empty (h : Host) (v : value) (field : ContentstackField)
  (options : RequiredOptions) :
  isEmpty v = true -> primitiveToMarkdown h v field options = Some "".
Proof. intros He. unfold primitiveToMarkdown. now rewrite He. Qed.

Lemma primitiveToMarkdown_skipEmpty (h : Host) (b : bool) (v : value)
  (field : ContentstackField) (options : RequiredOptions) :
  primitiveToMarkdown h v field (withSkipEmpty b options)
  = primitiveToMarkdown h v field options.
Proof. reflexivity. Qed.

(** X7: for a primitive field (neither group nor blocks) the [skipEmpty]
    option changes nothing, in the walk of [entryToMarkdown] and in the
    walk of [groupToHeadings]: an empty value renders as the empty string,
    which is never emitted. *)
Theorem skipEmpty_is_moot_for_primitives (h : Host) (options : RequiredOptions)
  (field : ContentstackField) :
  (data_type field === "group") = false ->
  (data_type field === "blocks") = false ->
  (forall entry,
     entryFieldLines h (withSkipEmpty false options) entry field
     = entryFieldLines h (withSkipEmpty true options) entry field)
  /\ (forall value level,
        groupToHeadingsField h (withSkipEmpty false options) value level field
        = groupToHeadingsField h (withSkipEmpty true options) value level field).
Proof.
  intros Hg Hb. split.
  - intros entry. unfold entryFieldLines.
    rewrite !primitiveToMarkdown_skipEmpty, Hg, Hb.
    cbn [withSkipEmpty skipEmpty titleField descriptionField headingLevel andb].
    destruct (_ || _); [reflexivity|].
    change (skipsSystemField (withSkipEmpty false options) field)
      with (skipsSystemField options field).
    change (skipsSystemField (withSkipEmpty true options) field)
      with (skipsSystemField options field).
    destruct (skipsSystemField options field); [reflexivity|].
    destruct (isEmpty (lookup (uid field) entry)) eqn:He; [|reflexivity].
    now rewrite (primitiveToMarkdown_empty h _ field options He).
  - intros value level. rewrite !groupToHeadingsField_unfold.
    change (skipsSystemField (withSkipEmpty false options) field)
      with (skipsSystemField options field).
    change (skipsSystemField (withSkipEmpty true options) field)
      with (skipsSystemField options field).
    destruct (skipsSystemField options field); [reflexivity|].
    destruct (getProp value (uid field)) as [fieldValue|]; [|reflexivity].
    cbn [bind]. cbv zeta. rewrite !primitiveToMarkdown_skipEmpty, Hg, Hb.
    cbn [withSkipEmpty skipEmpty andb].
    destruct (isEmpty fieldValue) eqn:He; [|reflexivity].
    now rewrite (primitiveToMarkdown_empty h _ field options He).
Qed.

Lemma skipEmpty_is_moot_for_primitives_witness :
  entryFieldLines Samples.host (withSkipEmpty false (Samples.options false))
    [ ("body", VNull) ] (Samples.named "body" "text" "Body" true)
  = entryFieldLines Samples.host (withSkipEmpty true (Samples.options false))
      [ ("body", VNull) ] (Samples.named "body" "text" "Body" true).
Proof.
  apply (proj1 (skipEmpty_is_moot_for_primitives Samples.host (Samples.options false)
                  (Samples.named "body" "text" "Body" true) eq_refl eq_refl)).
Defined.

(** X8: a group none of whose fields has a value renders, as a table, as
    the empty string: no table of the header alone is produced. *)
Theorem groupToTable_without_values (h : Host) (o : object)
  (schema : list ContentstackField) (options : RequiredOptions) :
  skipEmpty options = true ->
  (forall f, In f schema -> isEmpty (lookup (uid f) o) = true) ->
  groupToTable h (VObj o) schema options = Some "".
Proof.
  intros Hskip Hempty. unfold groupToTable.
  rewrite (mapM_const _ ([], [])).
  - cbn [bind]. rewrite !concat_nils; [reflexivity| |];
      apply Forall_forall; intros x Hin;
      apply in_map_iff in Hin as (y & <- & Hin);
      apply in_map_iff in Hin as (f & <- & _); reflexivity.
  - intros f Hin. unfold groupToTableField.
    destruct (skipsSystemField options f); [reflexivity|].
    cbn [getProp bind]. now rewrite Hskip, (Hempty f Hin).
Qed.

Lemma groupToTable_without_values_witness :
  skipEmpty (Samples.options false) = true
  /\ groupToTable Samples.host (VObj [ ("name", VStr "  ") ])
       [ Samples.named "name" "text" "Name" true;
         Samples.named "age" "number" "Age" false ]
       (Samples.options false) = Some "".
Proof.
  split; [reflexivity|].
  apply (groupToTable_without_values Samples.host [ ("name", VStr "  ") ] _
           (Samples.options false) eq_refl).
  intros f [<-|[<-|[]]]; reflexivity.
Defined.

End MarkdownMore.

(** * Rich text: what the validator admits, the renderer renders *)

Module RichTextFacts.

Import Markdown Schema MarkdownFacts ZodFacts SchemaFacts MarkdownMore.

(** ** Coercion to a string *)

Lemma coercible_toString (v : value) :
  coercible v = true -> exists s, toString v = Some s.
Proof.
  induction v as [| |b|n|s|items IH|props IH] using value_ind_nested;
    cbn [toString coercible]; eauto.
  - destruct b; eauto.
  - intros Hall.
    destruct (mapM_total
                (fun x => match x with
                          | VUndefined | VNull => Some ""
                          | _ => toString x
                          end) items) as [parts ->]; [|cbn [bind]; eauto].
    rewrite forallb_forall in Hall. rewrite Forall_forall in IH |- *.
    intros x Hin. specialize (IH x Hin (Hall x Hin)).
    destruct x; eauto.
  - intros H. apply andb_true_iff in H as [Hkey _].
    apply negb_true_iff in Hkey. rewrite Hkey. eauto.
Qed.

Lemma coercible_lookup (k : string) (o : object) :
  coercible (VObj o) = true -> coercible (lookup k o) = true.
Proof.
  cbn [coercible]. intros H. apply andb_true_iff in H as [_ Hall].
  induction o as [|[k' v] o IH]; [reflexivity|].
  cbn [forallb snd] in Hall. apply andb_true_iff in Hall as [Hv Ho].
  cbn [lookup]. destruct (String.eqb k' k); auto.
Qed.

Lemma coercible_getOpt (v : value) (k : string) :
  coercible v = true -> coercible (getOpt v k) = true.
Proof.
  destruct v; try reflexivity. intros H. now apply coercible_lookup.
Qed.

Lemma coercible_orElse (a b : value) :
  coercible a = true -> coercible b = true -> coercible (orElse a b) = true.
Proof. intros Ha Hb. unfold orElse. now destruct (truthy a). Qed.

Lemma coercible_item (items : list value) (x : value) :
  coercible (VArr items) = true -> In x items -> coercible x = true.
Proof.
  cbn [coercible]. intros Hall Hin. rewrite forallb_forall in Hall. auto.
Qed.

(** ** The renderer on a node *)

Lemma jsonRteToMarkdown_object (o : object) :
  jsonRteToMarkdown (VObj o)
  = match lookup "text" o with
    | VStr text => Some (applyMarks o text)
    | _ =>
        match lookup "children" o with
        | VArr l => renderChildren o l
        | c => if truthy c then None else renderChildren o []
        end
    end.
Proof.
  cbn [jsonRteToMarkdown]. rewrite lookupWith_lookup.
  destruct (hasKey "children" o) eqn:Hk.
  - destruct (lookup "text" o); try reflexivity;
      destruct (lookup "children" o); try reflexivity;
      cbn [truthy]; match goal with |- context [if ?c then _ else _] => destruct c end;
      reflexivity.
  - rewrite (lookup_absent _ _ Hk). destruct (lookup "text" o); reflexivity.
Qed.

Lemma containerToMarkdown_total (node : object) (rendered : list string)
  (rows : list (list string)) :
  coercible (VObj node) = true ->
  exists s, containerToMarkdown node rendered (Some rows) = Some s.
Proof.
  intros Hnode.
  assert (Hattr : forall k d, coercible d = true ->
            exists s, toString (orElse (getOpt (lookup "attrs" node) k) d) = Some s).
  { intros k d Hd. apply coercible_toString, coercible_orElse; [|exact Hd].
    now apply coercible_getOpt, coercible_lookup. }
  assert (Hattr2 : forall k k' d, coercible d = true ->
            exists s, toString (orElse (orElse (getOpt (lookup "attrs" node) k)
                                          (getOpt (lookup "attrs" node) k')) d)
                      = Some s).
  { intros k k' d Hd. apply coercible_toString, coercible_orElse; [|exact Hd].
    apply coercible_orElse; now apply coercible_getOpt, coercible_lookup. }
  unfold containerToMarkdown. cbv zeta. cbn [bind].
  destruct (lookup "type" node) as [| | | |type| |]; eauto.
  repeat match goal with
    | |- context [if ?c then _ else _] =>
        match type of c with bool => destruct c; eauto end
    end.
  - destruct (Hattr "language" (VStr "") eq_refl) as [lang ->]. cbn [bind]. eauto.
  - destruct (Hattr2 "url" "href" (VStr "") eq_refl) as [href ->]. cbn [bind]. eauto.
  - destruct (Hattr "alt" (VStr "Image") eq_refl) as [alt ->].
    destruct (Hattr2 "src" "url" (VStr "") eq_refl) as [src ->]. cbn [bind]. eauto.
  - destruct rows; eauto.
Qed.

Lemma renderChildren_total (node : object) (children : list value) :
  coercible (VObj node) = true ->
  Forall (fun c => (exists s, jsonRteToMarkdown c = Some s)
                   /\ (exists r, rowCells c = Some r)) children ->
  exists s, renderChildren node children = Some s.
Proof.
  intros Hnode H. unfold renderChildren.
  destruct (mapM_total jsonRteToMarkdown children) as [rendered ->];
    [eapply Forall_impl; [|exact H]; now intros c [Hc _]|].
  destruct (mapM_total rowCells children) as [rs ->];
    [eapply Forall_impl; [|exact H]; now intros c [_ Hc]|].
  cbn [bind]. now apply containerToMarkdown_total.
Qed.

Lemma node_children (o : object) (data : value) :
  parseRteNode (VObj o) = Some data ->
  lookup "children" o = VUndefined
  \/ exists l, In ("children", VArr l) o
               /\ lookup "children" o = VArr l
               /\ Forall (fun c => exists d, parseRteNode c = Some d) l.
Proof.
  rewrite parseRteNode_object. intros Hd.
  destruct (hasKey "children" o) eqn:Hk; [|left; now apply lookup_absent].
  destruct (parseOptional _ (lookup "type" o)); [|discriminate].
  destruct (parseOptional _ (lookup "text" o)); [|discriminate].
  cbn [bind] in Hd. apply lookup_present in Hk.
  destruct (lookup "children" o) as [| |b|n|s|l|p]; try discriminate; [now left|].
  right. exists l. split; [exact Hk|]. split; [reflexivity|].
  destruct (mapM parseRteNode l) eqn:Hm; [|discriminate].
  exact (mapM_inv _ _ _ Hm).
Qed.

Lemma node_renders (v : value) :
  (forall data, coercible v = true -> parseRteNode v = Some data ->
     (exists s, jsonRteToMarkdown v = Some s) /\ (exists r, rowCells v = Some r))
  /\ (forall l, v = VArr l ->
        Forall (fun c => forall data, coercible c = true ->
                  parseRteNode c = Some data ->
                  (exists s, jsonRteToMarkdown c = Some s)
                  /\ (exists r, rowCells c = Some r)) l).
Proof.
  induction v as [| |b|n|s|items IH|props IH] using value_ind_nested;
    try solve [split; [cbn; discriminate|intros l [=]]].
  - split; [cbn; discriminate|]. intros l [= <-].
    eapply Forall_impl; [|exact IH]. now intros c [Hc _].
  - split; [|discriminate]. intros data Hco Hd.
    assert (Hch : lookup "children" props = VUndefined
                  \/ exists l, lookup "children" props = VArr l
                       /\ Forall (fun c => (exists s, jsonRteToMarkdown c = Some s)
                                           /\ (exists r, rowCells c = Some r)) l).
    { destruct (node_children _ _ Hd) as [Hu|(l & Hin & Hl & Hvalid)]; [now left|].
      right. exists l. split; [exact Hl|].
      rewrite Forall_forall in IH. pose proof (proj2 (IH _ Hin) l eq_refl) as Hall.
      assert (Hcl : coercible (VArr l) = true).
      { rewrite <- Hl. now apply coercible_lookup. }
      rewrite Forall_forall in *. intros c Hc.
      destruct (Hvalid c Hc) as [d Hcd].
      exact (Hall c Hc d (coercible_item l c Hcl Hc) Hcd). }
    split.
    + rewrite jsonRteToMarkdown_object.
      destruct (lookup "text" props); eauto;
        destruct Hch as [->|(l & -> & Hl)]; cbn [truthy];
        apply renderChildren_total; auto.
    + unfold rowCells. destruct (isRowType _); [|eauto].
      rewrite lookupWith_lookup. destruct (hasKey "children" props); [|cbn; eauto].
      destruct Hch as [->|(l & -> & Hl)]; cbn [truthy]; [cbn; eauto|].
      destruct (mapM_total
                  (fun cell => let* s := jsonRteToMarkdown cell in
                               Some (escapeTableCell (trim s))) l) as [cells ->];
        [|cbn; eauto].
      eapply Forall_impl; [|exact Hl]. intros c [[s ->] _]. cbn. eauto.
Qed.

Lemma document_renders (v data : value) :
  coercible v = true ->
  parse JsonRteSchema v = Some data -> exists s, jsonRteToMarkdown v = Some s.
Proof.
  unfold JsonRteSchema, describe. intros Hco H.
  apply parse_object_inv in H as (o & parsed & -> & Hp & _).
  unfold parseShape in Hp. cbn [mapM fst snd] in Hp.
  destruct (parse (ZLiteral "doc") _); [|discriminate].
  destruct (parse optionalString _); [|discriminate].
  destruct (parse (ZOptional ZRecordAny) _); [|discriminate].
  cbn [bind] in Hp.
  destruct (parse (ZArray JsonRteNodeSchema None) (lookup "children" o))
    as [children|] eqn:Hc; [|discriminate].
  apply parse_array_inv in Hc as (items & nodes & Hitems & Hnodes & _ & _).
  assert (Hall : Forall (fun c => (exists s, jsonRteToMarkdown c = Some s)
                                  /\ (exists r, rowCells c = Some r)) items).
  { assert (Hci : coercible (VArr items) = true).
    { rewrite <- Hitems. now apply coercible_lookup. }
    apply mapM_inv in Hnodes. rewrite Forall_forall in *. intros c Hin.
    destruct (Hnodes c Hin) as [d Hd].
    exact (proj1 (node_renders c) d (coercible_item items c Hci Hin) Hd). }
  rewrite jsonRteToMarkdown_object, Hitems.
  destruct (lookup "text" o); eauto; now apply renderChildren_total.
Qed.

(** X4: what the rich-text validators accept, the renderer renders, unless
    a coercion to a string throws: for a value that [JsonRteNodeSchema] or
    [JsonRteSchema] accepts and in which no object has an own property
    named [toString], [jsonRteToMarkdown] returns a string; the same holds
    of the data the validator returns.  (The validators let any value
    through under [attrs], and the renderer coerces some of them.) *)
Theorem validated_rich_text_renders (v data : value) :
  parse JsonRteNodeSchema v = Some data \/ parse JsonRteSchema v = Some data ->
  (coercible v = true -> exists s, jsonRteToMarkdown v = Some s)
  /\ (coercible data = true -> exists s, jsonRteToMarkdown data = Some s).
Proof.
  intros [H|H].
  - split; intros Hco.
    + exact (proj1 (proj1 (node_renders v) data Hco H)).
    + destruct (node_revalidates v data H) as [data' H'].
      exact (proj1 (proj1 (node_renders data) data' Hco H')).
  - split; intros Hco.
    + exact (document_renders v data Hco H).
    + destruct (revalidates_json_rte v data H) as [data' H'].
      exact (document_renders data data' Hco H').
Qed.

Lemma validated_rich_text_renders_witness :
  exists s,
    jsonRteToMarkdown
      (VObj [ ("type", VStr "doc");
              ("children",
               VArr [ VObj [ ("type", VStr "a");
                             ("attrs", VObj [ ("url", VObj [ ("path", VStr "/x") ]) ]);
                             ("children", VArr [ VObj [ ("text", VStr "Hi") ] ]) ] ]) ])
    = Some s.
Proof.
  refine (proj1 (validated_rich_text_renders
                   (VObj [ ("type", VStr "doc");
                           ("children",
                            VArr [ VObj [ ("type", VStr "a");
                                          ("attrs",
                                           VObj [ ("url", VObj [ ("path", VStr "/x") ]) ]);
                                          ("children",
                                           VArr [ VObj [ ("text", VStr "Hi") ] ]) ] ]) ])
                   (VObj [ ("type", VStr "doc");
                           ("children",
                            VArr [ VObj [ ("type", VStr "a");
                                          ("children",
                                           VArr [ VObj [ ("text", VStr "Hi") ] ]);
                                          ("attrs",
                                           VObj [ ("url", VObj [ ("path", VStr "/x") ]) ])
                                        ] ]) ])
                   (or_intror _)) _).
  - vm_compute. reflexivity.
  - reflexivity.
Defined.

(** The coercion that throws: a link whose [url] is an object with an own
    [toString] passes the validator and makes the renderer throw. *)
Example uncoercible_attribute :
  accepts JsonRteSchema
    (VObj [ ("type", VStr "doc");
            ("children",
             VArr [ VObj [ ("type", VStr "a");
                           ("attrs", VObj [ ("url", VObj [ ("toString", VNum 1) ]) ]) ] ]) ])
  = true
  /\ jsonRteToMarkdown
       (VObj [ ("type", VStr "doc");
               ("children",
                VArr [ VObj [ ("type", VStr "a");
                              ("attrs",
                               VObj [ ("url", VObj [ ("toString", VNum 1) ]) ]) ] ]) ])
     = None.
Proof. vm_compute. split; reflexivity. Qed.

End RichTextFacts.

(** * Tables of repeatable groups and lists of blocks *)

Module LayoutFacts.

Import Markdown MarkdownFacts ZodFacts MarkdownMore.

Lemma mapM_length {A B : Type} (f : A -> option B) (l : list A) (l' : list B) :
  mapM f l = Some l' -> List.length l' = List.length l.
Proof.
  intros H. apply mapM_Forall2 in H. induction H; simpl; auto.
Qed.

Lemma mapM_Forall {A B : Type} (Q : B -> Prop) (f : A -> option B)
  (l : list A) (l' : list B) :
  (forall x y, f x = Some y -> Q y) -> mapM f l = Some l' -> Forall Q l'.
Proof.
  intros Hf H. apply mapM_Forall2 in H. induction H; constructor; eauto.
Qed.

Lemma mapM_factor {A B C : Type} (f : A -> option B) (g : B -> C)
  (l : list A) (l' : list C) :
  mapM (fun x => let* y := f x in Some (g y)) l = Some l' ->
  exists m, mapM f l = Some m /\ l' = map g m.
Proof.
  revert l'. induction l as [|x l IH]; simpl; intros l' H.
  - injection H as <-. now exists [].
  - destruct (f x) as [y|]; [|discriminate]. cbn [bind] in *.
    destruct (mapM _ l) as [ys|] eqn:Hys; [|discriminate]. cbn [bind] in H.
    injection H as <-. destruct (IH ys eq_refl) as (m & -> & ->).
    now exists (y :: m).
Qed.



(** X10: a list of blocks none of which is declared renders as the empty
    string: an item none of whose keys without a leading underscore names a
    block definition contributes nothing, not even a heading. *)
Theorem blocksToMarkdown_undeclared_blocks (h : Host) (items : list value)
  (blockDefs : list ContentstackBlock) (level : Z) (options : RequiredOptions) :
  Forall (fun item =>
            exists o, item = VObj o
              /\ forall k b,
                   In k (map fst o) -> startsWith "_" k = false ->
                   In b blockDefs -> block_uid b <> k) items ->
  blocksToMarkdown h (VArr items) blockDefs level options = Some "".
Proof.
  intros Hitems. unfold blocksToMarkdown.
  destruct (noItems (VArr items)); [reflexivity|].
  rewrite (mapM_const _ []).
  - cbn [bind]. rewrite concat_nils; [reflexivity|].
    apply Forall_forall. intros x Hin. now apply in_map_iff in Hin as (y & <- & _).
  - intros item Hin. rewrite Forall_forall in Hitems.
    destruct (Hitems item Hin) as (o & -> & Hkey). unfold blockItemLines.
    destruct (find _ (map fst o)) as [blockKey|] eqn:Hk; [|reflexivity].
    destruct (blockKey === ""); [reflexivity|].
    destruct (find _ blockDefs) as [blockDef|] eqn:Hfind; [|reflexivity].
    apply find_some in Hk as [Hk Hprefix]. apply negb_true_iff in Hprefix.
    apply find_some in Hfind as [Hin' Heq]. apply String.eqb_eq in Heq.
    now destruct (Hkey blockKey blockDef Hk Hprefix Hin').
Qed.

Lemma blocksToMarkdown_undeclared_blocks_witness :
  blocksToMarkdown Samples.host
    (VArr [ VObj [ ("_metadata", VObj []); ("banner", VObj [ ("title", VStr "Hi") ]) ] ])
    [ Samples.heroBlock ] 2 (Samples.options false) = Some "".
Proof.
  apply blocksToMarkdown_undeclared_blocks.
  repeat constructor. eexists. split; [reflexivity|].
  intros k b [<-|[<-|[]]] Hk [<-|[]]; discriminate.
Defined.

End LayoutFacts.

(** * Further properties of the validators *)

Module SchemaMore.

Import Schema ZodFacts SchemaFacts MarkdownMore LayoutFacts.

(** ** Drafts *)

Lemma parseShape_partial_empty (shape : list (string * zod)) :
  parseShape (map (fun kz => (fst kz, ZOptional (snd kz))) shape) []
  = Some (map (fun kz => (fst kz, VUndefined)) shape).
Proof.
  unfold parseShape. induction shape as [|[k z] shape IH]; [reflexivity|].
  cbn [map mapM fst snd lookup parse parseOptional bind] in *. now rewrite IH.
Qed.

Lemma filter_none {A : Type} (p : A -> bool) (l : list A) :
  (forall x, In x l -> p x = false) -> filter p l = [].
Proof.
  induction l as [|x l IH]; simpl; intros H; [reflexivity|].
  rewrite (H x (or_introl eq_refl)). auto.
Qed.

(** X12: the draft validator of every content type whose top-level uids
    are plain names (none names a member of [Object.prototype], which the
    empty object has too) accepts the empty entry, and returns it as it
    is. *)
Theorem draft_accepts_empty_entry (h : Host) (ct : ContentstackContentType)
  (fields : list ContentstackField) :
  ct_schema ct = Some fields ->
  Forall (fun f => plainName (uid f) = true) fields ->
  validateDraft h ct (VObj []) = Some (success (VObj [])).
Proof.
  intros Hf _.
  unfold validateDraft. rewrite (contentTypeToDraftZod_eq h ct None fields Hf).
  cbn [bind]. unfold safeParse, partial. rewrite parse_object, parseShape_partial_empty.
  cbn [bind]. unfold objectResult. rewrite filter_none; [reflexivity|].
  intros [k v] Hin. apply in_map_iff in Hin as (kz & [= _ <-] & _). reflexivity.
Qed.

Lemma draft_accepts_empty_entry_witness :
  validateDraft Samples.host Samples.profileType (VObj []) = Some (success (VObj [])).
Proof.
  apply (draft_accepts_empty_entry Samples.host Samples.profileType
           [ Samples.named "title" "text" "Title" true;
             Samples.group "author" "Author" false false
               [ Samples.named "name" "text" "Name" true ] ] eq_refl).
  repeat constructor.
Defined.

Lemma parse_undefined :
  forall (z : zod) (data : value), parse z VUndefined = Some data -> data = VUndefined.
Proof.
  fix IH 1. intros z data. destruct z; cbn; try discriminate;
    try (intros [= <-]; reflexivity).
  - destruct (parse z VUndefined) as [d|] eqn:Hp; cbn; [|discriminate].
    destruct (check d); [|discriminate]. intros [= <-]. exact (IH z _ Hp).
  - revert data.
    refine ((fix all (l : list zod) : forall data,
               firstSome (fun option => parse option VUndefined) l = Some data ->
               data = VUndefined :=
               match l with
               | [] => fun data H => _
               | o :: l' => fun data H => _
               end) options).
    + discriminate.
    + cbn in H. destruct (parse o VUndefined) as [d|] eqn:Hp.
      * injection H as <-. exact (IH o _ Hp).
      * exact (all l' data H).
  - exact (IH z data).
Qed.

Lemma parseShape_partial (shape : list (string * zod)) (o : object)
  (parsed : list (string * value)) :
  parseShape shape o = Some parsed ->
  parseShape (map (fun kz => (fst kz, ZOptional (snd kz))) shape) o = Some parsed.
Proof.
  unfold parseShape. revert parsed.
  induction shape as [|[k z] shape IH]; intros parsed; [trivial|].
  cbn [map mapM fst snd parse].
  destruct (parse z (lookup k o)) as [d|] eqn:Hd; [|discriminate].
  cbn [bind]. destruct (mapM _ shape) as [ds|] eqn:Hds; [|discriminate].
  cbn [bind]. intros [= <-]. rewrite (IH ds eq_refl). cbn [bind].
  destruct (lookup k o) eqn:Hl; cbn [parseOptional]; rewrite ?Hd; try reflexivity.
  now rewrite (parse_undefined z d Hd).
Qed.

(** X13: on an entry the full validator accepts, the draft validator
    returns the very same data. *)
Theorem draft_agrees_with_full (h : Host) (ct : ContentstackContentType)
  (entry data : value) :
  validateEntry h ct entry = Some (success data) ->
  validateDraft h ct entry = Some (success data).
Proof.
  unfold validateEntry, validateDraft, contentTypeToDraftZod.
  destruct (contentTypeToZod h ct None) as [full|] eqn:Hfull; [|discriminate].
  apply contentTypeToZod_inv in Hfull as (fields & _ & ->).
  cbn [bind]. unfold safeParse.
  destruct (parse (ZObject _ Strip) entry) as [d|] eqn:Hp; [|discriminate].
  intros [= <-].
  apply parse_object_inv in Hp as (o & parsed & -> & Hparsed & ->).
  unfold partial. rewrite parse_object, (parseShape_partial _ _ _ Hparsed).
  cbn [bind]. rewrite map_map. reflexivity.
Qed.

Lemma draft_agrees_with_full_witness :
  validateDraft Samples.host Samples.profileType
    (VObj [ ("title", VStr "Ann"); ("author", VObj [ ("name", VStr "Bo") ]) ])
  = validateEntry Samples.host Samples.profileType
      (VObj [ ("title", VStr "Ann"); ("author", VObj [ ("name", VStr "Bo") ]) ]).
Proof.
  apply (draft_agrees_with_full Samples.host Samples.profileType). reflexivity.
Defined.

(** ** Arrays *)

Lemma array_accepts (element : zod) (max : option Z) (items : list value) :
  accepts (ZArray element max) (VArr items) = true
  <-> Forall (fun item => accepts element item = true) items
      /\ match max with
         | Some m => Z.of_nat (List.length items) <= m
         | None => True
         end.
Proof.
  rewrite accepts_true. split.
  - intros [data H].
    apply parse_array_inv in H as (l & parsed & [= <-] & Hm & _ & Hmax). split.
    + apply mapM_inv in Hm. eapply Forall_impl; [|exact Hm].
      intros x Hx. now apply accepts_true.
    + destruct max; [now apply Z.leb_le|exact I].
  - intros [Hall Hmax]. cbn [parse].
    destruct (mapM_total (parse element) items) as [parsed ->].
    { eapply Forall_impl; [|exact Hall]. intros x Hx. now apply accepts_true. }
    cbn [bind]. destruct max as [m|]; [|eauto].
    apply Z.leb_le in Hmax. rewrite Hmax. eauto.
Qed.

Lemma wrapped_accepts (field : ContentstackField) (schema : zod) (v : value) :
  v <> VNull -> v <> VUndefined ->
  accepts (if negb (mandatory field) then ZOptional (ZNullable schema) else schema) v
  = accepts schema v.
Proof.
  intros Hn Hu. destruct (mandatory field); [reflexivity|].
  unfold accepts. cbn [negb parse]. destruct v; try reflexivity; congruence.
Qed.

(** X14: a field that takes a list (a [multiple] field or a blocks field)
    accepts the empty list and returns it, also when it is mandatory. *)
Theorem empty_list_passes (h : Host) (options : option SchemaOptions)
  (field : ContentstackField) :
  multiple field = true \/ data_type field = "blocks" ->
  parse (fieldToZod h options field) (VArr []) = Some (VArr []).
Proof.
  intros Hlist. rewrite fieldToZod_unfold. unfold wrapField, describe.
  assert (Harr : parse (if multiple field && negb (data_type field === "group")
                           && negb (data_type field === "blocks")
                        then ZArray (baseSchema h options field) None
                        else baseSchema h options field) (VArr [])
                 = Some (VArr [])).
  { destruct (data_type field === "blocks") eqn:Hb.
    - apply String.eqb_eq in Hb. rewrite andb_false_r.
      unfold baseSchema. rewrite Hb.
      cbn [String.eqb Ascii.eqb Bool.eqb andb orb negb].
      destruct (map _ (blocks field)) as [|? [|? ?]]; reflexivity.
    - destruct Hlist as [Hm|Ht]; [|rewrite Ht in Hb; discriminate]. rewrite Hm.
      destruct (data_type field === "group") eqn:Hg; [|reflexivity].
      apply String.eqb_eq in Hg. unfold baseSchema. rewrite Hg, Hm.
      cbn [String.eqb Ascii.eqb Bool.eqb andb orb negb parse mapM bind List.length].
      destruct (max_instance field) as [m|]; [|reflexivity].
      destruct (0 <? m) eqn:Hpos; [|reflexivity].
      apply Z.ltb_lt in Hpos. cbn [Z.of_nat].
      destruct (0 <=? m) eqn:Hle; [reflexivity|]. apply Z.leb_gt in Hle. lia. }
  destruct (negb (mandatory field)); [cbn [parse parseOptional parseNullable]|];
    exact Harr.
Qed.

Lemma empty_list_passes_witness :
  parse (fieldToZod Samples.host None Samples.sectionsField) (VArr [])
  = Some (VArr []).
Proof.
  apply (empty_list_passes Samples.host None Samples.sectionsField). now right.
Defined.

Lemma group_list_items (h : Host) (options : option SchemaOptions)
  (field : ContentstackField) (items : list value) :
  data_type field = "group" -> multiple field = true ->
  accepts (fieldToZod h options field) (VArr items) = true ->
  Forall (fun item =>
            accepts (ZObject (setKey "_metadata" metadataSchema
                                (shapeOf h options (schema field)))
                       Passthrough) item = true) items.
Proof.
  intros Htype Hmult. rewrite fieldToZod_unfold. unfold wrapField, describe.
  rewrite wrapped_accepts by discriminate.
  unfold baseSchema. rewrite Htype, Hmult.
  cbn [String.eqb Ascii.eqb Bool.eqb andb orb negb].
  rewrite array_accepts. now intros [Hall _].
Qed.

(** X15: a repeatable group accepts a list exactly when each item passes
    the validator of the group's object, which declares the subfields and
    [_metadata], and the list is no longer than a positive [max_instance];
    a cap that is absent, zero or negative limits nothing. *)
Theorem repeatable_group_items_and_cap (h : Host) (options : option SchemaOptions)
  (field : ContentstackField) (items : list value) :
  data_type field = "group" -> multiple field = true ->
  (accepts (fieldToZod h options field) (VArr items) = true
   <-> Forall (fun item =>
                 accepts (ZObject (setKey "_metadata" metadataSchema
                                     (shapeOf h options (schema field)))
                            Passthrough) item = true) items
       /\ withinCap field (List.length items)).
Proof.
  intros Htype Hmult. rewrite fieldToZod_unfold. unfold wrapField, describe.
  rewrite wrapped_accepts by discriminate.
  unfold baseSchema. rewrite Htype, Hmult.
  cbn [String.eqb Ascii.eqb Bool.eqb andb orb negb].
  rewrite array_accepts. unfold withinCap, shapeOf.
  destruct (max_instance field) as [m|]; [|tauto].
  destruct (0 <? m) eqn:Hpos.
  - apply Z.ltb_lt in Hpos. tauto.
  - apply Z.ltb_ge in Hpos. split; intros [Hall _]; (split; [exact Hall|]);
      [intros; lia|exact I].
Qed.

Lemma repeatable_group_items_and_cap_witness :
  accepts (fieldToZod Samples.host None
             (Samples.group "links" "Links" true true
                [ Samples.named "label" "text" "Label" true ]))
    (VArr [ VObj [ ("label", VStr "Home") ] ]) = true.
Proof.
  apply (proj2 (repeatable_group_items_and_cap Samples.host None
                  (Samples.group "links" "Links" true true
                     [ Samples.named "label" "text" "Label" true ])
                  [ VObj [ ("label", VStr "Home") ] ] eq_refl eq_refl)).
  split; [repeat constructor|exact I].
Defined.

(** ** The mode *)

Lemma fold_setKey_ext {A : Type} (g1 g2 : ContentstackField -> A)
  (fields : list ContentstackField) (acc : list (string * A)) :
  Forall (fun f => g1 f = g2 f) fields ->
  fold_left (fun shape f => setKey (uid f) (g1 f) shape) fields acc
  = fold_left (fun shape f => setKey (uid f) (g2 f) shape) fields acc.
Proof.
  intros H. revert acc. induction H as [|f fields Hf _ IH]; intros acc; simpl;
    [reflexivity|]. now rewrite Hf, IH.
Qed.

Lemma map_ext_Forall {A B : Type} (g1 g2 : A -> B) (l : list A) :
  Forall (fun x => g1 x = g2 x) l -> map g1 l = map g2 l.
Proof. induction 1 as [|x l Hx _ IH]; simpl; [reflexivity|]. now rewrite Hx, IH. Qed.

Lemma existsb_false_Forall {A : Type} (p : A -> bool) (l : list A) :
  existsb p l = false -> Forall (fun x => p x = false) l.
Proof.
  induction l as [|x l IH]; simpl; intros H; constructor;
    apply orb_false_iff in H; tauto.
Qed.

Lemma readsMode_unfold (f : ContentstackField) :
  readsMode f
  = (data_type f === "file")
    || ((data_type f === "group") && existsb readsMode (schema f))
    || ((data_type f === "blocks")
        && existsb (fun b => negb (present (block_reference_to b))
                             && existsb readsMode (block_schema b)) (blocks f)).
Proof. destruct f. reflexivity. Qed.

Lemma mode_matters_for_files (h : Host) (o1 o2 : option SchemaOptions)
  (f : ContentstackField) :
  isUpsertMode o1 = isUpsertMode o2 \/ readsMode f = false ->
  fieldToZod h o1 f = fieldToZod h o2 f.
Proof.
  induction f as [f IHs IHb] using field_ind_nested. intros Hmode.
  rewrite !fieldToZod_unfold. f_equal. unfold baseSchema.
  assert (Hfile : (data_type f === "file") = true ->
                  isUpsertMode o1 = isUpsertMode o2).
  { intros Hf. destruct Hmode as [H|H]; [exact H|].
    rewrite readsMode_unfold, Hf in H. discriminate. }
  assert (Hgroup : (data_type f === "group") = true ->
                   Forall (fun g => fieldToZod h o1 g = fieldToZod h o2 g) (schema f)).
  { intros Hg. destruct Hmode as [H|H].
    - eapply Forall_impl; [|exact IHs]. intros g Hg'. apply Hg'. now left.
    - rewrite readsMode_unfold, Hg in H.
      apply orb_false_iff in H as [H _]. apply orb_false_iff in H as [_ H].
      cbn [andb] in H. apply existsb_false_Forall in H.
      rewrite Forall_forall in *. intros g Hin. apply (IHs g Hin). right. auto. }
  assert (Hblocks : (data_type f === "blocks") = true ->
                    Forall (fun b => blockSchemaOf h o1 b = blockSchemaOf h o2 b)
                      (blocks f)).
  { intros Hb. rewrite Forall_forall in *. intros b Hin.
    unfold blockSchemaOf. destruct (present (block_reference_to b)) eqn:Href;
      [reflexivity|].
    rewrite (fold_setKey_ext (fieldToZod h o1) (fieldToZod h o2)); [reflexivity|].
    rewrite Forall_forall. intros g Hg.
    pose proof (IHb b Hin) as Hall. rewrite Forall_forall in Hall.
    apply (Hall g Hg). destruct Hmode as [H|H]; [now left|right].
    rewrite readsMode_unfold, Hb in H. apply orb_false_iff in H as [_ H].
    cbn [andb] in H. apply existsb_false_Forall in H. rewrite Forall_forall in H.
    specialize (H b Hin). cbv beta in H. rewrite Href in H. cbn [negb andb] in H.
    apply existsb_false_Forall in H. rewrite Forall_forall in H. auto. }
  destruct (data_type f === "text"); [reflexivity|].
  destruct (data_type f === "number"); [reflexivity|].
  destruct (data_type f === "boolean"); [reflexivity|].
  destruct (data_type f === "isodate"); [reflexivity|].
  destruct (data_type f === "json"); [reflexivity|].
  destruct (data_type f === "file"); [now rewrite Hfile|].
  destruct (data_type f === "link"); [reflexivity|].
  destruct (_ || _); [reflexivity|].
  destruct (data_type f === "taxonomy"); [reflexivity|].
  destruct (data_type f === "group").
  { now rewrite (fold_setKey_ext (fieldToZod h o1) (fieldToZod h o2)) by auto. }
  destruct (data_type f === "blocks"); [|reflexivity].
  now rewrite (map_ext_Forall (blockSchemaOf h o1) (blockSchemaOf h o2)) by auto.
Qed.

(** X16: the mode reaches the validator through [file] fields only: the
    validators built for two option values are the same when both or
    neither ask for upsert (so read is the default), and also when no
    field of the content type is a [file] field or holds one in a group or
    a block. *)
Theorem mode_only_changes_file_fields (h : Host) (ct : ContentstackContentType)
  (o1 o2 : option SchemaOptions) (fields : list ContentstackField) :
  ct_schema ct = Some fields ->
  isUpsertMode o1 = isUpsertMode o2 \/ existsb readsMode fields = false ->
  contentTypeToZod h ct o1 = contentTypeToZod h ct o2
  /\ contentTypeToDraftZod h ct o1 = contentTypeToDraftZod h ct o2.
Proof.
  intros Hs Hmode.
  enough (H : contentTypeToZod h ct o1 = contentTypeToZod h ct o2).
  { split; [exact H|]. unfold contentTypeToDraftZod. now rewrite H. }
  unfold contentTypeToZod, shapeOf. rewrite Hs. do 2 f_equal.
  apply fold_setKey_ext. rewrite Forall_forall. intros f Hin.
  apply mode_matters_for_files. destruct Hmode as [H|H]; [now left|right].
  apply existsb_false_Forall in H. rewrite Forall_forall in H. auto.
Qed.

Lemma mode_only_changes_file_fields_witness :
  contentTypeToZod Samples.host Samples.profileType
    (Some {| mode := Some Upsert |})
  = contentTypeToZod Samples.host Samples.profileType None.
Proof.
  apply (mode_only_changes_file_fields Samples.host Samples.profileType
           (Some {| mode := Some Upsert |}) None _ eq_refl).
  right. reflexivity.
Defined.

(** ** Single fields *)

(** X17: a [file] field that is not [multiple] takes a string in upsert
    mode, any string, and never a string in read mode: no value other
    than [null] or absence (for a field that is not mandatory) passes in
    both modes. *)
Theorem file_modes_are_disjoint (h : Host) (upsert read : option SchemaOptions)
  (field : ContentstackField) :
  data_type field = "file" -> multiple field = false ->
  isUpsertMode upsert = true -> isUpsertMode read = false ->
  (forall s, accepts (fieldToZod h upsert field) (VStr s) = true)
  /\ (forall v,
        accepts (fieldToZod h upsert field) v = true ->
        accepts (fieldToZod h read field) v = true ->
        mandatory field = false /\ (v = VNull \/ v = VUndefined)).
Proof.
  intros Htype Hmult Hup Hread. rewrite !fieldToZod_unfold.
  unfold wrapField, baseSchema, describe, accepts.
  rewrite Htype, Hmult, Hup, Hread.
  cbn [String.eqb Ascii.eqb Bool.eqb andb orb negb].
  split.
  - intros s. destruct (mandatory field); reflexivity.
  - intros v. destruct (mandatory field); destruct v; cbn; try discriminate; auto.
Qed.

Lemma file_modes_are_disjoint_witness :
  accepts (fieldToZod Samples.host (Some {| mode := Some Upsert |}) Samples.manualField)
    (VStr "") = true.
Proof.
  apply (proj1 (file_modes_are_disjoint Samples.host (Some {| mode := Some Upsert |})
                  None Samples.manualField eq_refl eq_refl eq_refl eq_refl)).
Defined.

(** X18: the checks of a text field that is not [multiple], in their
    order of precedence: with [allow_rich_text] every string passes; else
    with enum choices exactly the choice values pass; else a [format] that
    is no regular expression rejects nothing.  In the first two cases the
    [format] is not looked at. *)
Theorem text_field_precedence (h : Host) (options : option SchemaOptions)
  (field : ContentstackField) (s : string) :
  data_type field = "text" -> multiple field = false ->
  (metaFlag allow_rich_text field = true ->
     accepts (fieldToZod h options field) (VStr s) = true)
  /\ (metaFlag allow_rich_text field = false -> enumValues field <> [] ->
        (accepts (fieldToZod h options field) (VStr s) = true
         <-> In s (enumValues field)))
  /\ (metaFlag allow_rich_text field = false -> enumValues field = [] ->
        (forall pattern, format field = Some pattern -> RegExp h pattern = None) ->
        accepts (fieldToZod h options field) (VStr s) = true).
Proof.
  intros Htype Hmult. rewrite fieldToZod_unfold. unfold wrapField, describe.
  rewrite wrapped_accepts by discriminate.
  unfold baseSchema. rewrite Htype, Hmult.
  cbn [String.eqb Ascii.eqb Bool.eqb andb orb negb].
  split; [|split].
  - now intros ->.
  - intros -> Henum. destruct (enumValues field) as [|v values] eqn:Hv; [congruence|].
    unfold accepts. cbn [parse]. rewrite <- existsb_eqb_In.
    destruct (existsb (String.eqb s) (v :: values)); split; congruence.
  - intros -> -> Hbad. destruct (format field) as [pattern|]; [|reflexivity].
    rewrite (Hbad pattern eq_refl). now destruct (present (Some pattern)).
Qed.

Lemma text_field_precedence_witness :
  accepts (fieldToZod Samples.host None Samples.bodyField) (VStr "anything") = true
  /\ (accepts (fieldToZod Samples.host None Samples.statusField) (VStr "live") = true
      <-> In "live" (enumValues Samples.statusField))
  /\ accepts (fieldToZod Samples.host None Samples.slugField) (VStr "anything") = true.
Proof.
  split; [|split].
  - exact (proj1 (text_field_precedence Samples.host None Samples.bodyField "anything"
                    eq_refl eq_refl) eq_refl).
  - apply (proj1 (proj2 (text_field_precedence Samples.host None Samples.statusField
                           "live" eq_refl eq_refl)) eq_refl).
    discriminate.
  - apply (proj2 (proj2 (text_field_precedence Samples.host None Samples.slugField
                           "anything" eq_refl eq_refl)) eq_refl eq_refl).
    intros pattern _. reflexivity.
Defined.

(** The three cases on sample fields that all carry a [format]: the choices
    of [status] reject another string, which the rich-text [body] and the
    [slug] with its malformed pattern accept. *)
Example text_field_precedence_samples :
  format Samples.bodyField = Some "("
  /\ format Samples.statusField = Some "("
  /\ format Samples.slugField = Some "("
  /\ accepts (fieldToZod Samples.host None Samples.statusField) (VStr "anything") = false
  /\ accepts (fieldToZod Samples.host None Samples.statusField) (VStr "draft") = true.
Proof. vm_compute. repeat split. Qed.

Lemma matchPrefix_length (pattern : list PatternItem) (s rest : string) :
  matchPrefix pattern s = Some rest ->
  String.length s = (List.length pattern + String.length rest)%nat.
Proof.
  revert s. induction pattern as [|item pattern IH]; intros s; simpl.
  - now intros [= ->].
  - destruct s as [|c s]; [discriminate|].
    destruct (match item with Digit => isDigit c | Lit d => Ascii.eqb c d end);
      [|discriminate].
    intros H. simpl. now rewrite (IH s H).
Qed.

Lemma eqb_length (a b : string) : (a =? b)%string = true -> String.length a = String.length b.
Proof. intros H. apply String.eqb_eq in H. now subst. Qed.

(** X19: the validator of dates without a range looks at the form of the
    value only: what it accepts is a string of 10 characters (a date), of
    19 or 20 (date and time, with or without the final Z) or of 23 or 24
    (the same with milliseconds). *)
Theorem isodate_lengths (v : value) :
  accepts IsoDateSchema v = true ->
  exists s, v = VStr s /\ In (String.length s) [10; 19; 20; 23; 24]%nat.
Proof.
  unfold IsoDateSchema, createDatetimeSchema, accepts. cbn [parse].
  destruct v as [| | | |s| |]; try discriminate. cbn [parseString forallb bind].
  intros H. exists s. split; [reflexivity|].
  destruct (isDateTime s) eqn:Hdt.
  - unfold isDateTime in Hdt.
    destruct (matchPrefix _ s) as [rest|] eqn:Hm; [|discriminate].
    apply matchPrefix_length in Hm. cbn [List.length List.app datePattern timePattern] in Hm.
    destruct (matchPrefix _ rest) as [r|] eqn:Hr.
    + apply matchPrefix_length in Hr. cbn [List.length] in Hr.
      apply orb_true_iff in Hdt as [Hd|Hd]; apply eqb_length in Hd; cbn in Hd;
        rewrite Hm, Hr, Hd; cbn; tauto.
    + apply orb_true_iff in Hdt as [Hd|Hd]; apply eqb_length in Hd; cbn in Hd;
        rewrite Hm, Hd; cbn; tauto.
  - destruct (isDateOnly s) eqn:Hdo; [|discriminate].
    unfold isDateOnly in Hdo.
    destruct (matchPrefix _ s) as [rest|] eqn:Hm; [|discriminate].
    apply matchPrefix_length in Hm. apply eqb_length in Hdo.
    rewrite Hm, Hdo. cbn. tauto.
Qed.

Lemma isodate_lengths_witness :
  exists s, VStr "2024-01-15T10:30:00.000Z" = VStr s
            /\ In (String.length s) [10; 19; 20; 23; 24]%nat.
Proof. apply (isodate_lengths (VStr "2024-01-15T10:30:00.000Z")). reflexivity. Defined.

(** ** Keys declared more than once *)

Lemma shapeOf_snoc (h : Host) (options : option SchemaOptions)
  (fields : list ContentstackField) (g : ContentstackField) :
  shapeOf h options (fields ++ [g])
  = setKey (uid g) (fieldToZod h options g) (shapeOf h options fields).
Proof. unfold shapeOf. now rewrite fold_left_app. Qed.

Lemma setKey_self {A : Type} (k : string) (v : A) (o : list (string * A)) :
  In (k, v) (setKey k v o).
Proof.
  induction o as [|[k' v'] o IH]; simpl; [now left|].
  destruct (String.eqb_spec k' k) as [->|Hk]; [now left|now right].
Qed.

Lemma setKey_other {A : Type} (k k' : string) (v z : A) (o : list (string * A)) :
  k <> k' -> (In (k, z) (setKey k' v o) <-> In (k, z) o).
Proof.
  intros Hk. induction o as [|[k0 v0] o IH]; simpl.
  - split; [intros [[= <- _]|[]]; congruence|contradiction].
  - destruct (String.eqb_spec k0 k') as [->|Hk0]; simpl.
    + split; (intros [[= <- _]|H]; [congruence|now right]).
    + rewrite IH. tauto.
Qed.

Lemma setKey_same {A : Type} (k : string) (v z : A) (o : list (string * A)) :
  NoDup (map fst o) -> In (k, z) (setKey k v o) -> z = v.
Proof.
  induction o as [|[k0 v0] o IH]; simpl; intros Hnd.
  - now intros [[= <-]|[]].
  - inversion Hnd as [|? ? Hnotin Hnd']; subst.
    destruct (String.eqb_spec k0 k) as [->|Hk0]; simpl.
    + intros [[= <-]|Hin]; [reflexivity|].
      exfalso. apply Hnotin. now apply (in_map fst) in Hin.
    + intros [[= -> _]|Hin]; [congruence|auto].
Qed.


Lemma metadata_accepts (v : value) :
  accepts metadataSchema v = true ->
  v = VUndefined
  \/ exists m, v = VObj m
       /\ (lookup "uid" m = VUndefined \/ exists s, lookup "uid" m = VStr s).
Proof.
  unfold metadataSchema. rewrite optional_accepts. intros [->|H]; [now left|].
  right. destruct v as [| | | | | |m]; try discriminate. exists m.
  split; [reflexivity|].
  apply object_accepts in H. inversion H as [|? ? Huid _]; subst.
  cbn [fst snd] in Huid. unfold optionalString in Huid.
  apply optional_accepts in Huid as [->|Hs]; [now left|]. right.
  destruct (lookup "uid" m); try discriminate. eauto.
Qed.

(** X21: in the items of a repeatable group the key [_metadata] is
    reserved: whatever the subfields declare, also one with the uid
    [_metadata], an accepted item is an object whose [_metadata] is absent
    or an object with an absent or string [uid]. *)
Theorem metadata_key_is_reserved (h : Host) (options : option SchemaOptions)
  (field : ContentstackField) (items : list value) :
  data_type field = "group" -> multiple field = true ->
  accepts (fieldToZod h options field) (VArr items) = true ->
  Forall (fun item =>
            exists o, item = VObj o
              /\ (lookup "_metadata" o = VUndefined
                  \/ exists m, lookup "_metadata" o = VObj m
                       /\ (lookup "uid" m = VUndefined
                           \/ exists s, lookup "uid" m = VStr s))) items.
Proof.
  intros Htype Hmult H.
  pose proof (group_list_items h options field items Htype Hmult H) as Hall.
  eapply Forall_impl; [|exact Hall]. intros item Hitem.
  destruct item as [| | | | | |o]; try discriminate. exists o.
  split; [reflexivity|]. apply metadata_accepts.
  apply object_accepts in Hitem. rewrite Forall_forall in Hitem.
  exact (Hitem _ (setKey_self "_metadata" metadataSchema _)).
Qed.

Lemma metadata_key_is_reserved_witness :
  Forall (fun item =>
            exists o, item = VObj o
              /\ (lookup "_metadata" o = VUndefined
                  \/ exists m, lookup "_metadata" o = VObj m
                       /\ (lookup "uid" m = VUndefined
                           \/ exists s, lookup "uid" m = VStr s)))
    [ VObj [ ("_metadata", VObj [ ("uid", VStr "m1") ]) ] ].
Proof.
  apply (metadata_key_is_reserved Samples.host None
           (Samples.group "links" "Links" true true
              [ Samples.named "_metadata" "number" "Meta" true ])
           [ VObj [ ("_metadata", VObj [ ("uid", VStr "m1") ]) ] ]
           eq_refl eq_refl).
  reflexivity.
Defined.

(** ** Mandatory fields *)

Lemma mandatory_field_undefined (h : Host) (options : option SchemaOptions)
  (field : ContentstackField) :
  mandatory field = true ->
  accepts (fieldToZod h options field) VUndefined = acceptsAnything field.
Proof.
  intros Hm. rewrite fieldToZod_unfold.
  unfold wrapField, baseSchema, acceptsAnything, describe, accepts.
  rewrite Hm. cbn [negb existsb].
  generalize (data_type field) as type. intros type.
  destruct (multiple field);
  case_types type;
    repeat match goal with
      | |- context [if ?c then _ else _] =>
          match type of c with bool => destruct c end
      | |- context [match enumValues ?f with _ => _ end] => destruct (enumValues f)
      | |- context [match RegExp ?a ?x with _ => _ end] => destruct (RegExp a x)
      | |- context [match max_instance ?f with _ => _ end] => destruct (max_instance f)
      | |- context [match map ?g ?l with _ => _ end] => destruct (map g l) as [|? [|? ?]]
      end; reflexivity.
Qed.



(** ** Taxonomy terms *)

(** X23: the data [TaxonomySchema] returns is a list of objects with the
    two keys [taxonomy_uid] and [term_uid], both strings: here, unlike in
    groups and blocks, every other key of an item is dropped. *)
Theorem taxonomy_terms_are_normalised (v data : value) :
  parse TaxonomySchema v = Some data ->
  exists terms,
    data = VArr terms
    /\ Forall (fun t => exists taxonomy term,
                 t = VObj [ ("taxonomy_uid", VStr taxonomy); ("term_uid", VStr term) ])
         terms.
Proof.
  unfold TaxonomySchema. intros H.
  apply parse_array_inv in H as (items & terms & _ & Hterms & -> & _).
  exists terms. split; [reflexivity|].
  eapply mapM_Forall; [|exact Hterms]. intros x t Ht.
  apply parse_object_inv in Ht as (o & parsed & _ & Hp & ->).
  unfold parseShape in Hp. cbn [mapM fst snd parse parseString forallb] in Hp.
  destruct (lookup "taxonomy_uid" o) as [| | | |taxonomy| |]; try discriminate.
  destruct (lookup "term_uid" o) as [| | | |term| |]; try discriminate.
  cbn [bind] in Hp. injection Hp as <-.
  exists taxonomy, term. unfold objectResult.
  cbn [filter fst snd isUndefined negb]. rewrite !orb_true_r. reflexivity.
Qed.

Lemma taxonomy_terms_are_normalised_witness :
  exists terms,
    VArr [ VObj [ ("taxonomy_uid", VStr "colour"); ("term_uid", VStr "red") ] ]
    = VArr terms
    /\ Forall (fun t => exists taxonomy term,
                 t = VObj [ ("taxonomy_uid", VStr taxonomy); ("term_uid", VStr term) ])
         terms.
Proof.
  apply (taxonomy_terms_are_normalised
           (VArr [ VObj [ ("term_uid", VStr "red"); ("taxonomy_uid", VStr "colour");
                          ("note", VStr "x") ] ])).
  reflexivity.
Defined.

End SchemaMore.

(** * From validation to rendering *)

Module PipelineFacts.

Import Markdown Schema MarkdownFacts ZodFacts SchemaFacts MarkdownMore RichTextFacts
  LayoutFacts SchemaMore.

Lemma link_renders (h : Host) (v data : value) (field : ContentstackField)
  (options : RequiredOptions) :
  data_type field = "link" ->
  coercible v = true ->
  parse LinkSchema v = Some data ->
  exists s, primitiveToMarkdown h v field options = Some s.
Proof.
  intros Htype Hco H. unfold LinkSchema in H.
  assert (Hacc : accepts (ZObject [ ("title", optionalString); ("href", optionalString) ]
                            Passthrough) v = true) by (apply accepts_true; eauto).
  destruct v as [| | | | | |o]; try discriminate.
  apply object_accepts in Hacc.
  inversion Hacc as [|? ? Htitle _]; subst. cbn [fst snd] in *.
  unfold primitiveToMarkdown. rewrite Htype.
  cbn [isEmpty String.eqb Ascii.eqb Bool.eqb getProp bind].
  destruct (truthy (lookup "href" o)).
  - destruct (coercible_toString (orElse (lookup "title" o) (lookup "href" o)))
      as [text ->]; [apply coercible_orElse; now apply coercible_lookup|].
    destruct (coercible_toString (lookup "href" o)) as [target ->];
      [now apply coercible_lookup|].
    cbn [bind]. eauto.
  - unfold optionalString in Htitle. apply optional_accepts in Htitle as [->|Hs];
      unfold asStringOr; cbn [truthy]; [eauto|].
    destruct (lookup "title" o) as [| | | |s| |]; try discriminate.
    cbn [truthy]. destruct (negb (s === "")); eauto.
Qed.

Lemma taxonomy_renders (h : Host) (v data : value) (field : ContentstackField)
  (options : RequiredOptions) :
  data_type field = "taxonomy" ->
  coercible v = true ->
  parse TaxonomySchema v = Some data ->
  exists s, primitiveToMarkdown h v field options = Some s.
Proof.
  intros Htype Hco H. unfold TaxonomySchema in H.
  apply parse_array_inv in H as (items & terms & -> & Hterms & _ & _).
  unfold primitiveToMarkdown. rewrite Htype.
  destruct (isEmpty (VArr items)); [eauto|].
  cbn [String.eqb Ascii.eqb Bool.eqb orb].
  destruct (mapM_total
              (fun t => let* term_uid := getProp t "term_uid" in
                        let* text := toString term_uid in
                        Some ("- " ++ text)) items) as [lines ->];
    [|cbn [bind orb]; eauto].
  apply mapM_inv in Hterms. rewrite Forall_forall in *. intros t Hin.
  destruct (Hterms t Hin) as [d Hd]. destruct t as [| | | | | |o]; try discriminate.
  cbn [getProp bind].
  destruct (coercible_toString (lookup "term_uid" o)) as [text ->];
    [apply coercible_lookup; exact (coercible_item items _ Hco Hin)|].
  cbn [bind]. eauto.
Qed.

(** X25: validation protects the renderer, up to the coercions to a
    string: for a field that is not [multiple] and of type text, boolean,
    isodate, link, taxonomy or json (rich text or not),
    [primitiveToMarkdown] returns a string for every value that the
    field's validator accepts, in either mode, and in which no object has
    an own property named [toString], provided the date formatter of the
    options does not throw. *)
Theorem validated_value_renders (h : Host) (mode : option SchemaOptions)
  (field : ContentstackField) (options : RequiredOptions) (v data : value) :
  multiple field = false ->
  In (data_type field) [ "text"; "boolean"; "isodate"; "link"; "taxonomy"; "json" ] ->
  (forall isoDate, exists formatted, formatDate options isoDate = Some formatted) ->
  coercible v = true ->
  parse (fieldToZod h mode field) v = Some data ->
  exists s, primitiveToMarkdown h v field options = Some s.
Proof.
  intros Hmult Htype Hformat Hco Hparse.
  destruct (isEmpty v) eqn:Hempty;
    [rewrite (primitiveToMarkdown_empty h v field options Hempty); eauto|].
  assert (Hbase : parse (baseSchema h mode field) v = Some data).
  { rewrite fieldToZod_unfold in Hparse. unfold wrapField, describe in Hparse.
    rewrite Hmult in Hparse. cbn [andb] in Hparse.
    destruct (negb (mandatory field)); [|exact Hparse].
    destruct v; try discriminate; exact Hparse. }
  clear Hparse. unfold baseSchema in Hbase.
  destruct (coercible_toString v Hco) as [text Htext].
  cbn [In] in Htype.
  destruct Htype as [Ht|[Ht|[Ht|[Ht|[Ht|[Ht|[]]]]]]]; symmetry in Ht.
  - rewrite Ht in Hbase. cbn [String.eqb Ascii.eqb Bool.eqb orb] in Hbase.
    assert (Hstr : exists s, v = VStr s).
    { destruct (metaFlag allow_rich_text field);
        [|destruct (enumValues field);
          [destruct (present (format field)); [destruct (RegExp h _)|]|]];
        destruct v; try discriminate; eauto. }
    destruct Hstr as [s ->].
    unfold primitiveToMarkdown. rewrite Hempty, Ht.
    cbn [String.eqb Ascii.eqb Bool.eqb orb toString]. eauto.
  - unfold primitiveToMarkdown. rewrite Hempty, Ht.
    cbn [String.eqb Ascii.eqb Bool.eqb orb]. eauto.
  - unfold primitiveToMarkdown. rewrite Hempty, Ht.
    cbn [String.eqb Ascii.eqb Bool.eqb orb]. rewrite Htext. cbn [bind].
    apply Hformat.
  - rewrite Ht in Hbase. cbn [String.eqb Ascii.eqb Bool.eqb orb] in Hbase.
    exact (link_renders h v data field options Ht Hco Hbase).
  - rewrite Ht in Hbase. cbn [String.eqb Ascii.eqb Bool.eqb orb] in Hbase.
    exact (taxonomy_renders h v data field options Ht Hco Hbase).
  - rewrite Ht in Hbase. cbn [String.eqb Ascii.eqb Bool.eqb orb] in Hbase.
    unfold primitiveToMarkdown. rewrite Hempty, Ht.
    cbn [String.eqb Ascii.eqb Bool.eqb orb].
    destruct (metaFlag allow_json_rte field); [|eauto].
    exact (document_renders v data Hco Hbase).
Qed.

Lemma validated_value_renders_witness :
  exists s,
    primitiveToMarkdown Samples.host
      (VObj [ ("title", VStr "Docs"); ("href", VStr "https://example.com") ])
      (Samples.named "more" "link" "More" true) (Samples.options false) = Some s.
Proof.
  apply (validated_value_renders Samples.host None
           (Samples.named "more" "link" "More" true) (Samples.options false)
           (VObj [ ("title", VStr "Docs"); ("href", VStr "https://example.com") ])
           (VObj [ ("title", VStr "Docs"); ("href", VStr "https://example.com") ])
           eq_refl).
  - cbn. tauto.
  - intros isoDate. now exists isoDate.
  - reflexivity.
  - reflexivity.
Defined.

End PipelineFacts.
